(** * The [autopart] kickstart command across syntax versions

    A shallow embedding of [pykickstart/commands/autopart.py]: the twelve
    command classes [FC3_AutoPart] ... [F26_AutoPart], their [__str__]
    (serialization), [_getParser] (option schema) and [parse] methods, and
    the properties the specification states about them.

    Python values are modelled as follows.
    - [str] is [string]; a character stands for the code point of the same
      number, so the model covers strings of code points below 256.
    - An attribute that holds a string or [None] is an [option string].
    - The object [self] is the record [AutoPart]; a method that mutates
      [self] or raises is a computation in the monad [M] below, whose
      result keeps the mutated object also when an exception is raised. *)

From Stdlib Require Import String Ascii List Bool Arith Lia.
Import ListNotations.
Open Scope string_scope.

(** ** Python strings *)

Module PyStr.

Definition LF : ascii := "010"%char.
Definition DQUOTE : ascii := "034"%char.

(** The one-character string of a line feed, and a value between double
    quotes. *)
Definition nl : string := String LF EmptyString.
Definition quoted (s : string) : string :=
  String DQUOTE (s ++ String DQUOTE EmptyString).

(** [str.isspace] on one code point below 256: TAB..CR, FS..US, SPACE,
    NEL (0x85) and NBSP (0xA0). *)
Definition isspace (c : ascii) : bool :=
  let n := nat_of_ascii c in
  (Nat.leb 9 n && Nat.leb n 13) || (Nat.leb 28 n && Nat.leb n 32)
  || Nat.eqb n 133 || Nat.eqb n 160.

Fixpoint lstrip (s : string) : string :=
  match s with
  | EmptyString => EmptyString
  | String c r => if isspace c then lstrip r else s
  end.

Fixpoint rstrip (s : string) : string :=
  match s with
  | EmptyString => EmptyString
  | String c r =>
      match rstrip r with
      | EmptyString => if isspace c then EmptyString else String c EmptyString
      | r' => String c r'
      end
  end.

(** [s.strip()] *)
Definition strip (s : string) : string := rstrip (lstrip s).

(** [c.lower()] on one code point below 256: A..Z and the Latin-1
    capitals 0xC0..0xDE other than the multiplication sign 0xD7. *)
Definition lower_char (c : ascii) : ascii :=
  let n := nat_of_ascii c in
  if (Nat.leb 65 n && Nat.leb n 90)
     || (Nat.leb 192 n && Nat.leb n 222 && negb (Nat.eqb n 215))
  then ascii_of_nat (n + 32) else c.

Fixpoint lower (s : string) : string :=
  match s with
  | EmptyString => EmptyString
  | String c r => String (lower_char c) (lower r)
  end.

(** Truth value of an attribute that is a string or [None]. *)
Definition truthy (v : option string) : bool :=
  match v with
  | Some (String _ _) => true
  | _ => false
  end.

(** ["%s" % v] *)
Definition fmt (v : option string) : string :=
  match v with
  | Some s => s
  | None => "None"
  end.

Fixpoint count (c : ascii) (s : string) : nat :=
  match s with
  | EmptyString => 0
  | String d r => (if Ascii.eqb c d then 1 else 0) + count c r
  end.

Fixpoint endswith_char (s : string) (c : ascii) : bool :=
  match s with
  | EmptyString => false
  | String d EmptyString => Ascii.eqb d c
  | String _ r => endswith_char r c
  end.

End PyStr.

(** ** Versions and the class hierarchy *)

Inductive version : Set :=
| FC3 | F9 | F12 | RHEL6 | F16 | F17 | F18 | F20 | F21 | F23 | RHEL7 | F26.

Definition all_versions : list version :=
  [FC3; F9; F12; RHEL6; F16; F17; F18; F20; F21; F23; RHEL7; F26].

Definition version_eqb (a b : version) : bool :=
  match a, b with
  | FC3, FC3 | F9, F9 | F12, F12 | RHEL6, RHEL6 | F16, F16 | F17, F17
  | F18, F18 | F20, F20 | F21, F21 | F23, F23 | RHEL7, RHEL7 | F26, F26 => true
  | _, _ => false
  end.

(** The base class named in each [class X_AutoPart(Y_AutoPart)] statement;
    [FC3_AutoPart] derives from [KickstartCommand]. *)
Definition base (cls : version) : option version :=
  match cls with
  | FC3 => None
  | F9 => Some FC3
  | F12 => Some F9
  | RHEL6 => Some F12
  | F16 => Some F12
  | F17 => Some F16
  | F18 => Some F17
  | F20 => Some F18
  | F21 => Some F20
  | F23 => Some F21
  | RHEL7 => Some F21
  | F26 => Some F23
  end.

Fixpoint inherits_upto (fuel : nat) (cls anc : version) : bool :=
  version_eqb cls anc
  || match fuel, base cls with
     | S n, Some b => inherits_upto n b anc
     | _, _ => false
     end.

(** [inherits cls anc]: class [cls] is [anc] or derives from it.  This is
    the order "[cls] is [anc] or later" of the command's history. *)
Definition inherits (cls anc : version) : bool :=
  inherits_upto (List.length all_versions) cls anc.

(** ** The command object *)

(** The constants [AUTOPART_TYPE_*] of [pykickstart.constants]: four
    pairwise distinct values. *)
Inductive autopart_type : Set :=
| AUTOPART_TYPE_PLAIN | AUTOPART_TYPE_BTRFS | AUTOPART_TYPE_LVM
| AUTOPART_TYPE_LVM_THINP.

Definition autopart_type_eqb (a b : autopart_type) : bool :=
  match a, b with
  | AUTOPART_TYPE_PLAIN, AUTOPART_TYPE_PLAIN
  | AUTOPART_TYPE_BTRFS, AUTOPART_TYPE_BTRFS
  | AUTOPART_TYPE_LVM, AUTOPART_TYPE_LVM
  | AUTOPART_TYPE_LVM_THINP, AUTOPART_TYPE_LVM_THINP => true
  | _, _ => false
  end.

(** The attributes the classes read and write.  [seen] is the attribute of
    [KickstartCommand] that other commands consult; [autopart] is the
    "present" flag.  An attribute that a class does not have is carried
    along untouched by that class. *)
Record AutoPart : Set := mkAutoPart {
  seen : bool;
  autopart : bool;
  encrypted : bool;
  passphrase : option string;
  escrowcert : option string;
  backuppassphrase : bool;
  cipher : option string;
  lvm : bool;
  type : option autopart_type;
  fstype : option string;
  nohome : bool;
  noboot : bool;
  noswap : bool
}.

Definition set_seen v (o : AutoPart) :=
  mkAutoPart v (autopart o) (encrypted o) (passphrase o) (escrowcert o)
    (backuppassphrase o) (cipher o) (lvm o) (type o) (fstype o) (nohome o)
    (noboot o) (noswap o).
Definition set_autopart v (o : AutoPart) :=
  mkAutoPart (seen o) v (encrypted o) (passphrase o) (escrowcert o)
    (backuppassphrase o) (cipher o) (lvm o) (type o) (fstype o) (nohome o)
    (noboot o) (noswap o).
Definition set_encrypted v (o : AutoPart) :=
  mkAutoPart (seen o) (autopart o) v (passphrase o) (escrowcert o)
    (backuppassphrase o) (cipher o) (lvm o) (type o) (fstype o) (nohome o)
    (noboot o) (noswap o).
Definition set_passphrase v (o : AutoPart) :=
  mkAutoPart (seen o) (autopart o) (encrypted o) v (escrowcert o)
    (backuppassphrase o) (cipher o) (lvm o) (type o) (fstype o) (nohome o)
    (noboot o) (noswap o).
Definition set_escrowcert v (o : AutoPart) :=
  mkAutoPart (seen o) (autopart o) (encrypted o) (passphrase o) v
    (backuppassphrase o) (cipher o) (lvm o) (type o) (fstype o) (nohome o)
    (noboot o) (noswap o).
Definition set_backuppassphrase v (o : AutoPart) :=
  mkAutoPart (seen o) (autopart o) (encrypted o) (passphrase o) (escrowcert o)
    v (cipher o) (lvm o) (type o) (fstype o) (nohome o)
    (noboot o) (noswap o).
Definition set_cipher v (o : AutoPart) :=
  mkAutoPart (seen o) (autopart o) (encrypted o) (passphrase o) (escrowcert o)
    (backuppassphrase o) v (lvm o) (type o) (fstype o) (nohome o)
    (noboot o) (noswap o).
Definition set_lvm v (o : AutoPart) :=
  mkAutoPart (seen o) (autopart o) (encrypted o) (passphrase o) (escrowcert o)
    (backuppassphrase o) (cipher o) v (type o) (fstype o) (nohome o)
    (noboot o) (noswap o).
Definition set_type v (o : AutoPart) :=
  mkAutoPart (seen o) (autopart o) (encrypted o) (passphrase o) (escrowcert o)
    (backuppassphrase o) (cipher o) (lvm o) v (fstype o) (nohome o)
    (noboot o) (noswap o).
Definition set_fstype v (o : AutoPart) :=
  mkAutoPart (seen o) (autopart o) (encrypted o) (passphrase o) (escrowcert o)
    (backuppassphrase o) (cipher o) (lvm o) (type o) v (nohome o)
    (noboot o) (noswap o).
Definition set_nohome v (o : AutoPart) :=
  mkAutoPart (seen o) (autopart o) (encrypted o) (passphrase o) (escrowcert o)
    (backuppassphrase o) (cipher o) (lvm o) (type o) (fstype o) v
    (noboot o) (noswap o).
Definition set_noboot v (o : AutoPart) :=
  mkAutoPart (seen o) (autopart o) (encrypted o) (passphrase o) (escrowcert o)
    (backuppassphrase o) (cipher o) (lvm o) (type o) (fstype o) (nohome o)
    v (noswap o).
Definition set_noswap v (o : AutoPart) :=
  mkAutoPart (seen o) (autopart o) (encrypted o) (passphrase o) (escrowcert o)
    (backuppassphrase o) (cipher o) (lvm o) (type o) (fstype o) (nohome o)
    (noboot o) v.

(** The object each [__init__] chain builds when no keyword argument is
    given (the attributes of later classes are at the defaults those
    classes give them). *)
Definition init : AutoPart :=
  mkAutoPart false false false (Some "") (Some "") false (Some "") true None
    (Some "") false false false.

(** ** Serialization: the [__str__] methods *)

(** Modelled from the spec: [KickstartCommand.__str__] of
    [pykickstart/base.py] is not part of this file; a command that was never
    invoked produces an empty string, which is what the base method
    contributes. *)
Definition KickstartCommand_str (self : AutoPart) : string := "".

Definition FC3_str (self : AutoPart) : string :=
  let retval := KickstartCommand_str self in
  let retval := if autopart self then retval ++ "autopart" ++ PyStr.nl else retval in
  retval.

Definition F9_str (self : AutoPart) : string :=
  let retval := KickstartCommand_str self in
  if negb (autopart self) then retval else
  let retval := retval ++ "autopart" in
  let retval :=
    if encrypted self then
      let retval := retval ++ " --encrypted" in
      if PyStr.truthy (passphrase self)
      then retval ++ " --passphrase=" ++ PyStr.quoted (PyStr.fmt (passphrase self))
      else retval
    else retval in
  retval ++ PyStr.nl.

Definition F12_str (self : AutoPart) : string :=
  let retval := F9_str self in
  if negb (autopart self) then retval else
  if encrypted self && PyStr.truthy (escrowcert self) then
    let retval := PyStr.strip retval in
    let retval := retval ++ " --escrowcert=" ++ PyStr.quoted (PyStr.fmt (escrowcert self)) in
    let retval := if backuppassphrase self then retval ++ " --backuppassphrase" else retval in
    retval ++ PyStr.nl
  else retval.

Definition RHEL6_str (self : AutoPart) : string :=
  let retval := F12_str self in
  if negb (autopart self) then retval else
  if encrypted self && PyStr.truthy (cipher self) then
    let retval := PyStr.strip retval in
    let retval := retval ++ " --cipher=" ++ PyStr.quoted (PyStr.fmt (cipher self)) in
    retval ++ PyStr.nl
  else retval.

Definition F16_str (self : AutoPart) : string :=
  let retval := F12_str self in
  if negb (autopart self) then retval else
  if negb (lvm self) then
    let retval := PyStr.strip retval in
    let retval := retval ++ " --nolvm" in
    retval ++ PyStr.nl
  else retval.

(** [self.typeMap]: the dictionary [F17_AutoPart.__init__] builds, in
    insertion order, with the entry [F20_AutoPart.__init__] adds.  The
    classes before F17 have no such attribute and never read it. *)
Definition typeMap (cls : version) : list (string * autopart_type) :=
  if inherits cls F17 then
    [("lvm", AUTOPART_TYPE_LVM); ("btrfs", AUTOPART_TYPE_BTRFS);
     ("plain", AUTOPART_TYPE_PLAIN); ("partition", AUTOPART_TYPE_PLAIN)]
    ++ (if inherits cls F20 then [("thinp", AUTOPART_TYPE_LVM_THINP)] else [])
  else [].

(** The loop of [_typeAsStr]: the first key whose value equals [self.type]. *)
Fixpoint typeMap_find (items : list (string * autopart_type))
    (ty : option autopart_type) : option string :=
  match items with
  | [] => None
  | (key, value) :: rest =>
      if match ty with
         | Some t => autopart_type_eqb value t
         | None => false
         end
      then Some key else typeMap_find rest ty
  end.

Definition _typeAsStr (cls : version) (self : AutoPart) : option string :=
  let retval := typeMap_find (typeMap cls) (type self) in
  match retval with
  | Some key => if String.eqb key "partition" then Some "plain" else retval
  | None => retval
  end.

Definition F17_str (cls : version) (self : AutoPart) : string :=
  let retval := F16_str self in
  if negb (autopart self) then retval else
  let ty := _typeAsStr cls self in
  if PyStr.truthy ty then
    let retval := PyStr.strip retval in
    retval ++ " --type=" ++ PyStr.fmt ty ++ PyStr.nl
  else retval.

Definition F18_str (cls : version) (self : AutoPart) : string :=
  let retval := F17_str cls self in
  if negb (autopart self) then retval else
  if encrypted self && PyStr.truthy (cipher self) then
    let retval := PyStr.strip retval in
    let retval := retval ++ " --cipher=" ++ PyStr.quoted (PyStr.fmt (cipher self)) in
    retval ++ PyStr.nl
  else retval.

(** [F20_AutoPart] defines no [__str__]: it inherits the one of F18. *)
Definition F20_str := F18_str.

Definition F21_str (cls : version) (self : AutoPart) : string :=
  let retval := F20_str cls self in
  if negb (autopart self) then retval else
  if PyStr.truthy (fstype self) then
    let retval := PyStr.strip retval in
    let retval := retval ++ " --fstype=" ++ PyStr.fmt (fstype self) in
    retval ++ PyStr.nl
  else retval.

(** [F23_AutoPart] defines no [__str__] either. *)
Definition F23_str := F21_str.

Definition RHEL7_str (cls : version) (self : AutoPart) : string :=
  let retval := F21_str cls self in
  if negb (autopart self) then retval else
  if nohome self then
    let retval := PyStr.strip retval in
    let retval := retval ++ " --nohome" in
    retval ++ PyStr.nl
  else retval.

Definition F26_str (cls : version) (self : AutoPart) : string :=
  let retval := F23_str cls self in
  if negb (autopart self) then retval else
  let retval :=
    if nohome self then
      let retval := PyStr.strip retval in
      let retval := retval ++ " --nohome" in
      retval ++ PyStr.nl
    else retval in
  let retval :=
    if noboot self then
      let retval := PyStr.strip retval in
      let retval := retval ++ " --noboot" in
      retval ++ PyStr.nl
    else retval in
  let retval :=
    if noswap self then
      let retval := PyStr.strip retval in
      let retval := retval ++ " --noswap" in
      retval ++ PyStr.nl
    else retval in
  retval.

(** [str(self)] for an object of class [cls]: the method the class defines
    or inherits. *)
Definition __str__ (cls : version) (self : AutoPart) : string :=
  match cls with
  | FC3 => FC3_str self
  | F9 => F9_str self
  | F12 => F12_str self
  | RHEL6 => RHEL6_str self
  | F16 => F16_str self
  | F17 => F17_str cls self
  | F18 => F18_str cls self
  | F20 => F20_str cls self
  | F21 => F21_str cls self
  | F23 => F23_str cls self
  | RHEL7 => RHEL7_str cls self
  | F26 => F26_str cls self
  end.

(** ** Errors *)

(** The failures of the option parser, which [KSOptionParser.error] turns
    into a [KickstartParseError] carrying argparse's message. *)
Inductive ArgumentError : Set :=
| UnrecognizedArguments (extras : list string)
| ExpectedOneArgument (option_string : string)
| IgnoredExplicitArgument (option_string explicit_arg : string).

(** Every error of this file is a [KickstartParseError]; the constructors
    are the messages it is raised with. *)
Inductive KickstartParseError : Set :=
| DoesNotTakeAnyArguments
    (* Kickstart command autopart does not take any arguments *)
| OptionParserError (e : ArgumentError)
| InvalidAutopartType (value : string)
    (* Invalid autopart type: value *)
| CantBeUsedAtTheSameTime (conflicting_command : string)
    (* The conflicting_command and autopart commands can't be used at the
       same time *)
| FstypeBtrfsNotValid
    (* autopart --fstype=btrfs is not valid fstype, use --type=btrfs instead *)
| FstypeWithTypeBtrfs.
    (* autopart --fstype cannot be used with --type=btrfs *)

(** The error kinds the specification names, and the kind of each message. *)
Inductive ErrorKind : Set :=
| UnexpectedArgument | UnknownOption | InvalidOptionValue
| ConflictingDirectives | InvalidOptionCombination.

Definition error_kind (e : KickstartParseError) : ErrorKind :=
  match e with
  | DoesNotTakeAnyArguments => UnexpectedArgument
  | OptionParserError (UnrecognizedArguments _) => UnknownOption
  | OptionParserError (ExpectedOneArgument _) => InvalidOptionValue
  | OptionParserError (IgnoredExplicitArgument _ _) => InvalidOptionValue
  | InvalidAutopartType _ => InvalidOptionValue
  | CantBeUsedAtTheSameTime _ => ConflictingDirectives
  | FstypeBtrfsNotValid => InvalidOptionCombination
  | FstypeWithTypeBtrfs => InvalidOptionCombination
  end.

(** ** The option parser *)

(** A value an option stores in the namespace. *)
Inductive value : Set :=
| VNone
| VBool (b : bool)
| VStr (s : string)
| VType (t : autopart_type).

Inductive action_kind : Type :=
| store (type : string -> KickstartParseError + value)
| store_const (const : value).

(** One [add_argument] call.  [store_true] and [store_false] are
    [store_const] with the constants [True] and [False]; an option without
    [type=] stores the string it is given; an option without [default=] has
    the default [None]; [dest] is the option name unless given. *)
Record Action : Type := mkAction {
  option_string : string;
  action : action_kind;
  dest : string;
  default : value;
  introduced : version
}.

Definition store_true := store_const (VBool true).
Definition store_false := store_const (VBool false).
Definition store_str := store (fun s => inr (VStr s)).

(** The parser's [_actions], in registration order. *)
Definition OptionParser := list Action.

(** Modelled from the spec: [KSOptionParser] of [pykickstart/options.py] is
    not part of this file.  It is the argparse parser the [add_argument]
    calls of this file are written for, which takes a [version] with every
    option and reports failures as [KickstartParseError].  Declaring an
    option string a second time replaces the earlier declaration (F17
    declares [--nolvm] again), "with same-named later entries overriding
    earlier ones". *)
Definition add_argument (a : Action) (op : OptionParser) : OptionParser :=
  (filter (fun b => negb (String.eqb (option_string b) (option_string a))) op
   ++ [a])%list.

Definition find_action (op : OptionParser) (s : string) : option Action :=
  find (fun a => String.eqb (option_string a) s) op.

(** The namespace [parse_args] returns: attribute names with their values,
    in the order they were first set. *)
Definition Namespace := list (string * value).

Fixpoint ns_set (key : string) (v : value) (ns : Namespace) : Namespace :=
  match ns with
  | [] => [(key, v)]
  | (k, w) :: rest =>
      if String.eqb k key then (k, v) :: rest else (k, w) :: ns_set key v rest
  end.

Fixpoint ns_get (key : string) (ns : Namespace) : option value :=
  match ns with
  | [] => None
  | (k, w) :: rest => if String.eqb k key then Some w else ns_get key rest
  end.

(** The defaults: for each action in turn, its default unless the attribute
    is set already. *)
Definition ns_defaults (op : OptionParser) : Namespace :=
  fold_left
    (fun ns a =>
       match ns_get (dest a) ns with
       | Some _ => ns
       | None => ns_set (dest a) (default a) ns
       end)
    op [].

(** [s.split("=", 1)] when [s] contains an equals sign. *)
Fixpoint split_eq (s : string) : option (string * string) :=
  match s with
  | EmptyString => None
  | String c r =>
      if Ascii.eqb c "="%char then Some (EmptyString, r)
      else match split_eq r with
           | Some (a, b) => Some (String c a, b)
           | None => None
           end
  end.

Fixpoint contains_char (c : ascii) (s : string) : bool :=
  match s with
  | EmptyString => false
  | String d r => Ascii.eqb c d || contains_char c r
  end.

Definition is_digit (c : ascii) : bool :=
  let n := nat_of_ascii c in Nat.leb 48 n && Nat.leb n 57.

Fixpoint all_digits (s : string) : bool :=
  match s with
  | EmptyString => true
  | String c r => is_digit c && all_digits r
  end.

(** digits, then a dot, then at least one digit and only digits *)
Fixpoint digits_dot_digits (s : string) : bool :=
  match s with
  | EmptyString => false
  | String c r =>
      if Ascii.eqb c "."%char
      then match r with EmptyString => false | _ => all_digits r end
      else is_digit c && digits_dot_digits r
  end.

(** argparse's pattern for a negative number: a dash and digits, or a dash,
    digits, a dot and digits. *)
Definition is_negative_number (s : string) : bool :=
  match s with
  | String "-"%char (String c r as t) => all_digits t || digits_dot_digits t
  | _ => false
  end.

(** How argparse reads one token: as an argument, as a declared option
    (with the text after an equals sign, if any), or as an option nobody
    declared. *)
Inductive token_class : Type :=
| Argument
| Optional (a : Action) (explicit_arg : option string)
| UnknownOptional.

Definition classify (op : OptionParser) (arg : string) : token_class :=
  match arg with
  | EmptyString => Argument
  | String c rest =>
      if negb (Ascii.eqb c "-"%char) then Argument else
      match find_action op arg with
      | Some a => Optional a None
      | None =>
          match rest with
          | EmptyString => Argument
          | _ =>
              let fallback :=
                if is_negative_number arg then Argument
                else if contains_char " "%char arg then Argument
                else UnknownOptional in
              match split_eq arg with
              | Some (o, v) =>
                  match find_action op o with
                  | Some a => Optional a (Some v)
                  | None => fallback
                  end
              | None => fallback
              end
          end
      end
  end.

(** Modelled from the spec: [KSOptionParser.parse_args] is not part of this
    file.  The parser "tokenizes remaining tokens into flag/value pairs; for
    each recognized flag, applies its coercion; unrecognized flags fail".
    As in argparse, the tokens are read from left to right and each
    declared option stores its value when it is met; a coercion that raises
    ends the parse at once; the tokens nobody consumed are reported
    together at the end.  An option that takes a value takes it from the
    text after its equals sign, or else from the next token when that is an
    argument.  Abbreviated option names and the [--] separator are not
    modelled. *)
Fixpoint consume (op : OptionParser) (args : list string) (ns : Namespace)
    (extras : list string) : KickstartParseError + Namespace :=
  match args with
  | [] =>
      match extras with
      | [] => inr ns
      | _ => inl (OptionParserError (UnrecognizedArguments extras))
      end
  | arg :: rest =>
      match classify op arg with
      | Argument | UnknownOptional => consume op rest ns (extras ++ [arg])%list
      | Optional a explicit_arg =>
          match action a, explicit_arg with
          | store_const const, None =>
              consume op rest (ns_set (dest a) const ns) extras
          | store_const _, Some v =>
              inl (OptionParserError (IgnoredExplicitArgument (option_string a) v))
          | store type, Some v =>
              match type v with
              | inl e => inl e
              | inr w => consume op rest (ns_set (dest a) w ns) extras
              end
          | store type, None =>
              match rest with
              | v :: rest' =>
                  match classify op v with
                  | Argument =>
                      match type v with
                      | inl e => inl e
                      | inr w => consume op rest' (ns_set (dest a) w ns) extras
                      end
                  | _ => inl (OptionParserError (ExpectedOneArgument (option_string a)))
                  end
              | [] => inl (OptionParserError (ExpectedOneArgument (option_string a)))
              end
          end
      end
  end.

Definition parse_args (op : OptionParser) (args : list string)
  : KickstartParseError + Namespace :=
  consume op args (ns_defaults op) [].

(** ** The option schema: the [_getParser] methods *)

Definition FC3_getParser : OptionParser := [].

Definition F9_getParser : OptionParser :=
  let op := FC3_getParser in
  let op := add_argument (mkAction "--encrypted" store_true "encrypted" (VBool false) F9) op in
  let op := add_argument (mkAction "--passphrase" store_str "passphrase" VNone F9) op in
  op.

Definition F12_getParser : OptionParser :=
  let op := F9_getParser in
  let op := add_argument (mkAction "--escrowcert" store_str "escrowcert" VNone F12) op in
  let op := add_argument (mkAction "--backuppassphrase" store_true "backuppassphrase" (VBool false) F12) op in
  op.

Definition RHEL6_getParser : OptionParser :=
  let op := F12_getParser in
  let op := add_argument (mkAction "--cipher" store_str "cipher" VNone RHEL6) op in
  op.

Definition F16_getParser : OptionParser :=
  let op := F12_getParser in
  let op := add_argument (mkAction "--nolvm" store_false "lvm" (VBool true) F16) op in
  op.

Fixpoint typeMap_get (items : list (string * autopart_type)) (key : string)
  : option autopart_type :=
  match items with
  | [] => None
  | (k, v) :: rest => if String.eqb k key then Some v else typeMap_get rest key
  end.

Definition _type_cb (cls : version) (v : string) : KickstartParseError + value :=
  match typeMap_get (typeMap cls) (PyStr.lower v) with
  | Some t => inr (VType t)
  | None => inl (InvalidAutopartType v)
  end.

Definition F17_getParser (cls : version) : OptionParser :=
  let op := F16_getParser in
  let op := add_argument (mkAction "--nolvm" (store_const (VType AUTOPART_TYPE_PLAIN)) "type" VNone F17) op in
  let op := add_argument (mkAction "--type" (store (_type_cb cls)) "type" VNone F17) op in
  op.

Definition F18_getParser (cls : version) : OptionParser :=
  let op := F17_getParser cls in
  let op := add_argument (mkAction "--cipher" store_str "cipher" VNone F18) op in
  op.

(** [F20_AutoPart._getParser] only extends the help text of [--type]. *)
Definition F20_getParser (cls : version) : OptionParser := F18_getParser cls.

Definition F21_getParser (cls : version) : OptionParser :=
  let op := F20_getParser cls in
  let op := add_argument (mkAction "--fstype" store_str "fstype" VNone F21) op in
  op.

Definition RHEL7_getParser (cls : version) : OptionParser :=
  let op := F21_getParser cls in
  let op := add_argument (mkAction "--nohome" store_true "nohome" (VBool false) RHEL7) op in
  op.

Definition F26_getParser (cls : version) : OptionParser :=
  let op := F21_getParser cls in
  let op := add_argument (mkAction "--nohome" store_true "nohome" (VBool false) F26) op in
  let op := add_argument (mkAction "--noboot" store_true "noboot" (VBool false) F26) op in
  let op := add_argument (mkAction "--noswap" store_true "noswap" (VBool false) F26) op in
  op.

(** [self._getParser()] for an object of class [cls]; F23 inherits the
    method of F21. *)
Definition _getParser (cls : version) : OptionParser :=
  match cls with
  | FC3 => FC3_getParser
  | F9 => F9_getParser
  | F12 => F12_getParser
  | RHEL6 => RHEL6_getParser
  | F16 => F16_getParser
  | F17 => F17_getParser cls
  | F18 => F18_getParser cls
  | F20 => F20_getParser cls
  | F21 => F21_getParser cls
  | F23 => F21_getParser cls
  | RHEL7 => RHEL7_getParser cls
  | F26 => F26_getParser cls
  end.

(** ** Parsing: the [parse] methods *)

(** What a method does to [self]: it returns or raises, and leaves the
    object as it is at that point. *)
Definition M (A : Type) : Type := AutoPart -> (KickstartParseError + A) * AutoPart.

Definition ret {A : Type} (a : A) : M A := fun self => (inr a, self).

Definition bind {A B : Type} (m : M A) (k : A -> M B) : M B :=
  fun self =>
    match m self with
    | (inr a, self') => k a self'
    | (inl e, self') => (inl e, self')
    end.

Definition raise {A : Type} (e : KickstartParseError) : M A :=
  fun self => (inl e, self).

Definition lift {A : Type} (r : KickstartParseError + A) : M A :=
  fun self => (r, self).

Definition get : M AutoPart := fun self => (inr self, self).

Definition modify (f : AutoPart -> AutoPart) : M unit :=
  fun self => (inr tt, f self).

Notation "x <- m ;; k" := (bind m (fun x => k))
  (at level 61, m at next level, right associativity).
Notation "m ;;; k" := (bind m (fun _ => k))
  (at level 61, right associativity).

(** [setattr(self, key, val)] for the attributes and values the parsers of
    this file produce ([val] is [None] sets the attribute to [None]). *)
Definition setattr (key : string) (val : value) (self : AutoPart) : AutoPart :=
  let str_or_none := match val with VStr s => Some s | _ => None end in
  match val with
  | VBool b =>
      if String.eqb key "encrypted" then set_encrypted b self
      else if String.eqb key "backuppassphrase" then set_backuppassphrase b self
      else if String.eqb key "lvm" then set_lvm b self
      else if String.eqb key "nohome" then set_nohome b self
      else if String.eqb key "noboot" then set_noboot b self
      else if String.eqb key "noswap" then set_noswap b self
      else self
  | VType t =>
      if String.eqb key "type" then set_type (Some t) self else self
  | VStr _ | VNone =>
      if String.eqb key "passphrase" then set_passphrase str_or_none self
      else if String.eqb key "escrowcert" then set_escrowcert str_or_none self
      else if String.eqb key "cipher" then set_cipher str_or_none self
      else if String.eqb key "fstype" then set_fstype str_or_none self
      else if String.eqb key "type" then
        match val with VNone => set_type None self | _ => self end
      else self
  end.

Definition is_None (val : value) : bool :=
  match val with
  | VNone => true
  | _ => false
  end.

(** Modelled from the spec: [KickstartCommand.set_to_obj] and [set_to_self]
    of [pykickstart/base.py] are not part of this file.  [set_to_obj] goes
    through the attributes of the namespace and sets on the object those
    whose value is not [None] ([if val is not None: setattr(obj, key,
    val)]), so that parsing "sets no attribute beyond those present in" the
    parser of the class, and an option that is absent from the line and has
    no default leaves the attribute of the object as it was.
    [set_to_self] is [set_to_obj] on [self]. *)
Definition set_to_obj (ns : Namespace) (obj : AutoPart) : AutoPart :=
  fold_left
    (fun o kv => if is_None (snd kv) then o else setattr (fst kv) (snd kv) o)
    ns obj.

Definition set_to_self (ns : Namespace) (self : AutoPart) : AutoPart :=
  set_to_obj ns self.

(** What a command reads of [self.handler]: the [seen] attribute of the
    commands it must not be combined with.  [reqpart_seen] is [None] when
    the handler has no [reqpart] attribute. *)
Record Handler : Set := mkHandler {
  partition_seen : bool;
  raid_seen : bool;
  volgroup_seen : bool;
  logvol_seen : bool;
  reqpart_seen : option bool
}.

Definition FC3_parse (args : list string) : M unit :=
  if Nat.ltb 0 (List.length args) then raise DoesNotTakeAnyArguments
  else modify (set_autopart true).

(** [self.op] is the parser [F9_AutoPart.__init__] obtained from
    [self._getParser()], that of the object's own class. *)
Definition F9_parse (cls : version) (args : list string) : M unit :=
  ns <- lift (parse_args (_getParser cls) args) ;;
  modify (set_to_self ns) ;;;
  modify (set_autopart true).

(** The check [RHEL6_AutoPart.parse] and [F20_AutoPart.parse] both make
    after the overridden method has done its job. *)
Definition check_partitioning_commands (handler : Handler) : M unit :=
  let conflicting_command :=
    if partition_seen handler then "part/partition"
    else if raid_seen handler then "raid"
    else if volgroup_seen handler then "volgroup"
    else if logvol_seen handler then "logvol"
    else "" in
  match conflicting_command with
  | EmptyString => ret tt
  | _ => raise (CantBeUsedAtTheSameTime conflicting_command)
  end.

(** The check of [F23_AutoPart.parse] and [RHEL7_AutoPart.parse]. *)
Definition check_reqpart (handler : Handler) : M unit :=
  let conflicting_command :=
    match reqpart_seen handler with
    | Some true => "reqpart"
    | _ => ""
    end in
  match conflicting_command with
  | EmptyString => ret tt
  | _ => raise (CantBeUsedAtTheSameTime conflicting_command)
  end.

Definition F12_parse := F9_parse.

Definition RHEL6_parse (handler : Handler) (cls : version) (args : list string) : M unit :=
  F12_parse cls args ;;;
  check_partitioning_commands handler.

Definition F16_parse := F12_parse.

Definition F17_parse (cls : version) (args : list string) : M unit :=
  F16_parse cls args ;;;
  modify (set_lvm true).

Definition F18_parse := F17_parse.

Definition F20_parse (handler : Handler) (cls : version) (args : list string) : M unit :=
  F18_parse cls args ;;;
  check_partitioning_commands handler.

(** The two checks [F21_AutoPart.parse] makes after the overridden method. *)
Definition check_fstype (cls : version) : M unit :=
  self <- get ;;
  (if match fstype self with Some s => String.eqb s "btrfs" | None => false end
   then raise FstypeBtrfsNotValid else ret tt) ;;;
  (if match _typeAsStr cls self with Some s => String.eqb s "btrfs" | None => false end
      && PyStr.truthy (fstype self)
   then raise FstypeWithTypeBtrfs else ret tt).

Definition F21_parse (handler : Handler) (cls : version) (args : list string) : M unit :=
  F20_parse handler cls args ;;;
  check_fstype cls.

Definition F23_parse (handler : Handler) (cls : version) (args : list string) : M unit :=
  F21_parse handler cls args ;;;
  check_reqpart handler.

Definition RHEL7_parse (handler : Handler) (cls : version) (args : list string) : M unit :=
  F21_parse handler cls args ;;;
  check_reqpart handler.

(** [self.parse(args)] for an object of class [cls] whose handler is
    [handler]. *)
Definition parse (cls : version) (handler : Handler) (args : list string) : M unit :=
  match cls with
  | FC3 => FC3_parse args
  | F9 => F9_parse cls args
  | F12 => F12_parse cls args
  | RHEL6 => RHEL6_parse handler cls args
  | F16 => F16_parse cls args
  | F17 => F17_parse cls args
  | F18 => F18_parse cls args
  | F20 => F20_parse handler cls args
  | F21 => F21_parse handler cls args
  | F23 => F23_parse handler cls args
  | RHEL7 => RHEL7_parse handler cls args
  | F26 => F23_parse handler cls args
  end.

(** A handler in which no other command has been seen. *)
Definition fresh_handler : Handler := mkHandler false false false false (Some false).

(** * The vocabulary of the properties *)

(** ** Lines and states *)

(** [one_line s]: [s] ends with a line feed and holds no other line feed. *)
Definition one_line (s : string) : Prop :=
  PyStr.count PyStr.LF s = 1 /\ PyStr.endswith_char s PyStr.LF = true.

(** [lf_free v]: the attribute [v] holds no line feed. *)
Definition lf_free (v : option string) : Prop :=
  match v with
  | Some s => PyStr.count PyStr.LF s = 0
  | None => True
  end.


Definition attrs_lf_free (self : AutoPart) : Prop :=
  lf_free (passphrase self) /\ lf_free (escrowcert self)
  /\ lf_free (cipher self) /\ lf_free (fstype self).

(** The object once the options are processed: the namespace set on it,
    [autopart] set, and from F17 on [lvm] set again. *)
Definition applied (cls : version) (ns : Namespace) (self : AutoPart) : AutoPart :=
  let self := set_autopart true (set_to_self ns self) in
  if inherits cls F17 then set_lvm true self else self.

(** The classes whose [parse] looks for the other partitioning commands. *)
Definition checks_partitioning (cls : version) : bool :=
  inherits cls RHEL6 || inherits cls F20.

(** A computation that only looks at the object. *)
Definition read_only (m : M unit) : Prop := forall self, snd (m self) = self.

(** Modelled from the spec: the handler's dispatcher of
    [pykickstart/base.py] is not part of this file.  The parser "marks the
    directive present and updates its entry in Document Context (seenFlag =
    true) before delegating to Conflict Validation": the dispatcher sets
    [seen] on the command object and then calls its [parse]. *)
Definition dispatch (cls : version) (handler : Handler) (args : list string) : M unit :=
  modify (set_seen true) ;;;
  parse cls handler args.

(** ** Options and the classes that know them *)

(** [no_partitioning_seen handler]: none of the commands that
    [check_partitioning_commands] looks for has been seen. *)
Definition no_partitioning_seen (handler : Handler) : Prop :=
  partition_seen handler = false /\ raid_seen handler = false
  /\ volgroup_seen handler = false /\ logvol_seen handler = false.

(** The tokens that give [--type] the value [v], or nothing. *)
Definition type_tokens (ty : option string) : list string :=
  match ty with
  | Some v => ["--type=" ++ v]
  | None => []
  end.

(** [valid_type cls v]: [_type_cb] accepts the text [v]. *)
Definition valid_type (cls : version) (v : string) : Prop :=
  typeMap_get (typeMap cls) (PyStr.lower v) <> None.

Definition declares (cls : version) (o : string) : bool :=
  match find_action (_getParser cls) o with
  | Some _ => true
  | None => false
  end.

(** The option strings of the [add_argument] calls of this file. *)
Definition option_strings : list string :=
  ["--encrypted"; "--passphrase"; "--escrowcert"; "--backuppassphrase";
   "--cipher"; "--nolvm"; "--type"; "--fstype"; "--nohome"; "--noboot";
   "--noswap"].

(** [introduced_at o V2]: the [_getParser] of class [V2] adds the option
    [o] with the keyword [version=V2]. *)
Definition introduced_at (o : string) (V2 : version) : bool :=
  match find_action (_getParser V2) o with
  | Some a => version_eqb (introduced a) V2
  | None => false
  end.

(** [knows V o]: [V] is, or derives from, a class that introduces [o]. *)
Definition knows (V : version) (o : string) : bool :=
  existsb (fun V2 => introduced_at o V2 && inherits V V2) all_versions.

(** The position of the class in this file. *)
Definition class_index (V : version) : nat :=
  match V with
  | FC3 => 0 | F9 => 1 | F12 => 2 | RHEL6 => 3 | F16 => 4 | F17 => 5
  | F18 => 6 | F20 => 7 | F21 => 8 | F23 => 9 | RHEL7 => 10 | F26 => 11
  end.

(** The line that gives the option of [a] (with the value [v] when it
    takes one), and what the option then stores. *)
Definition supply (a : Action) (v : string) : list string :=
  match action a with
  | store _ => [option_string a ++ "=" ++ v]
  | store_const _ => [option_string a]
  end.

Definition coerce (a : Action) (v : string) : KickstartParseError + value :=
  match action a with
  | store type => type v
  | store_const const => inr const
  end.

(** [accepted cls o v]: the parser of [cls] has the option [o], and reads
    the line that supplies it as that option: it stores the value, unless
    the coercion of the option refuses [v]. *)
Definition accepted (cls : version) (o v : string) : Prop :=
  exists a,
    find_action (_getParser cls) o = Some a
    /\ parse_args (_getParser cls) (supply a v)
       = match coerce a v with
         | inl e => inl e
         | inr w => inr (ns_set (dest a) w (ns_defaults (_getParser cls)))
         end.

(** [rejected cls handler self tok]: [parse] refuses the line [tok] and
    leaves the object alone; FC3 because it takes no argument at all, the
    other classes because the option parser does not know the token. *)
Definition rejected (cls : version) (handler : Handler) (self : AutoPart)
    (tok : string) : Prop :=
  parse cls handler [tok] self
  = (inl (match cls with
          | FC3 => DoesNotTakeAnyArguments
          | _ => OptionParserError (UnrecognizedArguments [tok])
          end), self).

(** Version monotonicity as the specification words it, for a numbering
    [number] of the versions that gives their order: an option introduced
    at [V2] is accepted under every version at or after [V2], and under
    every version before [V2] the line that supplies it fails with an
    error of the kind UnknownOption. *)
Definition version_monotonicity (number : version -> nat) : Prop :=
  forall o V2 V,
    introduced_at o V2 = true ->
    (number V2 <= number V -> forall v, accepted V o v)%nat
    /\ (number V < number V2 ->
        forall handler self,
          exists e self',
            parse V handler [o] self = (inl e, self')
            /\ error_kind e = UnknownOption)%nat.

(** ** The document reader *)

(** Modelled from the spec: the document reader is not part of this file.
    It "must supply raw tokens already split on unescaped whitespace, with
    quoted substrings preserved as single tokens"; the model is the way
    Python's [shlex.split(line, comments=True)] does so: blanks, tabs and
    line ends separate tokens, a backslash keeps the next character, single
    quotes keep their text as it is, and double quotes keep theirs but for
    a backslash before a double quote or a backslash; outside quotes a
    hash sign ends the token and hides the rest of the line.  A quote or
    backslash left open makes the line unreadable. *)
Module Reader.

Definition SQUOTE : ascii := "039"%char.
Definition BACKSLASH : ascii := "092"%char.
Definition HASH : ascii := "035"%char.

Definition is_separator (c : ascii) : bool :=
  Ascii.eqb c " "%char || Ascii.eqb c "009"%char
  || Ascii.eqb c "010"%char || Ascii.eqb c "013"%char.

Inductive mode : Set := Plain | InDouble | InSingle | InComment.

(** The token being read, if one has begun, with one more character. *)
Definition push (cur : option string) (c : ascii) : option string :=
  match cur with
  | Some t => Some (t ++ String c EmptyString)
  | None => Some (String c EmptyString)
  end.

Definition begun (cur : option string) : option string :=
  match cur with
  | Some t => Some t
  | None => Some EmptyString
  end.

Fixpoint lex (s : string) (m : mode) (cur : option string)
  : option (list string) :=
  match s with
  | EmptyString =>
      match m, cur with
      | Plain, Some t => Some [t]
      | Plain, None => Some []
      | InComment, _ => Some []
      | _, _ => None
      end
  | String c r =>
      match m with
      | Plain =>
          if is_separator c then
            match cur with
            | Some t => option_map (cons t) (lex r Plain None)
            | None => lex r Plain None
            end
          else if Ascii.eqb c HASH then
            match cur with
            | Some t => option_map (cons t) (lex r InComment None)
            | None => lex r InComment None
            end
          else if Ascii.eqb c PyStr.DQUOTE then lex r InDouble (begun cur)
          else if Ascii.eqb c SQUOTE then lex r InSingle (begun cur)
          else if Ascii.eqb c BACKSLASH then
            match r with
            | String d r' => lex r' Plain (push cur d)
            | EmptyString => None
            end
          else lex r Plain (push cur c)
      | InDouble =>
          if Ascii.eqb c PyStr.DQUOTE then lex r Plain cur
          else if Ascii.eqb c BACKSLASH then
            match r with
            | String d r' =>
                if Ascii.eqb d PyStr.DQUOTE || Ascii.eqb d BACKSLASH
                then lex r' InDouble (push cur d)
                else lex r InDouble (push cur c)
            | EmptyString => None
            end
          else lex r InDouble (push cur c)
      | InSingle =>
          if Ascii.eqb c SQUOTE then lex r Plain cur
          else lex r InSingle (push cur c)
      | InComment =>
          if Ascii.eqb c PyStr.LF then lex r Plain None
          else lex r InComment None
      end
  end.

(** The tokens of one line of the document. *)
Definition split (line : string) : option (list string) := lex line Plain None.

End Reader.

(** The characters at which [str.splitlines] ends a line, below 256: LF,
    VT, FF, CR, FS, GS, RS and NEL. *)
Definition line_boundary (c : ascii) : bool :=
  let n := nat_of_ascii c in
  (Nat.leb 10 n && Nat.leb n 13) || (Nat.leb 28 n && Nat.leb n 30)
  || Nat.eqb n 133.

(** [is_line text]: the text is one line of a document: it ends with a
    line feed and holds no other line boundary. *)
Fixpoint is_line (text : string) : bool :=
  match text with
  | EmptyString => false
  | String c EmptyString => Ascii.eqb c PyStr.LF
  | String c r => negb (line_boundary c) && is_line r
  end.

(** The document reader meeting the text [text] again, in a document of
    its own: the reader takes the document line by line, splits the line,
    its first token names the command, and the others go to [parse] of the
    command object [self] of the handler.  [None] when the text is not one
    line of this command. *)
Definition reparse (cls : version) (handler : Handler) (text : string)
    (self : AutoPart) : option ((KickstartParseError + unit) * AutoPart) :=
  if negb (is_line text) then None else
  match Reader.split text with
  | Some (keyword :: args) =>
      if String.eqb keyword "autopart" then Some (parse cls handler args self)
      else None
  | _ => None
  end.

(** The checks each class makes once the options are on the object. *)
Definition post_checks (cls : version) (handler : Handler) : M unit :=
  match cls with
  | FC3 | F9 | F12 | F16 | F17 | F18 => ret tt
  | RHEL6 | F20 => check_partitioning_commands handler
  | F21 => check_partitioning_commands handler ;;; check_fstype cls
  | F23 | RHEL7 | F26 =>
      (check_partitioning_commands handler ;;; check_fstype cls) ;;;
      check_reqpart handler
  end.

(** The namespaces of the parsers of F17 and F18: [type] is [None] or one
    of the three schemes of [typeMap]. *)
Definition ns_before_F20 (ns : Namespace) : Prop :=
  exists (b1 p e b2 ty : value) (rest : Namespace),
    ns = ([("encrypted", b1); ("passphrase", p); ("escrowcert", e);
           ("backuppassphrase", b2); ("type", ty)] ++ rest)%list
    /\ (rest = [] \/ exists c, rest = [("cipher", c)])
    /\ (ty = VNone \/ ty = VType AUTOPART_TYPE_PLAIN
        \/ ty = VType AUTOPART_TYPE_BTRFS \/ ty = VType AUTOPART_TYPE_LVM).

(** ** The line as a list of fragments *)

(** What one layer of [__str__] appends: a bare flag, an option with its
    value between double quotes, or an option with its value as it is. *)
Inductive fragment : Set :=
| Flag (name : string)
| Quoted (name value : string)
| Bare (name value : string).

(** The text a fragment adds to the line, and the token it is read as. *)
Definition text_of (f : fragment) : string :=
  match f with
  | Flag name => " " ++ name
  | Quoted name v => " " ++ name ++ "=" ++ PyStr.quoted v
  | Bare name v => " " ++ name ++ "=" ++ v
  end.

Definition arg_of (f : fragment) : string :=
  match f with
  | Flag name => name
  | Quoted name v => name ++ "=" ++ v
  | Bare name v => name ++ "=" ++ v
  end.

Definition opt {A : Type} (b : bool) (x : A) : list A := if b then [x] else [].

Fixpoint join (l : list string) : string :=
  match l with
  | [] => EmptyString
  | x :: r => x ++ join r
  end.

(** The line made of the keyword and the fragments, joined once. *)
Definition flat (frs : list fragment) : string :=
  "autopart" ++ join (map text_of frs) ++ PyStr.nl.

Definition F9_frags (s : AutoPart) : list fragment :=
  (opt (encrypted s) (Flag "--encrypted")
   ++ opt (encrypted s && PyStr.truthy (passphrase s))
        (Quoted "--passphrase" (PyStr.fmt (passphrase s))))%list.

Definition F12_frags (s : AutoPart) : list fragment :=
  (F9_frags s
   ++ opt (encrypted s && PyStr.truthy (escrowcert s))
        (Quoted "--escrowcert" (PyStr.fmt (escrowcert s)))
   ++ opt (encrypted s && PyStr.truthy (escrowcert s) && backuppassphrase s)
        (Flag "--backuppassphrase"))%list.

Definition cipher_frags (s : AutoPart) : list fragment :=
  opt (encrypted s && PyStr.truthy (cipher s))
    (Quoted "--cipher" (PyStr.fmt (cipher s))).

Definition RHEL6_frags (s : AutoPart) : list fragment :=
  (F12_frags s ++ cipher_frags s)%list.

Definition F16_frags (s : AutoPart) : list fragment :=
  (F12_frags s ++ opt (negb (lvm s)) (Flag "--nolvm"))%list.

Definition F17_frags (cls : version) (s : AutoPart) : list fragment :=
  (F16_frags s
   ++ opt (PyStr.truthy (_typeAsStr cls s))
        (Bare "--type" (PyStr.fmt (_typeAsStr cls s))))%list.

Definition F18_frags (cls : version) (s : AutoPart) : list fragment :=
  (F17_frags cls s ++ cipher_frags s)%list.

Definition F21_frags (cls : version) (s : AutoPart) : list fragment :=
  (F18_frags cls s
   ++ opt (PyStr.truthy (fstype s)) (Bare "--fstype" (PyStr.fmt (fstype s))))%list.

Definition RHEL7_frags (cls : version) (s : AutoPart) : list fragment :=
  (F21_frags cls s ++ opt (nohome s) (Flag "--nohome"))%list.

Definition F26_frags (cls : version) (s : AutoPart) : list fragment :=
  (F21_frags cls s ++ opt (nohome s) (Flag "--nohome")
   ++ opt (noboot s) (Flag "--noboot")
   ++ opt (noswap s) (Flag "--noswap"))%list.

Definition fragments (cls : version) (s : AutoPart) : list fragment :=
  match cls with
  | FC3 => []
  | F9 => F9_frags s
  | F12 => F12_frags s
  | RHEL6 => RHEL6_frags s
  | F16 => F16_frags s
  | F17 => F17_frags cls s
  | F18 | F20 => F18_frags cls s
  | F21 | F23 => F21_frags cls s
  | RHEL7 => RHEL7_frags cls s
  | F26 => F26_frags cls s
  end.

Fixpoint ends_nonspace (s : string) : bool :=
  match s with
  | EmptyString => false
  | String c EmptyString => negb (PyStr.isspace c)
  | String _ r => ends_nonspace r
  end.

(** A fragment after which [strip] removes nothing but the line feed. *)
Definition frag_tidy (f : fragment) : Prop := ends_nonspace (text_of f) = true.

Definition plain_char (c : ascii) : bool :=
  negb (Reader.is_separator c || Ascii.eqb c PyStr.DQUOTE
        || Ascii.eqb c Reader.SQUOTE || Ascii.eqb c Reader.BACKSLASH
        || Ascii.eqb c Reader.HASH).

Definition quotable_char (c : ascii) : bool :=
  negb (Ascii.eqb c PyStr.DQUOTE || Ascii.eqb c Reader.BACKSLASH
        || line_boundary c).

Fixpoint all_chars (p : ascii -> bool) (s : string) : bool :=
  match s with
  | EmptyString => true
  | String c r => p c && all_chars p r
  end.

Definition line_free (w : string) : bool :=
  all_chars (fun c => negb (line_boundary c)) w.

Definition nonempty (s : string) : bool :=
  match s with
  | EmptyString => false
  | String _ _ => true
  end.

(** [plain_word w]: the reader takes [w] as it is, as (part of) one token.
    [quotable v]: it does so for [v] between double quotes. *)
Definition plain_word (w : string) : bool := all_chars plain_char w.
Definition quotable (v : string) : bool := all_chars quotable_char v.

Definition frag_lexable (f : fragment) : Prop :=
  match f with
  | Flag name => nonempty name && plain_word name
  | Quoted name v => nonempty name && plain_word name && quotable v
  | Bare name v => nonempty name && plain_word name && plain_word v
  end = true.

(** ** Objects that can be read back *)

(** What a token that stands for itself stores: a flag its constant, an
    option given as [name=value] the coercion of the value. *)
Definition apply_option (a : Action) (x : option string)
  : option (KickstartParseError + value) :=
  match action a, x with
  | store_const const, None => Some (inr const)
  | store type, Some v => Some (type v)
  | _, _ => None
  end.

Definition str_value (v : option string) : value :=
  match v with
  | Some x => VStr x
  | None => VNone
  end.

(** The value of the attribute [key] of [s], as a namespace holds it. *)
Definition getattr (key : string) (s : AutoPart) : value :=
  if String.eqb key "encrypted" then VBool (encrypted s)
  else if String.eqb key "passphrase" then str_value (passphrase s)
  else if String.eqb key "escrowcert" then str_value (escrowcert s)
  else if String.eqb key "backuppassphrase" then VBool (backuppassphrase s)
  else if String.eqb key "cipher" then str_value (cipher s)
  else if String.eqb key "lvm" then VBool (lvm s)
  else if String.eqb key "type" then
    match type s with Some t => VType t | None => VNone end
  else if String.eqb key "fstype" then str_value (fstype s)
  else if String.eqb key "nohome" then VBool (nohome s)
  else if String.eqb key "noboot" then VBool (noboot s)
  else if String.eqb key "noswap" then VBool (noswap s)
  else VNone.

(** The attributes the parsers of this file assign. *)
Definition attribute_names : list string :=
  ["encrypted"; "passphrase"; "escrowcert"; "backuppassphrase"; "cipher";
   "lvm"; "type"; "fstype"; "nohome"; "noboot"; "noswap"].

(** The namespace of the parser of [cls] that holds the attributes of [s]. *)
Definition ns_of (cls : version) (s : AutoPart) : Namespace :=
  map (fun kv => (fst kv, getattr (fst kv) s)) (ns_defaults (_getParser cls)).

(** The conditions under which a written object can be read back into a
    fresh object: an attribute that is only written together with
    [encrypted] is the empty string, as [__init__] leaves it, or is set
    together with [encrypted]; a string written between double quotes holds
    no double quote, no backslash and no line end; one written as it is
    holds no white space, quote, backslash or hash sign. *)
Definition depends_on (enc : bool) (v : option string) : Prop :=
  match v with
  | None => False
  | Some x => (x = EmptyString \/ enc = true) /\ quotable x = true
  end.

Definition word (w : string) : bool :=
  all_chars (fun c => plain_char c && negb (PyStr.isspace c)) w.

Definition canonical (cls : version) (s : AutoPart) : Prop :=
  (declares cls "--passphrase" = true ->
   depends_on (encrypted s) (passphrase s))
  /\ (declares cls "--escrowcert" = true ->
      depends_on (encrypted s) (escrowcert s)
      /\ (backuppassphrase s = true ->
          encrypted s = true /\ PyStr.truthy (escrowcert s) = true))
  /\ (declares cls "--cipher" = true -> depends_on (encrypted s) (cipher s))
  /\ (declares cls "--fstype" = true ->
      match fstype s with
      | None => False
      | Some f => word f = true
      end).

Definition frag_ok (f : fragment) : Prop :=
  frag_tidy f /\ frag_lexable f /\ line_free (text_of f) = true.

(** The objects reachable by parsing: the command object a handler of
    class [cls] starts with, as [__init__] leaves it, after any number of
    lines of the command, accepted or refused, whatever else the document
    holds at each of them. *)
Inductive reachable (cls : version) : AutoPart -> Prop :=
| reach_init : reachable cls init
| reach_parse (handler : Handler) (args : list string) (s : AutoPart) :
    reachable cls s -> reachable cls (snd (parse cls handler args s)).

(** What the text of [s] shows of [s]: the attributes as the line gives
    them, [None] for a value that is not written. *)
Definition written (cls : version) (s : AutoPart) : AutoPart :=
  let shown (b : bool) (v : option string) := if b then v else None in
  mkAutoPart (seen s) (autopart s) (encrypted s)
    (shown (encrypted s && PyStr.truthy (passphrase s)) (passphrase s))
    (shown (encrypted s && PyStr.truthy (escrowcert s)) (escrowcert s))
    (encrypted s && PyStr.truthy (escrowcert s) && backuppassphrase s)
    (shown (encrypted s && PyStr.truthy (cipher s)) (cipher s))
    (lvm s)
    (if PyStr.truthy (_typeAsStr cls s) then type s else None)
    (shown (PyStr.truthy (fstype s)) (fstype s))
    (nohome s) (noboot s) (noswap s).

(** ** Further vocabulary *)

(** The classes whose [parse] looks for the [reqpart] command. *)
Definition checks_reqpart (cls : version) : bool :=
  inherits cls F23 || inherits cls RHEL7.

(** The handler without a [reqpart] attribute. *)
Definition without_reqpart (handler : Handler) : Handler :=
  mkHandler (partition_seen handler) (raid_seen handler)
    (volgroup_seen handler) (logvol_seen handler) None.

(** [passes_fstype_checks cls s]: neither check of [F21_AutoPart.parse]
    fires on [s]. *)
Definition passes_fstype_checks (cls : version) (s : AutoPart) : Prop :=
  fstype s <> Some "btrfs"
  /\ (_typeAsStr cls s = Some "btrfs" -> PyStr.truthy (fstype s) = false).

(** [line_well_formed cls args]: the line passes the first stage of
    [parse]: no argument at all under FC3, a line the option parser accepts
    under the other classes. *)
Definition line_well_formed (cls : version) (args : list string) : Prop :=
  match cls with
  | FC3 => args = []
  | _ => exists ns, parse_args (_getParser cls) args = inr ns
  end.

(** The attributes the parser of [cls] assigns. *)
Definition dests (cls : version) : list string := map dest (_getParser cls).

(** The text is the keyword and the line feed, or the keyword, a space,
    the two dashes of an option, some text and the line feed. *)
Definition keyword_line (text : string) : Prop :=
  text = "autopart" ++ PyStr.nl
  \/ exists body, text = "autopart --" ++ body ++ PyStr.nl.

(** The answer of the checks of [parse] as one list of cases, in the
    order in which the chain of overridden methods makes them. *)
Definition is_btrfs (v : option string) : bool :=
  match v with
  | Some s => String.eqb s "btrfs"
  | None => false
  end.

Definition late_verdict (cls : version) (handler : Handler) (s : AutoPart)
  : KickstartParseError + unit :=
  if inherits cls F21 && is_btrfs (fstype s)
  then inl FstypeBtrfsNotValid
  else if inherits cls F21 && is_btrfs (_typeAsStr cls s) && PyStr.truthy (fstype s)
  then inl FstypeWithTypeBtrfs
  else if checks_reqpart cls
          && match reqpart_seen handler with Some true => true | _ => false end
  then inl (CantBeUsedAtTheSameTime "reqpart")
  else inr tt.

Definition verdict (cls : version) (handler : Handler) (s : AutoPart)
  : KickstartParseError + unit :=
  if checks_partitioning cls && partition_seen handler
  then inl (CantBeUsedAtTheSameTime "part/partition")
  else if checks_partitioning cls && raid_seen handler
  then inl (CantBeUsedAtTheSameTime "raid")
  else if checks_partitioning cls && volgroup_seen handler
  then inl (CantBeUsedAtTheSameTime "volgroup")
  else if checks_partitioning cls && logvol_seen handler
  then inl (CantBeUsedAtTheSameTime "logvol")
  else late_verdict cls handler s.

(** The object [x] with the attribute [key] taken from [s0] unless it is
    [None] there, and with all the attributes the parser of [cls] assigns
    taken from [s0] in this way. *)
Definition unless_None {A : Type} (v : option A)
    (set : option A -> AutoPart -> AutoPart) (x : AutoPart) : AutoPart :=
  match v with
  | Some _ => set v x
  | None => x
  end.

Definition copy_attr (key : string) (s0 x : AutoPart) : AutoPart :=
  if String.eqb key "encrypted" then set_encrypted (encrypted s0) x
  else if String.eqb key "passphrase"
  then unless_None (passphrase s0) set_passphrase x
  else if String.eqb key "escrowcert"
  then unless_None (escrowcert s0) set_escrowcert x
  else if String.eqb key "backuppassphrase"
  then set_backuppassphrase (backuppassphrase s0) x
  else if String.eqb key "cipher" then unless_None (cipher s0) set_cipher x
  else if String.eqb key "lvm" then set_lvm (lvm s0) x
  else if String.eqb key "type" then unless_None (type s0) set_type x
  else if String.eqb key "fstype" then unless_None (fstype s0) set_fstype x
  else if String.eqb key "nohome" then set_nohome (nohome s0) x
  else if String.eqb key "noboot" then set_noboot (noboot s0) x
  else if String.eqb key "noswap" then set_noswap (noswap s0) x
  else x.

Definition overlay (cls : version) (s0 x : AutoPart) : AutoPart :=
  fold_left (fun o key => copy_attr key s0 o)
    (map fst (ns_defaults (_getParser cls))) x.

(** The object whose attributes are the defaults of the options. *)
Definition defaults_object : AutoPart :=
  mkAutoPart false false false None None false None true None None false
    false false.

(** A text that ends with the line feed, and one that starts an option
    and ends with the line feed. *)
Definition ends_nl (t : string) : Prop := exists a, t = a ++ PyStr.nl.

Definition opts_tail (t : string) : Prop :=
  exists b, t = " --" ++ b ++ PyStr.nl.

(** The name [_typeAsStr] gives for the scheme that the key [k] of
    [typeMap] stands for. *)
Definition written_type_name (k : string) : string :=
  if String.eqb k "partition" then "plain" else k.

(** * Properties of the serializer *)

Section StripLemmas.

Import PyStr.

Lemma append_assoc (a b c : string) : (a ++ b) ++ c = a ++ b ++ c.
Proof.
  induction a as [|d a IH]; simpl; [reflexivity|].
  rewrite IH. reflexivity.
Qed.

Lemma count_app (c : ascii) (a b : string) :
  count c (a ++ b) = count c a + count c b.
Proof.
  induction a as [|d a IH]; simpl; [reflexivity|].
  rewrite IH. lia.
Qed.

Lemma count_lstrip_le (c : ascii) (s : string) :
  count c (lstrip s) <= count c s.
Proof.
  induction s as [|d s IH]; simpl; [lia|].
  destruct (isspace d); simpl; lia.
Qed.

Lemma count_rstrip_le (c : ascii) (s : string) :
  count c (rstrip s) <= count c s.
Proof.
  induction s as [|d s IH]; simpl; [lia|].
  destruct (rstrip s) as [|e r] eqn:E.
  - destruct (isspace d); simpl in *; lia.
  - simpl in *. lia.
Qed.

Lemma rstrip_app_nl (s : string) : rstrip (s ++ nl) = rstrip s.
Proof.
  induction s as [|d s IH]; simpl; [reflexivity|].
  rewrite IH. reflexivity.
Qed.

(** After [lstrip], a string that ended in its only line feed still does,
    unless nothing is left of it. *)
Lemma lstrip_app_nl (body : string) :
  count LF body = 0 ->
  lstrip (body ++ nl) = EmptyString
  \/ exists body', lstrip (body ++ nl) = body' ++ nl /\ count LF body' = 0.
Proof.
  induction body as [|d body IH]; cbn [count lstrip append]; intros H.
  - left. reflexivity.
  - destruct (Ascii.eqb LF d) eqn:E; [lia|].
    destruct (isspace d).
    + apply IH. exact H.
    + right. exists (String d body). split; [reflexivity|].
      cbn [count]. rewrite E. exact H.
Qed.

Lemma endswith_char_split (s : string) (c : ascii) :
  endswith_char s c = true -> exists body, s = body ++ String c EmptyString.
Proof.
  induction s as [|d s IH]; simpl; [discriminate|].
  destruct s as [|e s].
  - intros H. apply Ascii.eqb_eq in H. subst. exists EmptyString. reflexivity.
  - intros H. destruct (IH H) as [body Hb]. exists (String d body).
    simpl. rewrite <- Hb. reflexivity.
Qed.

Lemma endswith_char_app (s : string) (c : ascii) :
  endswith_char (s ++ String c EmptyString) c = true.
Proof.
  induction s as [|d s IH]; simpl.
  - apply Ascii.eqb_refl.
  - destruct (s ++ String c EmptyString) eqn:E; [|exact IH].
    destruct s; discriminate.
Qed.

End StripLemmas.

Lemma one_line_intro (x : string) :
  PyStr.count PyStr.LF x = 0 -> one_line (x ++ PyStr.nl).
Proof.
  intros H. split.
  - rewrite count_app, H. reflexivity.
  - apply endswith_char_app.
Qed.

Lemma one_line_strip (r : string) :
  one_line r -> PyStr.count PyStr.LF (PyStr.strip r) = 0.
Proof.
  intros [Hc He].
  destruct (endswith_char_split _ _ He) as [body ->].
  change (String PyStr.LF EmptyString) with PyStr.nl in *.
  rewrite count_app in Hc. simpl in Hc.
  assert (Hb : PyStr.count PyStr.LF body = 0) by lia.
  unfold PyStr.strip.
  destruct (lstrip_app_nl body Hb) as [-> | [body' [-> Hb']]].
  - reflexivity.
  - rewrite rstrip_app_nl.
    pose proof (count_rstrip_le PyStr.LF body'). lia.
Qed.

Lemma lf_free_fmt (v : option string) :
  lf_free v -> PyStr.count PyStr.LF (PyStr.fmt v) = 0.
Proof. destruct v; simpl; intros H; [exact H | reflexivity]. Qed.

Lemma count_quoted (s : string) :
  PyStr.count PyStr.LF (PyStr.quoted s) = PyStr.count PyStr.LF s.
Proof.
  unfold PyStr.quoted. simpl. rewrite count_app. simpl. lia.
Qed.

Lemma typeAsStr_lf_free (cls : version) (self : AutoPart) :
  PyStr.count PyStr.LF (PyStr.fmt (_typeAsStr cls self)) = 0.
Proof.
  unfold _typeAsStr.
  destruct (type self) as [[]|]; destruct cls; reflexivity.
Qed.

(** The step every layer of [__str__] makes: strip, append, end the line. *)
Lemma one_line_step (r frag : string) :
  one_line r -> PyStr.count PyStr.LF frag = 0 ->
  one_line ((PyStr.strip r ++ frag) ++ PyStr.nl).
Proof.
  intros Hr Hf. apply one_line_intro.
  rewrite count_app, (one_line_strip r Hr), Hf. reflexivity.
Qed.

Ltac count_zero :=
  repeat rewrite count_app; repeat rewrite count_quoted;
  repeat match goal with
    | H : one_line ?r |- context [PyStr.count PyStr.LF (PyStr.strip ?r)] =>
        rewrite (one_line_strip r H)
    | H : lf_free ?v |- context [PyStr.count PyStr.LF (PyStr.fmt ?v)] =>
        rewrite (lf_free_fmt v H)
    end;
  try rewrite typeAsStr_lf_free; reflexivity.

Lemma one_line_flag (b : bool) (r frag : string) :
  one_line r -> PyStr.count PyStr.LF frag = 0 ->
  one_line (if b then (PyStr.strip r ++ frag) ++ PyStr.nl else r).
Proof.
  intros Hr Hf. destruct b; [apply one_line_step; assumption | exact Hr].
Qed.

Section Layers.

Variable self : AutoPart.
Hypothesis present : autopart self = true.
Hypothesis clean : attrs_lf_free self.

Lemma F9_one_line : one_line (F9_str self).
Proof.
  destruct clean as (Hp & _).
  unfold F9_str, KickstartCommand_str. rewrite present. cbn [negb].
  destruct (encrypted self); [destruct (PyStr.truthy (passphrase self))|];
    apply one_line_intro; count_zero.
Qed.

Lemma F12_one_line : one_line (F12_str self).
Proof.
  destruct clean as (_ & He & _).
  pose proof F9_one_line as H9.
  unfold F12_str. rewrite present. cbn [negb].
  set (r := F9_str self) in *.
  destruct (encrypted self && PyStr.truthy (escrowcert self)); [|exact H9].
  destruct (backuppassphrase self); apply one_line_intro; count_zero.
Qed.

Lemma RHEL6_one_line : one_line (RHEL6_str self).
Proof.
  destruct clean as (_ & _ & Hc & _).
  pose proof F12_one_line as H12.
  unfold RHEL6_str. rewrite present. cbn [negb].
  set (r := F12_str self) in *.
  destruct (encrypted self && PyStr.truthy (cipher self)); [|exact H12].
  apply one_line_intro; count_zero.
Qed.

Lemma F16_one_line : one_line (F16_str self).
Proof.
  pose proof F12_one_line as H12.
  unfold F16_str. rewrite present. cbn [negb].
  set (r := F12_str self) in *.
  destruct (negb (lvm self)); [|exact H12].
  apply one_line_intro; count_zero.
Qed.

Lemma F17_one_line (cls : version) : one_line (F17_str cls self).
Proof.
  pose proof F16_one_line as H16.
  unfold F17_str. rewrite present. cbn [negb].
  set (r := F16_str self) in *.
  destruct (PyStr.truthy (_typeAsStr cls self)); [|exact H16].
  rewrite <- !append_assoc.
  apply one_line_intro; count_zero.
Qed.

Lemma F18_one_line (cls : version) : one_line (F18_str cls self).
Proof.
  destruct clean as (_ & _ & Hc & _).
  pose proof (F17_one_line cls) as H17.
  unfold F18_str. rewrite present. cbn [negb].
  set (r := F17_str cls self) in *.
  destruct (encrypted self && PyStr.truthy (cipher self)); [|exact H17].
  apply one_line_intro; count_zero.
Qed.

Lemma F21_one_line (cls : version) : one_line (F21_str cls self).
Proof.
  destruct clean as (_ & _ & _ & Hf).
  pose proof (F18_one_line cls) as H18.
  unfold F21_str, F20_str. rewrite present. cbn [negb].
  set (r := F18_str cls self) in *.
  destruct (PyStr.truthy (fstype self)); [|exact H18].
  apply one_line_intro; count_zero.
Qed.

Lemma RHEL7_one_line (cls : version) : one_line (RHEL7_str cls self).
Proof.
  pose proof (F21_one_line cls) as H21.
  unfold RHEL7_str. rewrite present. cbn [negb].
  apply one_line_flag; [exact H21 | reflexivity].
Qed.

Lemma F26_one_line (cls : version) : one_line (F26_str cls self).
Proof.
  pose proof (F21_one_line cls) as H21.
  unfold F26_str, F23_str. rewrite present. cbn [negb].
  repeat (apply one_line_flag; [|reflexivity]).
  exact H21.
Qed.

End Layers.

(** C9.  When the command is present and none of its string attributes
    holds a line feed, the text [__str__] returns, for every class, ends
    with one line feed and holds no other; and the step each layer makes
    (strip what the layer below returned, append, end the line) keeps it
    so. *)
Theorem serialized_is_one_line :
  (forall (cls : version) (self : AutoPart),
      autopart self = true -> attrs_lf_free self ->
      one_line (__str__ cls self))
  /\ (forall (r frag : string),
         one_line r -> PyStr.count PyStr.LF frag = 0 ->
         one_line ((PyStr.strip r ++ frag) ++ PyStr.nl)).
Proof.
  split; [|exact one_line_step].
  intros cls self Ha Hc.
  destruct cls; unfold __str__.
  - unfold FC3_str, KickstartCommand_str. rewrite Ha.
    apply (one_line_intro "autopart"). reflexivity.
  - now apply F9_one_line.
  - now apply F12_one_line.
  - now apply RHEL6_one_line.
  - now apply F16_one_line.
  - now apply F17_one_line.
  - now apply F18_one_line.
  - now apply F18_one_line.
  - now apply F21_one_line.
  - now apply F21_one_line.
  - now apply RHEL7_one_line.
  - now apply F26_one_line.
Qed.

Lemma serialized_is_one_line_witness :
  one_line
    (__str__ F26
       (mkAutoPart true true true (Some "abc 123") (Some "http://x/cert") true
          (Some "aes-xts-plain64") true (Some AUTOPART_TYPE_LVM_THINP)
          (Some "ext4") true false true)).
Proof.
  apply (proj1 serialized_is_one_line); [reflexivity|].
  repeat split; reflexivity.
Defined.

(** C8.  Under every class a command that is not present serializes to
    what [KickstartCommand.__str__] returns, with nothing added whatever
    its other attributes hold: to the empty string. *)
Theorem absent_serializes_empty (cls : version) (self : AutoPart) :
  autopart self = false ->
  __str__ cls self = KickstartCommand_str self
  /\ __str__ cls self = EmptyString.
Proof.
  intros H.
  destruct cls; unfold __str__, F26_str, RHEL7_str, F23_str, F21_str, F20_str,
    F18_str, F17_str, F16_str, RHEL6_str, F12_str, F9_str, FC3_str;
    rewrite H; split; reflexivity.
Qed.

Lemma absent_serializes_empty_witness :
  __str__ F26
    (mkAutoPart true false true (Some "secret") (Some "http://x/cert") true
       (Some "aes") false (Some AUTOPART_TYPE_BTRFS) (Some "xfs") true true true)
  = EmptyString.
Proof.
  apply (absent_serializes_empty F26
           (mkAutoPart true false true (Some "secret") (Some "http://x/cert")
              true (Some "aes") false (Some AUTOPART_TYPE_BTRFS) (Some "xfs")
              true true true)).
  reflexivity.
Defined.



(** * Properties of the parser *)

Ltac unfold_parse :=
  unfold parse, F23_parse, RHEL7_parse, F21_parse, F20_parse, F18_parse,
    F17_parse, F16_parse, RHEL6_parse, F12_parse, F9_parse,
    check_partitioning_commands, check_reqpart, check_fstype, bind, lift,
    modify, get, raise, ret.

(** An error of the option parser leaves the object as it was. *)
Lemma parse_option_error cls handler args self e :
  cls <> FC3 ->
  parse_args (_getParser cls) args = inl e ->
  parse cls handler args self = (inl e, self).
Proof.
  intros Hc He.
  destruct cls; try congruence; unfold_parse; rewrite He; reflexivity.
Qed.

Lemma bind_read_only (m chk : M unit) (self : AutoPart) :
  read_only chk -> snd ((m ;;; chk) self) = snd (m self).
Proof.
  intros H. unfold bind. destruct (m self) as [[e|[]] self']; [reflexivity|].
  apply H.
Qed.

Lemma check_partitioning_commands_read_only handler :
  read_only (check_partitioning_commands handler).
Proof.
  intros self. unfold check_partitioning_commands.
  destruct (partition_seen handler), (raid_seen handler),
    (volgroup_seen handler), (logvol_seen handler); reflexivity.
Qed.

Lemma check_reqpart_read_only handler : read_only (check_reqpart handler).
Proof.
  intros self. unfold check_reqpart.
  destruct (reqpart_seen handler) as [[]|]; reflexivity.
Qed.

Lemma F9_parse_run cls args self :
  F9_parse cls args self
  = match parse_args (_getParser cls) args with
    | inl e => (inl e, self)
    | inr ns => (inr tt, set_autopart true (set_to_self ns self))
    end.
Proof.
  unfold F9_parse, bind, lift, modify.
  destruct (parse_args (_getParser cls) args); reflexivity.
Qed.

Lemma F17_parse_run cls args self :
  F17_parse cls args self
  = match parse_args (_getParser cls) args with
    | inl e => (inl e, self)
    | inr ns => (inr tt, set_lvm true (set_autopart true (set_to_self ns self)))
    end.
Proof.
  unfold F17_parse, F16_parse, F12_parse, bind. rewrite F9_parse_run.
  destruct (parse_args (_getParser cls) args); reflexivity.
Qed.

Lemma check_fstype_read_only cls : read_only (check_fstype cls).
Proof.
  intros self. unfold check_fstype, bind, get, raise, ret.
  repeat match goal with
    | |- context [if ?c then _ else _] => destruct c
    end; reflexivity.
Qed.

Lemma F21_parse_state handler cls args self :
  snd (F21_parse handler cls args self) = snd (F17_parse cls args self).
Proof.
  unfold F21_parse, F20_parse, F18_parse.
  rewrite bind_read_only by apply check_fstype_read_only.
  rewrite bind_read_only by apply check_partitioning_commands_read_only.
  reflexivity.
Qed.

(** Whatever [parse] answers once the option parser has succeeded, the
    object holds the options by then. *)
Lemma parse_state cls handler args self ns :
  cls <> FC3 ->
  parse_args (_getParser cls) args = inr ns ->
  snd (parse cls handler args self) = applied cls ns self.
Proof.
  intros Hc Hns.
  destruct cls; try congruence; unfold parse, F23_parse, RHEL7_parse,
    F20_parse, F18_parse, RHEL6_parse, F16_parse, F12_parse;
    repeat first
      [ rewrite bind_read_only by
          first [ apply check_partitioning_commands_read_only
                | apply check_reqpart_read_only ]
      | rewrite F21_parse_state ];
    first [rewrite F17_parse_run | rewrite F9_parse_run];
    rewrite Hns; reflexivity.
Qed.

Lemma classify_optional_in op arg a x :
  classify op arg = Optional a x -> In a op.
Proof.
  unfold classify.
  destruct arg as [|c rest]; [discriminate|].
  destruct (negb (Ascii.eqb c "-"%char)); [discriminate|].
  destruct (find_action op (String c rest)) as [b|] eqn:F.
  - intros H. inversion H; subst. apply (find_some _ _ F).
  - destruct rest as [|c' rest]; [discriminate|].
    generalize (is_negative_number (String c (String c' rest))).
    generalize (contains_char " "%char (String c (String c' rest))).
    intros sp neg.
    destruct (split_eq (String c (String c' rest))) as [[o v]|].
    + destruct (find_action op o) as [b|] eqn:G.
      * intros H. inversion H; subst. apply (find_some _ _ G).
      * destruct neg, sp; discriminate.
    + destruct neg, sp; discriminate.
Qed.

(** The errors of [parse_args] are those of the option parser itself and
    those the coercions of the declared options raise. *)
Lemma consume_error (op : OptionParser) (P : KickstartParseError -> Prop) :
  (forall x, P (OptionParserError x)) ->
  (forall a type v e, In a op -> action a = store type -> type v = inl e -> P e) ->
  forall args ns extras e, consume op args ns extras = inl e -> P e.
Proof.
  intros Hop Hty.
  fix IH 1.
  intros [|arg rest] ns extras e; simpl.
  - destruct extras; [discriminate|]. intros H. inversion H. apply Hop.
  - destruct (classify op arg) as [|a x|] eqn:C; try apply IH.
    pose proof (classify_optional_in _ _ _ _ C) as Hin.
    destruct (action a) as [type|const] eqn:A; destruct x as [v|].
    + destruct (type v) eqn:T; [|apply IH].
      intros H. inversion H; subst. eapply Hty; eassumption.
    + destruct rest as [|v rest']; [intros H; inversion H; apply Hop|].
      destruct (classify op v); try (intros H; inversion H; apply Hop).
      destruct (type v) eqn:T; [|apply IH].
      intros H. inversion H; subst. eapply Hty; eassumption.
    + intros H. inversion H. apply Hop.
    + apply IH.
Qed.

Lemma parse_args_error_kind cls args e :
  parse_args (_getParser cls) args = inl e ->
  error_kind e = UnknownOption \/ error_kind e = InvalidOptionValue.
Proof.
  unfold parse_args. intros H.
  eapply (consume_error (_getParser cls)
            (fun e => error_kind e = UnknownOption
                      \/ error_kind e = InvalidOptionValue));
    [| |exact H].
  - intros []; simpl; auto.
  - intros a type v e' Hin Ha Hv.
    destruct cls; simpl in Hin;
      repeat match goal with
        | H : _ \/ _ |- _ => destruct H as [H|H]
        | H : False |- _ => destruct H
        end; subst a; simpl in Ha; try discriminate;
      inversion Ha; subst type; try discriminate;
      unfold _type_cb in Hv;
      destruct (typeMap_get _ _); inversion Hv; simpl; auto.
Qed.

Lemma seen_setattr key val self : seen (setattr key val self) = seen self.
Proof.
  unfold setattr.
  destruct val;
    repeat match goal with |- context [if ?c then _ else _] => destruct c end;
    reflexivity.
Qed.

Lemma seen_set_to_self ns self : seen (set_to_self ns self) = seen self.
Proof.
  unfold set_to_self, set_to_obj. revert self.
  induction ns as [|[k v] ns IH]; intros self; simpl; [reflexivity|].
  rewrite IH. destruct (is_None v); [reflexivity | apply seen_setattr].
Qed.

Lemma seen_applied cls ns self : seen (applied cls ns self) = seen self.
Proof.
  unfold applied. destruct (inherits cls F17); simpl; apply seen_set_to_self.
Qed.

Lemma autopart_applied cls ns self : autopart (applied cls ns self) = true.
Proof. unfold applied. destruct (inherits cls F17); reflexivity. Qed.

Lemma lvm_applied cls ns self :
  inherits cls F17 = true -> lvm (applied cls ns self) = true.
Proof. unfold applied. intros ->. reflexivity. Qed.

(** A [parse] that returns went through the option parser (FC3 has none). *)
Lemma parse_success cls handler args self self' :
  cls <> FC3 ->
  parse cls handler args self = (inr tt, self') ->
  exists ns, parse_args (_getParser cls) args = inr ns
             /\ self' = applied cls ns self.
Proof.
  intros Hc H.
  destruct (parse_args (_getParser cls) args) as [e|ns] eqn:E.
  - rewrite (parse_option_error _ _ _ _ _ Hc E) in H. discriminate.
  - exists ns. split; [reflexivity|].
    rewrite <- (parse_state cls handler args self ns Hc E), H. reflexivity.
Qed.

(** ** What the option parser returns, and what it leaves on the object *)

Lemma consume_invariant (op : OptionParser) (P : Namespace -> Prop) :
  (forall a ns, In a op -> P ns ->
     match action a with
     | store type => forall v w, type v = inr w -> P (ns_set (dest a) w ns)
     | store_const const => P (ns_set (dest a) const ns)
     end) ->
  forall args ns extras ns',
    P ns -> consume op args ns extras = inr ns' -> P ns'.
Proof.
  intros Hstep.
  fix IH 1.
  intros [|arg rest] ns extras ns' Hns; simpl.
  - destruct extras; [|discriminate]. intros H. inversion H; subst. exact Hns.
  - destruct (classify op arg) as [|a x|] eqn:C; try (apply IH; exact Hns).
    pose proof (classify_optional_in _ _ _ _ C) as Hin.
    pose proof (Hstep a ns Hin Hns) as Hs.
    destruct (action a) as [type|const]; destruct x as [v|].
    + destruct (type v) as [e|w] eqn:T; [discriminate|].
      apply IH. now apply (Hs v).
    + destruct rest as [|v rest']; [discriminate|].
      destruct (classify op v); try discriminate.
      destruct (type v) as [e|w] eqn:T; [discriminate|].
      apply IH. now apply (Hs v).
    + discriminate.
    + apply IH. exact Hs.
Qed.

Lemma setattr_getattr key s0 x :
  (if is_None (getattr key s0) then x else setattr key (getattr key s0) x)
  = copy_attr key s0 x.
Proof.
  unfold getattr, copy_attr.
  repeat match goal with
    | |- context [if String.eqb key ?k then _ else _] =>
        let E := fresh "E" in
        destruct (String.eqb key k) eqn:E;
        [ apply String.eqb_eq in E; subst key;
          destruct s0 as [? ? ? p e ? c ? t f ? ? ?];
          destruct p, e, c, t, f; reflexivity
        | ]
    end.
  reflexivity.
Qed.

Lemma set_to_self_ns_of cls s0 x :
  set_to_self (ns_of cls s0) x = overlay cls s0 x.
Proof.
  unfold set_to_self, set_to_obj, ns_of, overlay.
  generalize (ns_defaults (_getParser cls)). intros l. revert x.
  induction l as [|[k v] l IH]; intros x; cbn [map fold_left fst snd];
    [reflexivity|].
  rewrite setattr_getattr. apply IH.
Qed.

(** Every namespace the option parser returns holds, under the keys of
    the parser, values of the kinds of the attributes: it is the namespace
    of some object. *)
Lemma parse_args_ns_of cls args ns :
  parse_args (_getParser cls) args = inr ns -> exists s0, ns = ns_of cls s0.
Proof.
  unfold parse_args. intros H.
  refine (consume_invariant (_getParser cls) (fun ns => exists s0, ns = ns_of cls s0)
            _ args _ [] ns _ H).
  - intros a ns0 Hin [s0 ->].
    destruct cls; simpl in Hin;
      repeat match goal with
        | H : _ \/ _ |- _ => destruct H as [H|H]
        | H : False |- _ => destruct H
        end; subst a;
      cbn [action store_true store_false store_str];
      try (intros v w Hw;
           first [ inversion Hw; subst w
                 | unfold _type_cb in Hw;
                   destruct (typeMap_get _ _); inversion Hw; subst w ]);
      match goal with
      | |- exists _, ns_set ?k ?w _ = _ => exists (setattr k w s0)
      end;
      destruct s0; vm_compute; reflexivity.
  - exists defaults_object. destruct cls; reflexivity.
Qed.

Lemma ns_get_ns_of cls s0 key val :
  ns_get key (ns_of cls s0) = Some val ->
  val = getattr key s0 /\ In key (map fst (ns_defaults (_getParser cls))).
Proof.
  unfold ns_of. generalize (ns_defaults (_getParser cls)). intros l.
  induction l as [|[k v] l IH]; cbn [map ns_get fst snd In]; [discriminate|].
  destruct (String.eqb k key) eqn:E.
  - apply String.eqb_eq in E. subst k. intros H. inversion H. auto.
  - intros H. destruct (IH H). auto.
Qed.

(** Once the options are on the object, an attribute of the namespace has
    the value of the namespace, or the value it had when that is [None]. *)
Lemma applied_getattr cls key s0 self :
  In key (map fst (ns_defaults (_getParser cls))) ->
  getattr key (applied cls (ns_of cls s0) self)
  = if is_None (getattr key s0) then getattr key self else getattr key s0.
Proof.
  intros Hin. unfold applied. rewrite set_to_self_ns_of.
  destruct s0 as [? ? ? p e ? c ? t f ? ? ?], self.
  destruct cls; vm_compute in Hin;
    repeat match goal with
      | H : _ \/ _ |- _ => destruct H as [H|H]
      | H : False |- _ => destruct H
      end; subst key;
    destruct p, e, c, t, f; vm_compute; reflexivity.
Qed.

Lemma parse_getattr cls handler args self ns key val :
  parse_args (_getParser cls) args = inr ns ->
  ns_get key ns = Some val ->
  getattr key (snd (parse cls handler args self))
  = if is_None val then getattr key self else val.
Proof.
  intros Hns Hget.
  destruct (parse_args_ns_of _ _ _ Hns) as [s0 ->].
  destruct (ns_get_ns_of _ _ _ _ Hget) as [-> Hin].
  destruct (version_eqb cls FC3) eqn:E.
  - destruct cls; try discriminate E. destruct Hin.
  - assert (Hn : cls <> FC3) by (intros ->; discriminate E).
    rewrite (parse_state cls handler args self _ Hn Hns).
    now apply applied_getattr.
Qed.

Lemma getattr_set_seen key b self :
  getattr key (set_seen b self) = getattr key self.
Proof. destruct self. reflexivity. Qed.

(** C10.  From F17 on, a [parse] that returns leaves [lvm] set, so the F16
    layer of [__str__] adds nothing to what the F12 layer wrote; an input
    [--nolvm] shows in [type] and is written as [--type=plain], followed
    from F21 on by the [--fstype] the object held before, which the line
    leaves alone, and by nothing else. *)
Theorem lvm_reset_from_F17 :
  (forall cls handler args self self',
      inherits cls F17 = true ->
      parse cls handler args self = (inr tt, self') ->
      lvm self' = true /\ F16_str self' = F12_str self')
  /\ (forall cls handler self self',
         inherits cls F17 = true ->
         parse cls handler ["--nolvm"] self = (inr tt, self') ->
         type self' = Some AUTOPART_TYPE_PLAIN
         /\ __str__ cls self'
            = "autopart --type=plain"
              ++ (if inherits cls F21 && PyStr.truthy (fstype self)
                  then " --fstype=" ++ PyStr.fmt (fstype self)
                  else EmptyString)
              ++ PyStr.nl).
Proof.
  split.
  - intros cls handler args self self' Hc H.
    assert (Hn : cls <> FC3) by (intros ->; discriminate).
    destruct (parse_success _ _ _ _ _ Hn H) as (ns & _ & ->).
    assert (Hl : lvm (applied cls ns self) = true) by now apply lvm_applied.
    split; [exact Hl|].
    unfold F16_str. rewrite Hl.
    destruct (autopart _); reflexivity.
  - intros cls handler self self' Hc H.
    assert (Hn : cls <> FC3) by (intros ->; discriminate).
    destruct (parse_success _ _ _ _ _ Hn H) as (ns & Hns & ->).
    destruct self as [sn ap en p e bp c lv ty fs nh nb nw].
    destruct cls; try discriminate; vm_compute in Hns; inversion Hns; subst ns;
      (split; [reflexivity|]);
      destruct fs as [[|ch fs]|]; vm_compute; reflexivity.
Qed.

Lemma lvm_reset_from_F17_witness :
  (lvm (snd (parse F26 fresh_handler ["--nolvm"; "--noswap"] init)) = true
   /\ F16_str (snd (parse F26 fresh_handler ["--nolvm"; "--noswap"] init))
      = F12_str (snd (parse F26 fresh_handler ["--nolvm"; "--noswap"] init)))
  /\ (type (snd (parse F21 fresh_handler ["--nolvm"]
                  (set_fstype (Some "ext4") init)))
      = Some AUTOPART_TYPE_PLAIN
      /\ __str__ F21 (snd (parse F21 fresh_handler ["--nolvm"]
                            (set_fstype (Some "ext4") init)))
         = "autopart --type=plain --fstype=ext4" ++ PyStr.nl).
Proof.
  split.
  - apply (proj1 lvm_reset_from_F17 F26 fresh_handler ["--nolvm"; "--noswap"] init);
      vm_compute; reflexivity.
  - apply (proj2 lvm_reset_from_F17 F21 fresh_handler
             (set_fstype (Some "ext4") init));
      vm_compute; reflexivity.
Defined.

(** C5.  When the dispatcher has marked the command seen and [parse] then
    raises for a conflicting command, the object is left marked seen and
    present, and it holds what the line supplied: every attribute has the
    value the option parser gave for it, and an attribute for which the
    option parser gave [None] (an option without default that is not on
    the line) has the value it had.  So after the line
    [--encrypted --passphrase=p], refused because a partition command has
    been seen, [encrypted] is set and [passphrase] is [p]. *)
Theorem conflict_leaves_options_applied :
  (forall cls handler args self cmd self',
      dispatch cls handler args self = (inl (CantBeUsedAtTheSameTime cmd), self') ->
      seen self' = true /\ autopart self' = true
      /\ exists ns,
          parse_args (_getParser cls) args = inr ns
          /\ (forall key val,
                 ns_get key ns = Some val -> val <> VNone ->
                 getattr key self' = val)
          /\ (forall key,
                 ns_get key ns = Some VNone ->
                 getattr key self' = getattr key self))
  /\ (forall cls handler self p,
         checks_partitioning cls = true -> partition_seen handler = true ->
         exists self',
           dispatch cls handler ["--encrypted"; "--passphrase=" ++ p] self
           = (inl (CantBeUsedAtTheSameTime "part/partition"), self')
           /\ seen self' = true /\ autopart self' = true
           /\ encrypted self' = true /\ passphrase self' = Some p
           /\ escrowcert self' = escrowcert self).
Proof.
  split.
  - intros cls handler args self cmd self'.
    unfold dispatch, bind, modify. intros H.
    assert (Hn : cls <> FC3).
    { intros ->. unfold parse, FC3_parse, raise, modify in H.
      destruct (Nat.ltb 0 (List.length args)); discriminate. }
    destruct (parse_args (_getParser cls) args) as [e|ns] eqn:E.
    + rewrite (parse_option_error _ _ _ _ _ Hn E) in H. inversion H; subst.
      destruct (parse_args_error_kind _ _ _ E); discriminate.
    + pose proof (parse_state cls handler args (set_seen true self) ns Hn E) as Hs.
      assert (Hself : self' = snd (parse cls handler args (set_seen true self)))
        by (rewrite H; reflexivity).
      rewrite H in Hs. simpl in Hs.
      split; [rewrite Hs, seen_applied; reflexivity|].
      split; [rewrite Hs; apply autopart_applied|].
      exists ns. split; [reflexivity|]. split.
      * intros key val Hget Hval. rewrite Hself.
        rewrite (parse_getattr _ _ _ _ _ _ _ E Hget).
        destruct val; first [congruence | reflexivity].
      * intros key Hget. rewrite Hself.
        rewrite (parse_getattr _ _ _ _ _ _ _ E Hget).
        apply getattr_set_seen.
  - intros cls [ps rs vs ls qs] [sn ap en pp ec bp ci lv ty fs nh nb nw] p Hc Hp.
    simpl in Hp. subst ps.
    destruct cls; try discriminate Hc;
      (eexists; split; [vm_compute; reflexivity | repeat split]).
Qed.

Lemma conflict_leaves_options_applied_witness :
  (seen (snd (dispatch F20 (mkHandler true false false false None)
                ["--encrypted"; "--passphrase=abc"] init)) = true
   /\ autopart (snd (dispatch F20 (mkHandler true false false false None)
                       ["--encrypted"; "--passphrase=abc"] init)) = true
   /\ exists ns,
       parse_args (_getParser F20) ["--encrypted"; "--passphrase=abc"] = inr ns
       /\ (forall key val,
              ns_get key ns = Some val -> val <> VNone ->
              getattr key
                (snd (dispatch F20 (mkHandler true false false false None)
                        ["--encrypted"; "--passphrase=abc"] init)) = val)
       /\ (forall key,
              ns_get key ns = Some VNone ->
              getattr key
                (snd (dispatch F20 (mkHandler true false false false None)
                        ["--encrypted"; "--passphrase=abc"] init))
              = getattr key init))
  /\ exists self',
      dispatch RHEL6 (mkHandler true false false false None)
        ["--encrypted"; "--passphrase=" ++ "abc"] init
      = (inl (CantBeUsedAtTheSameTime "part/partition"), self')
      /\ seen self' = true /\ autopart self' = true
      /\ encrypted self' = true /\ passphrase self' = Some "abc"
      /\ escrowcert self' = escrowcert init.
Proof.
  split.
  - apply (proj1 conflict_leaves_options_applied F20
             (mkHandler true false false false None)
             ["--encrypted"; "--passphrase=abc"] init "part/partition").
    vm_compute. reflexivity.
  - apply (proj2 conflict_leaves_options_applied RHEL6
             (mkHandler true false false false None) init "abc");
      reflexivity.
Defined.

(** ** Conflicts with other commands *)

Lemma bind_error (m k : M unit) (self self' : AutoPart) e :
  m self = (inl e, self') -> (m ;;; k) self = (inl e, self').
Proof. unfold bind. intros ->. reflexivity. Qed.

Lemma bind_ok (m k : M unit) (self self' : AutoPart) :
  m self = (inr tt, self') -> (m ;;; k) self = k self'.
Proof. unfold bind. intros ->. reflexivity. Qed.

Lemma check_partitioning_commands_partition handler self :
  partition_seen handler = true ->
  check_partitioning_commands handler self
  = (inl (CantBeUsedAtTheSameTime "part/partition"), self).
Proof. unfold check_partitioning_commands. intros ->. reflexivity. Qed.

Lemma check_partitioning_commands_none handler self :
  partition_seen handler = false -> raid_seen handler = false ->
  volgroup_seen handler = false -> logvol_seen handler = false ->
  check_partitioning_commands handler self = (inr tt, self).
Proof.
  unfold check_partitioning_commands. intros -> -> -> ->. reflexivity.
Qed.

Lemma F20_parse_partition handler cls args self ns :
  partition_seen handler = true ->
  parse_args (_getParser cls) args = inr ns ->
  F20_parse handler cls args self
  = (inl (CantBeUsedAtTheSameTime "part/partition"),
     set_lvm true (set_autopart true (set_to_self ns self))).
Proof.
  intros Hp Hns. unfold F20_parse, F18_parse.
  erewrite bind_ok by (rewrite F17_parse_run, Hns; reflexivity).
  now apply check_partitioning_commands_partition.
Qed.

Lemma F21_parse_partition handler cls args self ns :
  partition_seen handler = true ->
  parse_args (_getParser cls) args = inr ns ->
  F21_parse handler cls args self
  = (inl (CantBeUsedAtTheSameTime "part/partition"),
     set_lvm true (set_autopart true (set_to_self ns self))).
Proof.
  intros Hp Hns. unfold F21_parse.
  apply bind_error. now apply F20_parse_partition.
Qed.

Lemma parse_args_nil op : parse_args op [] = inr (ns_defaults op).
Proof. reflexivity. Qed.

(** C4, as the code has it.  In the classes that look for the other
    partitioning commands (RHEL6, and F20 and the classes derived from it),
    a line the option parser accepts, and so the bare line, is refused
    with the message naming part/partition once that command has been
    seen; the other classes never look at the handler. *)
Theorem partition_conflict_where_checked :
  (forall cls handler args self ns,
      checks_partitioning cls = true ->
      partition_seen handler = true ->
      parse_args (_getParser cls) args = inr ns ->
      fst (parse cls handler args self)
      = inl (CantBeUsedAtTheSameTime "part/partition"))
  /\ (forall cls handler self,
         checks_partitioning cls = true ->
         partition_seen handler = true ->
         fst (parse cls handler [] self)
         = inl (CantBeUsedAtTheSameTime "part/partition"))
  /\ (forall cls handler args self,
         checks_partitioning cls = false ->
         parse cls handler args self = parse cls fresh_handler args self).
Proof.
  assert (H1 : forall cls handler args self ns,
             checks_partitioning cls = true ->
             partition_seen handler = true ->
             parse_args (_getParser cls) args = inr ns ->
             fst (parse cls handler args self)
             = inl (CantBeUsedAtTheSameTime "part/partition")).
  { intros cls handler args self ns Hc Hp Hns.
    destruct cls; try discriminate; unfold parse, F23_parse, RHEL7_parse.
    - unfold RHEL6_parse, F12_parse.
      erewrite bind_ok by (rewrite F9_parse_run, Hns; reflexivity).
      rewrite check_partitioning_commands_partition by assumption. reflexivity.
    - erewrite F20_parse_partition by eassumption. reflexivity.
    - erewrite F21_parse_partition by eassumption. reflexivity.
    - erewrite bind_error by (eapply F21_parse_partition; eassumption).
      reflexivity.
    - erewrite bind_error by (eapply F21_parse_partition; eassumption).
      reflexivity.
    - erewrite bind_error by (eapply F21_parse_partition; eassumption).
      reflexivity. }
  split; [exact H1|]. split.
  - intros cls handler self Hc Hp.
    apply (H1 cls handler [] self _ Hc Hp (parse_args_nil _)).
  - intros cls handler args self Hc.
    destruct cls; try discriminate; reflexivity.
Qed.

Lemma partition_conflict_where_checked_witness :
  fst (parse F26 (mkHandler true true false false (Some true))
         ["--encrypted"; "--type=thinp"; "--noswap"] init)
  = inl (CantBeUsedAtTheSameTime "part/partition")
  /\ fst (parse RHEL6 (mkHandler true false false false None) [] init)
     = inl (CantBeUsedAtTheSameTime "part/partition")
  /\ parse F18 (mkHandler true false false false None) ["--cipher=aes"] init
     = parse F18 fresh_handler ["--cipher=aes"] init.
Proof.
  destruct partition_conflict_where_checked as (H1 & H2 & H3).
  split; [|split].
  - eapply H1; [reflexivity | reflexivity | vm_compute; reflexivity].
  - apply H2; reflexivity.
  - apply H3. reflexivity.
Defined.

(** C4 as stated fails: under FC3 and under F18 the bare line is accepted
    although the partition command has been seen. *)
Lemma partition_conflict_not_checked_before_F20 :
  fst (parse FC3 (mkHandler true false false false None) [] init) = inr tt
  /\ fst (parse F18 (mkHandler true false false false None) [] init) = inr tt.
Proof. split; vm_compute; reflexivity. Qed.

(** ** Options on one line *)

Lemma F21_parse_fstype_btrfs handler cls args self ns :
  partition_seen handler = false -> raid_seen handler = false ->
  volgroup_seen handler = false -> logvol_seen handler = false ->
  parse_args (_getParser cls) args = inr ns ->
  fstype (set_to_self ns self) = Some "btrfs" ->
  F21_parse handler cls args self
  = (inl FstypeBtrfsNotValid,
     set_lvm true (set_autopart true (set_to_self ns self))).
Proof.
  intros H1 H2 H3 H4 Hns Hf. unfold F21_parse, F20_parse, F18_parse.
  erewrite bind_ok; cycle 1.
  { erewrite bind_ok by (rewrite F17_parse_run, Hns; reflexivity).
    now apply check_partitioning_commands_none. }
  unfold check_fstype, bind, get.
  change (fstype (set_lvm true (set_autopart true (set_to_self ns self))))
    with (fstype (set_to_self ns self)).
  rewrite Hf. reflexivity.
Qed.

Lemma parse_fstype_btrfs handler cls args self ns :
  inherits cls F21 = true ->
  partition_seen handler = false -> raid_seen handler = false ->
  volgroup_seen handler = false -> logvol_seen handler = false ->
  parse_args (_getParser cls) args = inr ns ->
  fstype (set_to_self ns self) = Some "btrfs" ->
  fst (parse cls handler args self) = inl FstypeBtrfsNotValid.
Proof.
  intros Hc H1 H2 H3 H4 Hns Hf.
  destruct cls; try discriminate; unfold parse, F23_parse, RHEL7_parse;
    try erewrite bind_error by (eapply F21_parse_fstype_btrfs; eassumption);
    try erewrite F21_parse_fstype_btrfs by eassumption; reflexivity.
Qed.

(** C6, as the code has it.  From F21 on, in a document where none of the other partitioning
    commands has been seen, a line that the option parser accepts and that
    leaves [fstype] equal to [btrfs] is refused with the message that btrfs
    is not a valid fstype, an error of the kind InvalidOptionCombination,
    whatever [type] is; so are the line [--fstype=btrfs] alone and the
    lines that have it before or after a [--type] with any value
    [_type_cb] accepts. *)
Theorem fstype_btrfs_rejected :
  (forall cls handler args self ns,
      inherits cls F21 = true -> no_partitioning_seen handler ->
      parse_args (_getParser cls) args = inr ns ->
      fstype (set_to_self ns self) = Some "btrfs" ->
      fst (parse cls handler args self) = inl FstypeBtrfsNotValid)
  /\ (forall cls handler self ty args,
         inherits cls F21 = true -> no_partitioning_seen handler ->
         (forall v, ty = Some v -> valid_type cls v) ->
         args = (type_tokens ty ++ ["--fstype=btrfs"])%list
         \/ args = "--fstype=btrfs" :: type_tokens ty ->
         fst (parse cls handler args self) = inl FstypeBtrfsNotValid)
  /\ error_kind FstypeBtrfsNotValid = InvalidOptionCombination.
Proof.
  assert (G : forall cls handler args self ns,
             inherits cls F21 = true -> no_partitioning_seen handler ->
             parse_args (_getParser cls) args = inr ns ->
             fstype (set_to_self ns self) = Some "btrfs" ->
             fst (parse cls handler args self) = inl FstypeBtrfsNotValid).
  { intros cls handler args self ns Hc (H1 & H2 & H3 & H4) Hns Hf.
    now apply (parse_fstype_btrfs handler cls args self ns). }
  split; [exact G|]. split; [|reflexivity].
  intros cls handler self ty args Hc Hh Hv Hargs.
  destruct ty as [v|].
  - specialize (Hv v eq_refl). unfold valid_type in Hv.
    destruct (typeMap_get (typeMap cls) (PyStr.lower v)) as [t|] eqn:T;
      [clear Hv | congruence].
    destruct self.
    destruct cls; try discriminate; destruct Hargs as [-> | ->];
      (eapply G; try eassumption;
       [ unfold parse_args; cbn; unfold _type_cb; rewrite T; cbn; reflexivity
       | reflexivity ]).
  - destruct self.
    destruct cls; try discriminate; destruct Hargs as [-> | ->];
      (eapply G; try eassumption;
       [ vm_compute; reflexivity | reflexivity ]).
Qed.

Lemma fstype_btrfs_rejected_witness :
  fst (parse F23 (mkHandler false false false false (Some true))
         ["--encrypted"; "--fstype"; "btrfs"] init) = inl FstypeBtrfsNotValid
  /\ fst (parse F23 (mkHandler false false false false (Some true))
            ["--fstype=btrfs"; "--type=LVM"] init) = inl FstypeBtrfsNotValid.
Proof.
  destruct fstype_btrfs_rejected as (H1 & H2 & _).
  split.
  - eapply H1; [reflexivity | repeat split | vm_compute; reflexivity | reflexivity].
  - apply (H2 F23 (mkHandler false false false false (Some true)) init (Some "LVM"));
      [reflexivity | repeat split | | right; reflexivity].
    intros v Hv. inversion Hv; subst. vm_compute. discriminate.
Defined.

(** C6 as stated fails: a line that holds the token [--fstype=btrfs] is
    accepted when a later [--fstype] replaces the value, is refused as a
    conflict of commands when a partition command has been seen, and is
    refused for its invalid value when its [--type] is not a scheme. *)
Lemma fstype_btrfs_token_is_not_enough :
  fst (parse F21 fresh_handler ["--fstype=btrfs"; "--fstype=ext4"] init) = inr tt
  /\ fst (parse F21 (mkHandler true false false false None)
            ["--fstype=btrfs"] init)
     = inl (CantBeUsedAtTheSameTime "part/partition")
  /\ error_kind (CantBeUsedAtTheSameTime "part/partition") = ConflictingDirectives
  /\ fst (parse F21 fresh_handler ["--fstype=btrfs"; "--type=bogus"] init)
     = inl (InvalidAutopartType "bogus")
  /\ error_kind (InvalidAutopartType "bogus") = InvalidOptionValue.
Proof. repeat split; vm_compute; reflexivity. Qed.

(** C2, as the code has it.  From F17 on, when a line holds both [--nolvm]
    and [--type], the one that comes last on the line decides [type]. *)
Theorem last_token_decides_type cls handler self v t :
  inherits cls F17 = true ->
  typeMap_get (typeMap cls) (PyStr.lower v) = Some t ->
  type (snd (parse cls handler ["--nolvm"; "--type=" ++ v] self)) = Some t
  /\ type (snd (parse cls handler ["--type=" ++ v; "--nolvm"] self))
     = Some AUTOPART_TYPE_PLAIN.
Proof.
  intros Hc T.
  assert (Hn : cls <> FC3) by (intros ->; discriminate).
  destruct self.
  destruct cls; try discriminate;
    (split;
     (erewrite parse_state; cycle 1;
      [ exact Hn
      | unfold parse_args; cbn; unfold _type_cb; rewrite T; cbn; reflexivity
      | reflexivity ])).
Qed.

Lemma last_token_decides_type_witness :
  type (snd (parse F20 fresh_handler ["--nolvm"; "--type=" ++ "Thinp"] init))
  = Some AUTOPART_TYPE_LVM_THINP
  /\ type (snd (parse F20 fresh_handler ["--type=" ++ "Thinp"; "--nolvm"] init))
     = Some AUTOPART_TYPE_PLAIN.
Proof.
  apply (last_token_decides_type F20 fresh_handler init "Thinp"
           AUTOPART_TYPE_LVM_THINP); reflexivity.
Defined.

(** C2 as stated fails: [--type] is declared after [--nolvm], yet on the
    line [--type=lvm --nolvm] it is [--nolvm] that decides. *)
Lemma schema_order_does_not_decide_type :
  map option_string (_getParser F17)
  = ["--encrypted"; "--passphrase"; "--escrowcert"; "--backuppassphrase";
     "--nolvm"; "--type"]
  /\ type (snd (parse F17 fresh_handler ["--type=lvm"] init))
     = Some AUTOPART_TYPE_LVM
  /\ fst (parse F17 fresh_handler ["--type=lvm"; "--nolvm"] init) = inr tt
  /\ type (snd (parse F17 fresh_handler ["--type=lvm"; "--nolvm"] init))
     = Some AUTOPART_TYPE_PLAIN.
Proof.
  repeat split; vm_compute; reflexivity.
Qed.

(** ** Options and the classes that know them *)

Lemma declares_in cls o :
  declares cls o = true -> In o (map option_string (_getParser cls)).
Proof.
  unfold declares, find_action.
  destruct (find _ _) as [a|] eqn:F; [|discriminate]. intros _.
  destruct (find_some _ _ F) as [Hin He].
  apply String.eqb_eq in He. subst o. now apply in_map.
Qed.

Lemma introduced_at_in o V2 :
  introduced_at o V2 = true -> In o (map option_string (_getParser V2)).
Proof.
  unfold introduced_at. intros H. apply declares_in. unfold declares.
  destruct (find_action (_getParser V2) o); [reflexivity | discriminate].
Qed.

Lemma introduced_at_option o V2 :
  introduced_at o V2 = true -> In o option_strings.
Proof.
  intros H. pose proof (introduced_at_in o V2 H) as Hin.
  destruct V2; vm_compute in Hin |- *; tauto.
Qed.

Lemma knows_false V o :
  (forall W, introduced_at o W = true -> inherits V W = false) ->
  knows V o = false.
Proof.
  intros H. unfold knows.
  destruct (existsb _ all_versions) eqn:E; [|reflexivity].
  apply existsb_exists in E. destruct E as (W & _ & HW).
  apply andb_prop in HW. destruct HW as [Hi Hh].
  rewrite (H W Hi) in Hh. discriminate.
Qed.

Lemma unknown_option_rejected o V handler self v :
  In o option_strings -> knows V o = false ->
  rejected V handler self o /\ rejected V handler self (o ++ "=" ++ v).
Proof.
  intros Hin Hk. unfold option_strings in Hin. simpl in Hin.
  repeat match goal with
    | H : _ \/ _ |- _ => destruct H as [H|H]
    | H : False |- _ => destruct H
    end; subst o;
    destruct V; vm_compute in Hk; try discriminate Hk; clear Hk;
    unfold rejected; (split; [reflexivity|]);
    unfold_parse; unfold FC3_parse, parse_args; cbn;
    try reflexivity;
    destruct (contains_char " "%char v); reflexivity.
Qed.

(** C3, as the code has it.  An option that the [_getParser] of class
    [V2] adds is accepted by every class that is [V2] or derives from it.
    A class that neither is nor derives from a class that adds the option
    refuses the line that supplies it: FC3 as an unexpected argument, the
    others as an unknown option.  So, for every numbering of the versions
    under which a class never comes before a class it derives from, a
    class that comes before [V2] refuses the option, unless it derives from
    another class that adds the same option. *)
Theorem option_known_from_its_class_on :
  (forall o V2 V v,
      introduced_at o V2 = true -> inherits V V2 = true -> accepted V o v)
  /\ (forall o V handler self v,
         In o option_strings -> knows V o = false ->
         rejected V handler self o
         /\ rejected V handler self (o ++ "=" ++ v)
         /\ error_kind (match V with
                        | FC3 => DoesNotTakeAnyArguments
                        | _ => OptionParserError (UnrecognizedArguments [o])
                        end)
            = match V with FC3 => UnexpectedArgument | _ => UnknownOption end)
  /\ (forall number : version -> nat,
         (forall V W, inherits V W = true -> (number W <= number V)%nat) ->
         forall o V2 V1 handler self,
           introduced_at o V2 = true ->
           (number V1 < number V2)%nat ->
           (forall W, introduced_at o W = true -> W <> V2 -> inherits V1 W = false) ->
           rejected V1 handler self o).
Proof.
  split; [|split].
  - intros o V2 V v Hi HV.
    pose proof (introduced_at_in o V2 Hi) as Hin.
    destruct V2; simpl in Hin;
      repeat match goal with
        | H : _ \/ _ |- _ => destruct H as [H|H]
        | H : False |- _ => destruct H
        end; subst o; try discriminate Hi; clear Hi;
      unfold accepted; destruct V; try discriminate HV;
      eexists; (split; [reflexivity|]);
      unfold supply, coerce, parse_args; cbn;
      try (destruct (_type_cb _ v)); reflexivity.
  - intros o V handler self v Hin Hk.
    destruct (unknown_option_rejected o V handler self v Hin Hk) as [H1 H2].
    split; [exact H1|]. split; [exact H2|].
    destruct V; reflexivity.
  - intros number Hnum o V2 V1 handler self Hi Hlt Hother.
    apply (unknown_option_rejected o V1 handler self EmptyString).
    + exact (introduced_at_option o V2 Hi).
    + apply knows_false. intros W HW.
      destruct (version_eqb W V2) eqn:E.
      * assert (W = V2) by (destruct W, V2; try discriminate E; reflexivity).
        subst W. destruct (inherits V1 V2) eqn:Hh; [|reflexivity].
        pose proof (Hnum V1 V2 Hh). lia.
      * apply Hother; [exact HW|]. intros ->.
        destruct V2; discriminate E.
Qed.

Lemma option_known_from_its_class_on_witness :
  accepted F26 "--cipher" "aes"
  /\ (rejected F16 fresh_handler init "--cipher"
      /\ rejected F16 fresh_handler init ("--cipher" ++ "=" ++ "aes")
      /\ error_kind (OptionParserError (UnrecognizedArguments ["--cipher"]))
         = UnknownOption)
  /\ rejected F12 fresh_handler init "--nolvm".
Proof.
  destruct option_known_from_its_class_on as (H1 & H2 & H3).
  split; [|split].
  - apply (H1 "--cipher" F18 F26 "aes"); reflexivity.
  - apply (H2 "--cipher" F16 fresh_handler init "aes");
      [vm_compute; tauto | reflexivity].
  - apply (H3 class_index) with (V2 := F16).
    + intros V W H. destruct V, W; try discriminate H; vm_compute; lia.
    + reflexivity.
    + vm_compute. lia.
    + intros W HW Hne.
      destruct W; try discriminate HW; try congruence; reflexivity.
Defined.

(** C3 as stated fails.  Under FC3 the line [--encrypted] is refused
    because the command takes no argument there, which is an error of the
    kind UnexpectedArgument and not of the kind UnknownOption.  And no
    order of the versions makes every version at or after the one that
    introduces an option accept it: [RHEL6_AutoPart] and [F16_AutoPart]
    both derive from [F12_AutoPart], the first adds [--cipher] and refuses
    [--nolvm], the second adds [--nolvm] and refuses [--cipher] (as does
    F17), so whichever of the two comes first, the other refuses its
    option. *)
Lemma no_version_order_fits_the_options :
  (introduced_at "--encrypted" F9 = true
   /\ parse FC3 fresh_handler ["--encrypted"] init
      = (inl DoesNotTakeAnyArguments, init)
   /\ error_kind DoesNotTakeAnyArguments = UnexpectedArgument
   /\ UnexpectedArgument <> UnknownOption)
  /\ (introduced_at "--cipher" RHEL6 = true
      /\ parse F16 fresh_handler ["--cipher=aes"] init
         = (inl (OptionParserError (UnrecognizedArguments ["--cipher=aes"])), init)
      /\ parse F17 fresh_handler ["--cipher=aes"] init
         = (inl (OptionParserError (UnrecognizedArguments ["--cipher=aes"])), init))
  /\ (introduced_at "--nolvm" F16 = true
      /\ parse RHEL6 fresh_handler ["--nolvm"] init
         = (inl (OptionParserError (UnrecognizedArguments ["--nolvm"])), init))
  /\ (forall number : version -> nat, ~ version_monotonicity number).
Proof.
  split; [|split; [|split]].
  - repeat split; try (vm_compute; reflexivity). discriminate.
  - repeat split; vm_compute; reflexivity.
  - repeat split; vm_compute; reflexivity.
  - intros number H.
    destruct (Nat.le_gt_cases (number RHEL6) (number F16)) as [Hle|Hgt].
    + destruct (H "--cipher" RHEL6 F16 eq_refl) as [Ha _].
      destruct (Ha Hle EmptyString) as (a & Hf & _). discriminate Hf.
    + destruct (H "--nolvm" F16 RHEL6 eq_refl) as [Ha _].
      assert (Hle : (number F16 <= number RHEL6)%nat) by lia.
      destruct (Ha Hle EmptyString) as (a & Hf & _). discriminate Hf.
Qed.

(** * Reading back what was written *)

(** C1 as stated fails: the object that parsing [--passphrase=abc] without
    [--encrypted] builds under F9 is written as the bare command, and
    reading that back, in a document of its own whose command object is as
    [__init__] leaves it, gives an object whose passphrase is the empty
    string of [__init__]. *)
Lemma passphrase_without_encrypted_is_lost :
  fst (parse F9 fresh_handler ["--passphrase=abc"] init) = inr tt
  /\ passphrase (snd (parse F9 fresh_handler ["--passphrase=abc"] init)) = Some "abc"
  /\ __str__ F9 (snd (parse F9 fresh_handler ["--passphrase=abc"] init))
     = "autopart" ++ PyStr.nl
  /\ exists s',
      reparse F9 fresh_handler
        (__str__ F9 (snd (parse F9 fresh_handler ["--passphrase=abc"] init)))
        init
      = Some (inr tt, s')
      /\ passphrase s' = Some EmptyString
      /\ s' <> snd (parse F9 fresh_handler ["--passphrase=abc"] init).
Proof.
  repeat split; try (vm_compute; reflexivity).
  eexists. repeat split; try (vm_compute; reflexivity).
  vm_compute. discriminate.
Qed.

(** ** What [parse] does after the options *)

Lemma bind_assoc (m k l : M unit) (self : AutoPart) :
  ((m ;;; k) ;;; l) self = (m ;;; (k ;;; l)) self.
Proof.
  unfold bind. destruct (m self) as [[e|[]] s1]; reflexivity.
Qed.

Lemma post_checks_read_only cls handler : read_only (post_checks cls handler).
Proof.
  intros self.
  pose proof (check_partitioning_commands_read_only handler) as Hp.
  pose proof (check_fstype_read_only cls) as Hf.
  pose proof (check_reqpart_read_only handler) as Hr.
  destruct cls; unfold post_checks; try reflexivity;
    repeat rewrite bind_read_only by assumption; auto.
Qed.

Lemma parse_as_checks cls handler args self ns :
  cls <> FC3 ->
  parse_args (_getParser cls) args = inr ns ->
  parse cls handler args self = post_checks cls handler (applied cls ns self).
Proof.
  intros Hc Hns.
  assert (H9 : F9_parse cls args self
               = (inr tt, set_autopart true (set_to_self ns self)))
    by (rewrite F9_parse_run, Hns; reflexivity).
  assert (H17 : F17_parse cls args self
                = (inr tt, set_lvm true (set_autopart true (set_to_self ns self))))
    by (rewrite F17_parse_run, Hns; reflexivity).
  destruct cls; try congruence;
    unfold parse, post_checks, F23_parse, RHEL7_parse, F21_parse, F20_parse,
      F18_parse, RHEL6_parse, F16_parse, F12_parse;
    repeat rewrite bind_assoc;
    first [ rewrite (bind_ok _ _ _ _ H17) | rewrite (bind_ok _ _ _ _ H9)
          | rewrite H17 | rewrite H9 ];
    reflexivity.
Qed.

(** ** The values [--type] can leave *)

Lemma type_cb_before_F20 cls v w :
  inherits cls F17 = true -> inherits cls F20 = false ->
  _type_cb cls v = inr w ->
  w = VType AUTOPART_TYPE_PLAIN \/ w = VType AUTOPART_TYPE_BTRFS
  \/ w = VType AUTOPART_TYPE_LVM.
Proof.
  intros H17 H20. unfold _type_cb. generalize (PyStr.lower v). intros k.
  destruct cls; try discriminate;
    match goal with
    | |- context [typeMap ?c] =>
        let tm := eval vm_compute in (typeMap c) in
        change (typeMap c) with tm
    end;
    cbn [typeMap_get];
    repeat match goal with
      | |- context [String.eqb ?a k] => destruct (String.eqb a k)
      end; intros H; inversion H; auto.
Qed.

Lemma ns_before_F20_intro b1 p e b2 ty rest :
  (rest = [] \/ exists c, rest = [("cipher", c)]) ->
  (ty = VNone \/ ty = VType AUTOPART_TYPE_PLAIN
   \/ ty = VType AUTOPART_TYPE_BTRFS \/ ty = VType AUTOPART_TYPE_LVM) ->
  ns_before_F20
    (("encrypted", b1) :: ("passphrase", p) :: ("escrowcert", e)
     :: ("backuppassphrase", b2) :: ("type", ty) :: rest).
Proof. intros Hr Ht. exists b1, p, e, b2, ty, rest. auto. Qed.

Lemma type_setattr key val self :
  type (setattr key val self)
  = if String.eqb key "type"
    then match val with
         | VType t => Some t
         | VNone => None
         | _ => type self
         end
    else type self.
Proof.
  destruct (String.eqb key "type") eqn:E.
  - apply String.eqb_eq in E. subst key. destruct val; reflexivity.
  - unfold setattr. rewrite E.
    destruct val;
      repeat match goal with
        | |- context [if String.eqb key ?k then _ else _] =>
            destruct (String.eqb key k)
        end; reflexivity.
Qed.

Ltac one_of_these :=
  first [ reflexivity
        | left; reflexivity
        | right; one_of_these
        | eexists; reflexivity ].

Lemma type_set_unless_None key val self :
  type (if is_None val then self else setattr key val self)
  = if String.eqb key "type"
    then match val with
         | VType t => Some t
         | _ => type self
         end
    else type self.
Proof.
  destruct val; cbn [is_None]; rewrite ?type_setattr;
    destruct (String.eqb key "type"); reflexivity.
Qed.

(** Between F17 and F20 the thin-provisioning scheme is not in [typeMap],
    and no line makes it the [type]. *)
Lemma type_before_F20 cls args ns self :
  inherits cls F17 = true -> inherits cls F20 = false ->
  type self <> Some AUTOPART_TYPE_LVM_THINP ->
  parse_args (_getParser cls) args = inr ns ->
  type (set_to_self ns self) <> Some AUTOPART_TYPE_LVM_THINP.
Proof.
  intros H17 H20 Hself Hns.
  assert (HP : ns_before_F20 ns).
  { unfold parse_args in Hns.
    refine (consume_invariant (_getParser cls) ns_before_F20 _ args _ [] ns _ Hns).
    - intros a ns0 Hin (b1 & p & e & b2 & ty & rest & -> & Hrest & Hty).
      pose proof (type_cb_before_F20 cls) as Hcb.
      destruct cls; try discriminate; simpl in Hin;
        repeat match goal with
          | H : _ \/ _ |- _ => destruct H as [H|H]
          | H : False |- _ => destruct H
          | H : exists _, _ |- _ => destruct H as [? H]
          end; subst;
        cbn [action dest ns_set app String.eqb Ascii.eqb Bool.eqb
             store_true store_false store_str];
        try (intros v w Hw);
        try (destruct (Hcb v w eq_refl eq_refl Hw) as [ -> | [ -> | -> ] ]);
        try (inversion Hw; subst);
        (apply ns_before_F20_intro; one_of_these).
    - destruct cls; try discriminate; cbn; apply ns_before_F20_intro;
        one_of_these. }
  destruct HP as (b1 & p & e & b2 & ty & rest & -> & Hrest & Hty).
  unfold set_to_self, set_to_obj.
  destruct Hrest as [-> | [c ->]]; cbn [fold_left app fst snd];
    repeat rewrite type_set_unless_None; cbn [String.eqb Ascii.eqb Bool.eqb];
    destruct Hty as [ -> | [ -> | [ -> | -> ] ] ];
    first [exact Hself | discriminate].
Qed.

(** ** The text as a list of fragments *)

Section FlatLemmas.

Import PyStr.

Lemma append_nil_r (a : string) : a ++ EmptyString = a.
Proof. induction a as [|c a IH]; simpl; [reflexivity | now rewrite IH]. Qed.

Lemma join_app (l1 l2 : list string) : join (l1 ++ l2) = join l1 ++ join l2.
Proof.
  induction l1 as [|x l1 IH]; simpl; [reflexivity|].
  rewrite IH, append_assoc. reflexivity.
Qed.

Lemma rstrip_ends_nonspace (s : string) :
  ends_nonspace s = true -> rstrip s = s.
Proof.
  induction s as [|c s IH]; [discriminate|].
  destruct s as [|d s'].
  - simpl. intros H. destruct (isspace c); [discriminate | reflexivity].
  - intros H. change (ends_nonspace (String d s') = true) in H.
    cbn [rstrip]. cbn [rstrip] in IH. rewrite (IH H). reflexivity.
Qed.

Lemma ends_nonspace_app (a b : string) :
  ends_nonspace b = true -> ends_nonspace (a ++ b) = true.
Proof.
  intros H. induction a as [|c a IH]; [exact H|].
  cbn [append ends_nonspace].
  destruct (a ++ b) eqn:E; [discriminate IH | exact IH].
Qed.

Lemma ends_nonspace_quoted (v : string) : ends_nonspace (quoted v) = true.
Proof.
  unfold quoted.
  change (String DQUOTE (v ++ String DQUOTE EmptyString))
    with (String DQUOTE v ++ String DQUOTE EmptyString).
  apply ends_nonspace_app. reflexivity.
Qed.

Lemma tidy_join (frs : list fragment) (pre : string) :
  Forall frag_tidy frs -> ends_nonspace pre = true ->
  ends_nonspace (pre ++ join (map text_of frs)) = true.
Proof.
  intros H. revert pre.
  induction H as [|f frs Hf _ IH]; intros pre Hp; simpl.
  - rewrite append_nil_r. exact Hp.
  - rewrite <- append_assoc. apply IH. now apply ends_nonspace_app.
Qed.

Lemma strip_flat (frs : list fragment) :
  Forall frag_tidy frs ->
  strip (flat frs) = "autopart" ++ join (map text_of frs).
Proof.
  intros H. unfold flat, strip.
  change (lstrip ("autopart" ++ join (map text_of frs) ++ nl))
    with ("autopart" ++ join (map text_of frs) ++ nl).
  rewrite <- append_assoc, rstrip_app_nl.
  apply rstrip_ends_nonspace, tidy_join; [exact H | reflexivity].
Qed.

(** One layer: strip the line below, append the new fragments, end the
    line. *)
Lemma layer_flat (frs new : list fragment) :
  Forall frag_tidy frs ->
  (strip (flat frs) ++ join (map text_of new)) ++ nl = flat (frs ++ new).
Proof.
  intros H. rewrite (strip_flat frs H). unfold flat.
  rewrite map_app, join_app, !append_assoc. reflexivity.
Qed.

Lemma flat_app_nil (frs : list fragment) : flat (frs ++ []) = flat frs.
Proof. now rewrite app_nil_r. Qed.

End FlatLemmas.

(** ** [__str__] layer by layer is the flat line *)

Ltac layer H :=
  cbn [andb negb opt app]; rewrite ?app_nil_r; try reflexivity;
  rewrite <- (layer_flat _ _ H); cbn [map join text_of];
  rewrite ?append_assoc, ?append_nil_r; reflexivity.

Lemma flag_layer (frs : list fragment) (b : bool) (name r : string) :
  Forall frag_tidy frs -> r = flat frs ->
  (if b then (PyStr.strip r ++ " " ++ name) ++ PyStr.nl else r)
  = flat (frs ++ opt b (Flag name)).
Proof.
  intros H ->. destruct b; layer H.
Qed.

Lemma quoted_layer (frs : list fragment) (b : bool) (name v r : string) :
  Forall frag_tidy frs -> r = flat frs ->
  (if b then (PyStr.strip r ++ " " ++ name ++ "=" ++ PyStr.quoted v) ++ PyStr.nl
   else r)
  = flat (frs ++ opt b (Quoted name v)).
Proof.
  intros H ->. destruct b; layer H.
Qed.

Lemma bare_layer (frs : list fragment) (b : bool) (name v r : string) :
  Forall frag_tidy frs -> r = flat frs ->
  (if b then (PyStr.strip r ++ " " ++ name ++ "=" ++ v) ++ PyStr.nl else r)
  = flat (frs ++ opt b (Bare name v)).
Proof.
  intros H ->. destruct b; layer H.
Qed.

Section FlatLayers.

Variable s : AutoPart.
Hypothesis present : autopart s = true.

Lemma F9_flat : F9_str s = flat (F9_frags s).
Proof.
  unfold F9_str, KickstartCommand_str, F9_frags, flat.
  rewrite present. cbn [negb].
  destruct (encrypted s), (PyStr.truthy (passphrase s));
    cbn [andb opt app map join text_of];
    rewrite ?append_assoc, ?append_nil_r; reflexivity.
Qed.

Lemma F12_flat :
  Forall frag_tidy (F9_frags s) -> F12_str s = flat (F12_frags s).
Proof.
  intros H. unfold F12_str, F12_frags. rewrite present, F9_flat. cbn [negb].
  destruct (encrypted s && PyStr.truthy (escrowcert s));
    [destruct (backuppassphrase s)|]; layer H.
Qed.

Lemma RHEL6_flat :
  Forall frag_tidy (F12_frags s) -> RHEL6_str s = flat (RHEL6_frags s).
Proof.
  intros H.
  assert (H9 : Forall frag_tidy (F9_frags s))
    by (unfold F12_frags in H; apply Forall_app in H; tauto).
  unfold RHEL6_str, RHEL6_frags, cipher_frags. rewrite present. cbn [negb].
  now apply (quoted_layer _ _ "--cipher"); [|apply F12_flat].
Qed.

Lemma F16_flat :
  Forall frag_tidy (F12_frags s) -> F16_str s = flat (F16_frags s).
Proof.
  intros H.
  assert (H9 : Forall frag_tidy (F9_frags s))
    by (unfold F12_frags in H; apply Forall_app in H; tauto).
  unfold F16_str, F16_frags. rewrite present. cbn [negb].
  now apply (flag_layer _ _ "--nolvm"); [|apply F12_flat].
Qed.

Lemma F17_flat (cls : version) :
  Forall frag_tidy (F16_frags s) -> F17_str cls s = flat (F17_frags cls s).
Proof.
  intros H.
  assert (H12 : Forall frag_tidy (F12_frags s))
    by (unfold F16_frags in H; apply Forall_app in H; tauto).
  unfold F17_str, F17_frags. rewrite present. cbn [negb].
  rewrite <- (bare_layer _ _ "--type" _ (F16_str s) H (F16_flat H12)).
  destruct (PyStr.truthy (_typeAsStr cls s)); [|reflexivity].
  rewrite ?append_assoc. reflexivity.
Qed.

Lemma F18_flat (cls : version) :
  Forall frag_tidy (F17_frags cls s) -> F18_str cls s = flat (F18_frags cls s).
Proof.
  intros H.
  assert (H16 : Forall frag_tidy (F16_frags s))
    by (unfold F17_frags in H; apply Forall_app in H; tauto).
  unfold F18_str, F18_frags, cipher_frags. rewrite present. cbn [negb].
  now apply (quoted_layer _ _ "--cipher"); [|apply F17_flat].
Qed.

Lemma F21_flat (cls : version) :
  Forall frag_tidy (F18_frags cls s) -> F21_str cls s = flat (F21_frags cls s).
Proof.
  intros H.
  assert (H17 : Forall frag_tidy (F17_frags cls s))
    by (unfold F18_frags in H; apply Forall_app in H; tauto).
  unfold F21_str, F20_str, F21_frags. rewrite present. cbn [negb].
  now apply (bare_layer _ _ "--fstype"); [|apply F18_flat].
Qed.

Lemma RHEL7_flat (cls : version) :
  Forall frag_tidy (F21_frags cls s) -> RHEL7_str cls s = flat (RHEL7_frags cls s).
Proof.
  intros H.
  assert (H18 : Forall frag_tidy (F18_frags cls s))
    by (unfold F21_frags in H; apply Forall_app in H; tauto).
  unfold RHEL7_str, RHEL7_frags. rewrite present. cbn [negb].
  now apply (flag_layer _ _ "--nohome"); [|apply F21_flat].
Qed.

Lemma flags_tidy (frs : list fragment) (b : bool) (name : string) :
  Forall frag_tidy frs -> ends_nonspace name = true ->
  Forall frag_tidy (frs ++ opt b (Flag name)).
Proof.
  intros H Hn. apply Forall_app. split; [exact H|].
  destruct b; constructor; [|constructor].
  unfold frag_tidy, text_of. now apply ends_nonspace_app.
Qed.

Lemma F26_flat (cls : version) :
  Forall frag_tidy (F21_frags cls s) -> F26_str cls s = flat (F26_frags cls s).
Proof.
  intros H.
  assert (H18 : Forall frag_tidy (F18_frags cls s))
    by (unfold F21_frags in H; apply Forall_app in H; tauto).
  pose proof (flags_tidy _ (nohome s) "--nohome" H eq_refl) as H1.
  pose proof (flags_tidy _ (noboot s) "--noboot" H1 eq_refl) as H2.
  unfold F26_str, F23_str, F26_frags. rewrite present. cbn [negb].
  rewrite !app_assoc.
  apply (flag_layer _ _ "--noswap"); [exact H2|].
  apply (flag_layer _ _ "--noboot"); [exact H1|].
  apply (flag_layer _ _ "--nohome"); [exact H|].
  now apply F21_flat.
Qed.

End FlatLayers.

(** The layered [__str__] of every class writes the flat line of its
    fragments. *)
Lemma str_flat (cls : version) (s : AutoPart) :
  autopart s = true -> Forall frag_tidy (fragments cls s) ->
  __str__ cls s = flat (fragments cls s).
Proof.
  intros Ha H.
  destruct cls; unfold __str__, fragments in *.
  - unfold FC3_str, KickstartCommand_str. rewrite Ha. reflexivity.
  - now apply F9_flat.
  - apply F12_flat; [exact Ha|].
    unfold F12_frags in H; apply Forall_app in H; tauto.
  - apply RHEL6_flat; [exact Ha|].
    unfold RHEL6_frags in H; apply Forall_app in H; tauto.
  - apply F16_flat; [exact Ha|].
    unfold F16_frags in H; apply Forall_app in H; tauto.
  - apply F17_flat; [exact Ha|].
    unfold F17_frags in H; apply Forall_app in H; tauto.
  - apply F18_flat; [exact Ha|].
    unfold F18_frags in H; apply Forall_app in H; tauto.
  - apply F18_flat; [exact Ha|].
    unfold F18_frags in H; apply Forall_app in H; tauto.
  - apply F21_flat; [exact Ha|].
    unfold F21_frags in H; apply Forall_app in H; tauto.
  - apply F21_flat; [exact Ha|].
    unfold F21_frags in H; apply Forall_app in H; tauto.
  - apply RHEL7_flat; [exact Ha|].
    unfold RHEL7_frags in H; apply Forall_app in H; tauto.
  - apply F26_flat; [exact Ha|].
    unfold F26_frags in H; apply Forall_app in H; tauto.
Qed.

(** ** Reading the flat line *)

Section ReaderLemmas.

Import Reader.

Lemma all_chars_app p (a b : string) :
  all_chars p (a ++ b) = all_chars p a && all_chars p b.
Proof.
  induction a as [|c a IH]; simpl; [reflexivity|].
  rewrite IH, andb_assoc. reflexivity.
Qed.

Lemma lex_plain_char (c : ascii) (r : string) (cur : option string) :
  plain_char c = true -> lex (String c r) Plain cur = lex r Plain (push cur c).
Proof.
  unfold plain_char. intros H. apply negb_true_iff in H.
  apply orb_false_iff in H. destruct H as [H Hh].
  apply orb_false_iff in H. destruct H as [H Hb].
  apply orb_false_iff in H. destruct H as [H Hs].
  apply orb_false_iff in H. destruct H as [H Hd].
  cbn [lex]. rewrite H, Hh, Hd, Hs, Hb. reflexivity.
Qed.

Lemma lex_plain (w rest t : string) :
  plain_word w = true ->
  lex (w ++ rest) Plain (Some t) = lex rest Plain (Some (t ++ w)).
Proof.
  revert t. induction w as [|c w IH]; intros t H.
  - cbn [append]. now rewrite append_nil_r.
  - apply andb_prop in H. destruct H as [Hc Hw].
    cbn [append]. rewrite (lex_plain_char _ _ _ Hc). cbn [push].
    rewrite (IH _ Hw), append_assoc. reflexivity.
Qed.

Lemma lex_plain_start (w rest : string) :
  nonempty w = true -> plain_word w = true ->
  lex (w ++ rest) Plain None = lex rest Plain (Some w).
Proof.
  destruct w as [|c w]; [discriminate|]. intros _ H.
  apply andb_prop in H. destruct H as [Hc Hw].
  cbn [append]. rewrite (lex_plain_char _ _ _ Hc). cbn [push].
  now rewrite (lex_plain _ _ _ Hw).
Qed.

Lemma lex_in_double (v rest t : string) :
  quotable v = true ->
  lex (v ++ String PyStr.DQUOTE rest) InDouble (Some t)
  = lex rest Plain (Some (t ++ v)).
Proof.
  revert t. induction v as [|c v IH]; intros t H.
  - cbn [append lex]. rewrite Ascii.eqb_refl, append_nil_r. reflexivity.
  - apply andb_prop in H. destruct H as [Hc Hv].
    unfold quotable_char in Hc. apply negb_true_iff, orb_false_iff in Hc.
    destruct Hc as [Hc _]. apply orb_false_iff in Hc.
    destruct Hc as [Hq Hb].
    cbn [append lex]. rewrite Hq, Hb. cbn [push].
    rewrite (IH _ Hv), append_assoc. reflexivity.
Qed.

Lemma lex_quoted (v rest t : string) :
  quotable v = true ->
  lex (PyStr.quoted v ++ rest) Plain (Some t) = lex rest Plain (Some (t ++ v)).
Proof.
  intros H. unfold PyStr.quoted. cbn [append].
  rewrite append_assoc. cbn [append].
  change (lex (String PyStr.DQUOTE (v ++ String PyStr.DQUOTE rest)) Plain (Some t))
    with (lex (v ++ String PyStr.DQUOTE rest) InDouble (Some t)).
  now apply lex_in_double.
Qed.

(** Each fragment is read as its token. *)
Lemma lex_fragment (f : fragment) (rest t : string) :
  frag_lexable f ->
  lex (text_of f ++ rest) Plain (Some t)
  = option_map (cons t) (lex rest Plain (Some (arg_of f))).
Proof.
  intros H.
  assert (Hsp : forall body,
             lex ((" " ++ body) ++ rest) Plain (Some t)
             = option_map (cons t) (lex (body ++ rest) Plain None))
    by reflexivity.
  destruct f as [name | name v | name v]; unfold frag_lexable in H;
    cbn [text_of arg_of]; rewrite Hsp.
  - apply andb_prop in H. destruct H as [Hn Hp].
    now rewrite lex_plain_start.
  - apply andb_prop in H. destruct H as [H Hv].
    apply andb_prop in H. destruct H as [Hn Hp].
    rewrite <- (append_assoc name "="), append_assoc.
    rewrite lex_plain_start.
    + rewrite lex_quoted by exact Hv. rewrite append_assoc. reflexivity.
    + destruct name; [discriminate | reflexivity].
    + unfold plain_word. rewrite all_chars_app.
      unfold plain_word in Hp. rewrite Hp. reflexivity.
  - apply andb_prop in H. destruct H as [H Hv].
    apply andb_prop in H. destruct H as [Hn Hp].
    rewrite lex_plain_start; [reflexivity | |].
    + destruct name; [discriminate | reflexivity].
    + unfold plain_word in *. rewrite !all_chars_app, Hp, Hv. reflexivity.
Qed.

Lemma lex_fragments (frs : list fragment) (t : string) :
  Forall frag_lexable frs ->
  lex (join (map text_of frs) ++ PyStr.nl) Plain (Some t)
  = Some (t :: map arg_of frs).
Proof.
  intros H. revert t.
  induction H as [|f frs Hf _ IH]; intros t.
  - reflexivity.
  - cbn [map join]. rewrite append_assoc, (lex_fragment _ _ _ Hf), IH.
    reflexivity.
Qed.

(** The reader takes the flat line apart into the keyword and the tokens
    of the fragments. *)
Lemma split_flat (frs : list fragment) :
  Forall frag_lexable frs ->
  split (flat frs) = Some ("autopart" :: map arg_of frs).
Proof.
  intros H. unfold split, flat.
  rewrite (lex_plain_start "autopart") by reflexivity.
  now apply lex_fragments.
Qed.

End ReaderLemmas.

(** ** Parsing the tokens of the fragments *)

Lemma consume_token op tok rest ns extras a x w :
  classify op tok = Optional a x ->
  apply_option a x = Some (inr w) ->
  consume op (tok :: rest) ns extras
  = consume op rest (ns_set (dest a) w ns) extras.
Proof.
  intros C A. cbn [consume]. rewrite C. unfold apply_option in A.
  destruct (action a) as [type|const]; destruct x as [v|]; try discriminate.
  - inversion A as [T]. rewrite T. reflexivity.
  - inversion A; subst. reflexivity.
Qed.

Lemma ns_set_same key old ns :
  ns_get key ns = Some old -> ns_set key old ns = ns.
Proof.
  induction ns as [|[k w] ns IH]; [discriminate|]. cbn [ns_get ns_set].
  destruct (String.eqb k key).
  - intros H. inversion H; subst. reflexivity.
  - intros H. rewrite (IH H). reflexivity.
Qed.

(** A fragment that is there or not, by [b]: on the namespace it is the
    assignment of the stored value or of the value that was there. *)
Lemma consume_opt op (b : bool) f rest ns a x w old :
  classify op (arg_of f) = Optional a x ->
  (b = true -> apply_option a x = Some (inr w)) ->
  ns_get (dest a) ns = Some old ->
  consume op (map arg_of (opt b f ++ rest)) ns []
  = consume op (map arg_of rest) (ns_set (dest a) (if b then w else old) ns) [].
Proof.
  intros C A G. destruct b; cbn [opt app map].
  - apply (consume_token _ _ _ _ _ a x w C). now apply A.
  - now rewrite (ns_set_same _ _ _ G).
Qed.

Lemma flag_value (b : bool) :
  (if b then VBool true else VBool false) = VBool b.
Proof. destruct b; reflexivity. Qed.

Lemma nolvm_value (b : bool) :
  (if negb b then VBool false else VBool true) = VBool b.
Proof. destruct b; reflexivity. Qed.

Lemma shown_value (b : bool) (v : option string) :
  (b = true -> PyStr.truthy v = true) ->
  (if b then VStr (PyStr.fmt v) else VNone) = str_value (if b then v else None).
Proof.
  destruct b; [|reflexivity]. intros H.
  destruct v; [reflexivity|]. specialize (H eq_refl). discriminate.
Qed.

Lemma dependent_value (enc : bool) (v : option string) :
  (if enc && PyStr.truthy v then VStr (PyStr.fmt v) else VNone)
  = str_value (if enc && PyStr.truthy v then v else None).
Proof.
  apply shown_value. intros H. apply andb_prop in H. tauto.
Qed.

Lemma fstype_value (f : option string) :
  (if PyStr.truthy f then VStr (PyStr.fmt f) else VNone)
  = str_value (if PyStr.truthy f then f else None).
Proof. now apply shown_value. Qed.

(** A [type] that [typeMap] knows is written under a name that
    [_type_cb] maps back to it. *)
Lemma type_read_back cls s :
  inherits cls F17 = true ->
  (inherits cls F20 = false -> type s <> Some AUTOPART_TYPE_LVM_THINP) ->
  (PyStr.truthy (_typeAsStr cls s) = true ->
   apply_option (mkAction "--type" (store (_type_cb cls)) "type" VNone F17)
     (Some (PyStr.fmt (_typeAsStr cls s)))
   = Some (inr (getattr "type" s)))
  /\ (if PyStr.truthy (_typeAsStr cls s) then getattr "type" s else VNone)
     = getattr "type" s.
Proof.
  intros H17 H20. unfold _typeAsStr, getattr. cbn [String.eqb Ascii.eqb Bool.eqb].
  destruct (type s) as [[]|]; destruct cls; try discriminate H17;
    try (exfalso; apply (H20 eq_refl); reflexivity);
    (split; [intros Ht; vm_compute in Ht; try discriminate Ht|];
     vm_compute; reflexivity).
Qed.

Lemma type_value cls s :
  (if PyStr.truthy (_typeAsStr cls s) then getattr "type" s else VNone)
  = getattr "type" (written cls s).
Proof.
  unfold getattr, written. cbn [String.eqb Ascii.eqb Bool.eqb type].
  destruct (PyStr.truthy (_typeAsStr cls s)); reflexivity.
Qed.

Ltac step Ht1 :=
  erewrite consume_opt;
  [ | cbn; reflexivity | first [intros _; reflexivity | exact Ht1]
    | cbn; reflexivity ];
  cbn [ns_set dest String.eqb Ascii.eqb Bool.eqb].

(** The tokens of the fragments of [s] give the attributes of [s] that
    the line shows. *)
Lemma parse_fragments cls s :
  cls <> FC3 ->
  (inherits cls F17 = true -> lvm s = true) ->
  (inherits cls F17 = true -> inherits cls F20 = false ->
   type s <> Some AUTOPART_TYPE_LVM_THINP) ->
  parse_args (_getParser cls) (map arg_of (fragments cls s))
  = inr (ns_of cls (written cls s)).
Proof.
  intros Hn Hl Hty.
  unfold parse_args.
  rewrite <- (app_nil_r (fragments cls s)).
  destruct cls; try congruence;
    try (match goal with
         | |- context [_getParser ?c] =>
             destruct (type_read_back c s eq_refl (Hty eq_refl)) as [Ht1 _]
         end);
    unfold fragments, F26_frags, RHEL7_frags, F21_frags, F18_frags, F17_frags,
      F16_frags, RHEL6_frags, F12_frags, F9_frags, cipher_frags;
    try (pose proof (Hl eq_refl) as Hlvm);
    rewrite <- ?app_assoc; cbn [negb opt app].
  all:  match goal with
    | |- context [ns_defaults ?op] =>
        let d := eval vm_compute in (ns_defaults op) in
        change (ns_defaults op) with d
    end.
  all: try (rewrite Hlvm; cbn [negb opt app]).
  all: repeat (first [step Ht1 | step I]).
  all: cbn [map consume];
    rewrite ?type_value, ?flag_value, ?nolvm_value, ?dependent_value,
      ?fstype_value.
  all: unfold ns_of;
    match goal with
    | |- context [ns_defaults ?op] =>
        let d := eval vm_compute in (ns_defaults op) in
        change (ns_defaults op) with d
    end;
    cbn [map fst snd]; unfold getattr at 1; unfold written;
    cbn [String.eqb Ascii.eqb Bool.eqb]; try rewrite Hlvm; reflexivity.
Qed.

(** ** The fragments of a canonical object *)

Lemma Forall_opt {A : Type} (P : A -> Prop) (b : bool) (x : A) :
  (b = true -> P x) -> Forall P (opt b x).
Proof. destruct b; intros H; constructor; auto. Qed.

Lemma line_boundary_isspace (c : ascii) :
  line_boundary c = true -> PyStr.isspace c = true.
Proof.
  destruct c as [[] [] [] [] [] [] [] []]; intros H;
    first [reflexivity | discriminate H].
Qed.

Lemma line_free_app (a b : string) :
  line_free (a ++ b) = line_free a && line_free b.
Proof. apply all_chars_app. Qed.

Lemma quotable_line_free (v : string) : quotable v = true -> line_free v = true.
Proof.
  unfold quotable, line_free. induction v as [|c v IH]; simpl; [reflexivity|].
  intros H. apply andb_prop in H. destruct H as [Hc Hv].
  unfold quotable_char in Hc. apply negb_true_iff, orb_false_iff in Hc.
  destruct Hc as [_ Hc]. rewrite Hc, (IH Hv). reflexivity.
Qed.

Lemma word_line_free (v : string) : word v = true -> line_free v = true.
Proof.
  unfold word, line_free. induction v as [|c v IH]; simpl; [reflexivity|].
  intros H. apply andb_prop in H. destruct H as [Hc Hv].
  apply andb_prop in Hc. destruct Hc as [_ Hc]. apply negb_true_iff in Hc.
  rewrite (IH Hv), andb_true_r.
  destruct (line_boundary c) eqn:E; [|reflexivity].
  rewrite (line_boundary_isspace c E) in Hc. discriminate.
Qed.

Lemma flag_ok (name : string) :
  ends_nonspace name = true ->
  nonempty name && plain_word name && line_free name = true ->
  frag_ok (Flag name).
Proof.
  intros He Hn. apply andb_prop in Hn. destruct Hn as [Hn Hl].
  split; [|split; [exact Hn|]].
  - unfold frag_tidy, text_of. now apply ends_nonspace_app.
  - unfold text_of. rewrite line_free_app, Hl. reflexivity.
Qed.

Lemma quoted_ok (name v : string) :
  nonempty name && plain_word name && line_free name = true ->
  quotable v = true ->
  frag_ok (Quoted name v).
Proof.
  intros Hn Hv. apply andb_prop in Hn. destruct Hn as [Hn Hl].
  split; [|split].
  - unfold frag_tidy, text_of. rewrite <- !append_assoc.
    apply ends_nonspace_app, ends_nonspace_quoted.
  - unfold frag_lexable. now rewrite Hn, Hv.
  - unfold text_of, PyStr.quoted.
    change (String PyStr.DQUOTE (v ++ String PyStr.DQUOTE EmptyString))
      with (String PyStr.DQUOTE EmptyString
            ++ v ++ String PyStr.DQUOTE EmptyString).
    rewrite !line_free_app, Hl, (quotable_line_free v Hv). reflexivity.
Qed.

Lemma word_plain (v : string) : word v = true -> plain_word v = true.
Proof.
  unfold word, plain_word. induction v as [|c v IH]; simpl; [reflexivity|].
  intros H. apply andb_prop in H. destruct H as [Hc Hv].
  apply andb_prop in Hc. destruct Hc as [Hc _].
  now rewrite Hc, IH.
Qed.

Lemma word_ends_nonspace (v pre : string) :
  word v = true -> ends_nonspace pre = true -> ends_nonspace (pre ++ v) = true.
Proof.
  unfold word. revert pre. induction v as [|c v IH]; intros pre H Hp.
  - now rewrite append_nil_r.
  - simpl in H. apply andb_prop in H. destruct H as [Hc Hv].
    apply andb_prop in Hc. destruct Hc as [_ Hc].
    change (String c v) with (String c EmptyString ++ v).
    rewrite <- append_assoc. apply IH; [exact Hv|].
    apply ends_nonspace_app. exact Hc.
Qed.

Lemma bare_ok (name v : string) :
  nonempty name && plain_word name && line_free name = true ->
  word v = true ->
  frag_ok (Bare name v).
Proof.
  intros Hn Hv. apply andb_prop in Hn. destruct Hn as [Hn Hl].
  split; [|split].
  - unfold frag_tidy, text_of. rewrite <- !append_assoc.
    apply word_ends_nonspace; [exact Hv|].
    apply ends_nonspace_app. reflexivity.
  - unfold frag_lexable. now rewrite Hn, (word_plain _ Hv).
  - unfold text_of. rewrite !line_free_app, Hl, (word_line_free v Hv).
    reflexivity.
Qed.

Lemma dependent_ok (name : string) (enc : bool) (v : option string) :
  nonempty name && plain_word name && line_free name = true ->
  depends_on enc v ->
  enc && PyStr.truthy v = true -> frag_ok (Quoted name (PyStr.fmt v)).
Proof.
  intros Hn Hd Hb. destruct v as [x|].
  - destruct Hd as (_ & Hq). now apply quoted_ok.
  - destruct Hd.
Qed.

Lemma type_ok (cls : version) (s : AutoPart) :
  frag_ok (Bare "--type" (PyStr.fmt (_typeAsStr cls s))).
Proof.
  apply bare_ok; [reflexivity|]. unfold _typeAsStr.
  destruct (type s) as [[]|]; destruct cls; reflexivity.
Qed.

Lemma fstype_ok (f : option string) :
  match f with None => False | Some x => word x = true end ->
  PyStr.truthy f = true -> frag_ok (Bare "--fstype" (PyStr.fmt f)).
Proof.
  destruct f as [x|]; [|discriminate]. intros Hw _.
  now apply bare_ok.
Qed.

Lemma fragments_ok (cls : version) (s : AutoPart) :
  canonical cls s -> Forall frag_ok (fragments cls s).
Proof.
  intros (Hp & He & Hc & Hf).
  destruct cls;
    try specialize (Hp eq_refl);
    try (specialize (He eq_refl); destruct He as [He1 He2]);
    try specialize (Hc eq_refl); try specialize (Hf eq_refl);
    unfold fragments, F26_frags, RHEL7_frags, F21_frags, F18_frags, F17_frags,
      F16_frags, RHEL6_frags, F12_frags, F9_frags, cipher_frags;
    repeat (apply Forall_app; split);
    try (apply Forall_nil);
    apply Forall_opt; intros Hb;
    first [ apply flag_ok; reflexivity
          | apply type_ok
          | apply fstype_ok; assumption
          | eapply dependent_ok; [reflexivity | eassumption | exact Hb] ].
Qed.

(** The flat line of fragments without line ends is one line. *)
Lemma is_line_app_nl (body : string) :
  line_free body = true -> is_line (body ++ PyStr.nl) = true.
Proof.
  unfold line_free. induction body as [|c body IH]; [reflexivity|].
  cbn [all_chars append]. intros H. apply andb_prop in H. destruct H as [Hc Hb].
  specialize (IH Hb).
  change (is_line (String c (body ++ PyStr.nl))
          = true).
  destruct (body ++ PyStr.nl) eqn:E.
  - destruct body; discriminate E.
  - cbn [is_line]. cbn [is_line] in IH. rewrite Hc. exact IH.
Qed.

Lemma line_free_join (frs : list fragment) :
  Forall (fun f => line_free (text_of f) = true) frs ->
  line_free (join (map text_of frs)) = true.
Proof.
  induction 1 as [|f frs Hf _ IH]; [reflexivity|].
  cbn [map join]. now rewrite line_free_app, Hf, IH.
Qed.

Lemma is_line_flat (frs : list fragment) :
  Forall (fun f => line_free (text_of f) = true) frs ->
  is_line (flat frs) = true.
Proof.
  intros H. unfold flat. rewrite <- append_assoc. apply is_line_app_nl.
  now rewrite line_free_app, (line_free_join frs H).
Qed.

(** ** Round trip *)

Lemma type_applied cls ns self :
  type (applied cls ns self) = type (set_to_self ns self).
Proof. unfold applied. destruct (inherits cls F17); reflexivity. Qed.

(** Two objects with the same attributes are the same object. *)
Ltac in_list := simpl; repeat (first [left; reflexivity | right]).

Lemma getattr_ext (a b : AutoPart) :
  seen a = seen b -> autopart a = autopart b ->
  (forall key, In key attribute_names -> getattr key a = getattr key b) ->
  a = b.
Proof.
  intros Hs Ha K.
  destruct a, b. simpl in Hs, Ha. subst.
  assert (H1 := K "encrypted" ltac:(in_list)).
  assert (H2 := K "passphrase" ltac:(in_list)).
  assert (H3 := K "escrowcert" ltac:(in_list)).
  assert (H4 := K "backuppassphrase" ltac:(in_list)).
  assert (H5 := K "cipher" ltac:(in_list)).
  assert (H6 := K "lvm" ltac:(in_list)).
  assert (H7 := K "type" ltac:(in_list)).
  assert (H8 := K "fstype" ltac:(in_list)).
  assert (H9 := K "nohome" ltac:(in_list)).
  assert (H10 := K "noboot" ltac:(in_list)).
  assert (H11 := K "noswap" ltac:(in_list)).
  clear K.
  vm_compute in H1, H2, H3, H4, H5, H6, H7, H8, H9, H10, H11.
  assert (E : forall (x y : option string),
             match x with Some v => VStr v | None => VNone end
             = match y with Some v => VStr v | None => VNone end -> x = y)
    by (intros [x|] [y|] Q; congruence).
  assert (T : forall (x y : option autopart_type),
             match x with Some v => VType v | None => VNone end
             = match y with Some v => VType v | None => VNone end -> x = y)
    by (intros [x|] [y|] Q; congruence).
  apply E in H2, H3, H5, H8. apply T in H7.
  congruence.
Qed.

(** What [parse] leaves of each attribute, for an object it started from:
    the value of the namespace under the keys of the parser, unless that
    is [None]; [lvm] set from F17 on; the value of the object otherwise. *)
Lemma applied_getattr_all cls key s0 self :
  In key attribute_names ->
  getattr key (applied cls (ns_of cls s0) self)
  = if existsb (String.eqb key) (map fst (ns_defaults (_getParser cls)))
    then (if is_None (getattr key s0) then getattr key self else getattr key s0)
    else if inherits cls F17 && String.eqb key "lvm" then VBool true
         else getattr key self.
Proof.
  intros Hin. unfold applied. rewrite set_to_self_ns_of.
  destruct s0 as [? ? ? p e ? c ? t f ? ? ?], self.
  vm_compute in Hin.
  repeat match goal with
    | H : _ \/ _ |- _ => destruct H as [H|H]
    | H : False |- _ => destruct H
    end; subst key;
    destruct cls; destruct p, e, c, t, f; vm_compute; reflexivity.
Qed.

Lemma getattr_set_autopart key b self :
  getattr key (set_autopart b self) = getattr key self.
Proof. destruct self. reflexivity. Qed.

(** What no line changes in the object a handler starts with: its [seen]
    mark (which belongs to the dispatcher), the attributes that the parser
    of the class does not assign, and between F17 and F20 the [type] is
    never the thin-provisioning scheme. *)
Lemma reachable_frame cls s :
  reachable cls s ->
  seen s = seen init
  /\ (forall key,
         In key attribute_names ->
         existsb (String.eqb key) (map fst (ns_defaults (_getParser cls))) = false ->
         getattr key s = getattr key init)
  /\ (inherits cls F17 = true -> inherits cls F20 = false ->
      type s <> Some AUTOPART_TYPE_LVM_THINP).
Proof.
  induction 1 as [|handler args s Hr (IHs & IHk & IHt)].
  - repeat split. discriminate.
  - destruct (version_eqb cls FC3) eqn:E.
    + destruct cls; try discriminate E.
      unfold parse, FC3_parse, raise, modify.
      destruct (Nat.ltb 0 (List.length args)); cbn [snd];
        [repeat split; assumption|].
      split; [destruct s; exact IHs|]. split; [|discriminate].
      intros key Hin Hk. rewrite getattr_set_autopart. now apply IHk.
    + assert (Hn : cls <> FC3) by (intros ->; discriminate E).
      destruct (parse_args (_getParser cls) args) as [e|ns] eqn:P.
      * rewrite (parse_option_error _ _ _ _ _ Hn P). cbn [snd].
        repeat split; assumption.
      * rewrite (parse_state cls handler args s ns Hn P).
        split; [now rewrite seen_applied|]. split.
        -- intros key Hin Hk.
           destruct (parse_args_ns_of _ _ _ P) as [s1 ->].
           rewrite (applied_getattr_all cls key s1 s Hin), Hk.
           destruct (inherits cls F17 && String.eqb key "lvm") eqn:L;
             [|now apply IHk].
           apply andb_prop in L. destruct L as [_ L].
           apply String.eqb_eq in L. subst key. reflexivity.
        -- intros H17 H20. rewrite type_applied.
           apply (type_before_F20 cls args); auto.
Qed.

(** A reachable object that is present and canonical is the one that the
    attributes its text shows give to the object of [__init__]. *)
Lemma applied_written cls s :
  reachable cls s -> autopart s = true ->
  canonical cls s ->
  applied cls (ns_of cls (written cls s)) init = s.
Proof.
  intros Hr Ha (Hp & He & Hc & Hf).
  destruct (reachable_frame cls s Hr) as (Hseen & Hframe & Hty).
  apply getattr_ext.
  - now rewrite seen_applied.
  - now rewrite autopart_applied.
  - intros key Hin.
    rewrite (applied_getattr_all cls key (written cls s) init Hin).
    specialize (Hframe key Hin).
    clear Hr Hseen Ha.
    vm_compute in Hin.
    repeat match goal with
      | H : _ \/ _ |- _ => destruct H as [H|H]
      | H : False |- _ => destruct H
      end; subst key;
      destruct cls;
      try specialize (Hp eq_refl);
      try (specialize (He eq_refl); destruct He as [He1 He2]);
      try specialize (Hc eq_refl); try specialize (Hf eq_refl);
      try specialize (Hty eq_refl eq_refl);
      match goal with
      | |- context [existsb ?f ?l] =>
          let b := eval vm_compute in (existsb f l) in
          change (existsb f l) with b in Hframe |- *
      end;
      cbv iota in Hframe |- *;
      try (rewrite (Hframe eq_refl); vm_compute; reflexivity);
      clear Hframe;
      destruct s as [sn ap en p e bp c lv ty f nh nb nw];
      unfold depends_on in *;
      cbn [encrypted passphrase escrowcert backuppassphrase cipher type
           fstype] in *;
      match goal with
      | |- context [getattr "passphrase" _] => destruct p as [[|? ?]|], en
      | |- context [getattr "escrowcert" _] => destruct e as [[|? ?]|], en
      | |- context [getattr "backuppassphrase" _] =>
          destruct e as [[|? ?]|], en, bp
      | |- context [getattr "cipher" _] => destruct c as [[|? ?]|], en
      | |- context [getattr "fstype" _] => destruct f as [[|? ?]|]
      | |- context [getattr "type" _] => destruct ty as [[]|]
      | _ => idtac
      end;
      first [ reflexivity
            | exfalso; simpl in *;
              intuition (try discriminate; try congruence) ].
Qed.

Lemma reparse_flat cls handler frs self :
  Forall frag_ok frs ->
  reparse cls handler (flat frs) self
  = Some (parse cls handler (map arg_of frs) self).
Proof.
  intros Hok.
  assert (Hlex : Forall frag_lexable frs)
    by (eapply Forall_impl; [|exact Hok]; intros f (_ & H & _); exact H).
  assert (Hline : Forall (fun f => line_free (text_of f) = true) frs)
    by (eapply Forall_impl; [|exact Hok]; intros f (_ & _ & H); exact H).
  unfold reparse.
  rewrite (is_line_flat frs Hline), (split_flat _ Hlex).
  reflexivity.
Qed.

(** C1, as the code has it.  An object reachable by parsing (the object
    of [__init__] after any number of lines, the last of which [parse]
    accepted) that is canonical (what is only written together with
    [encrypted] is empty or set together with it, and the strings can be
    written and read as one token) is written by [__str__] as a line that
    the reader and [parse] turn, in a document of its own, into the same
    object again. *)
Theorem parse_str_roundtrip cls handler args s0 s :
  reachable cls s0 ->
  parse cls handler args s0 = (inr tt, s) ->
  canonical cls s ->
  reparse cls handler (__str__ cls s) init = Some (inr tt, s).
Proof.
  intros Hr0 Hparse Hcan.
  assert (Hr : reachable cls s).
  { replace s with (snd (parse cls handler args s0)) by (now rewrite Hparse).
    now constructor. }
  destruct (version_eqb cls FC3) eqn:E.
  - destruct cls; try discriminate E.
    destruct (reachable_frame FC3 s Hr) as (Hseen & Hframe & _).
    unfold parse, FC3_parse, raise, modify in Hparse.
    destruct (Nat.ltb 0 (List.length args)); [discriminate|].
    injection Hparse as Hs.
    assert (Heq : set_autopart true init = s).
    { apply getattr_ext.
      - rewrite Hseen. reflexivity.
      - rewrite <- Hs. reflexivity.
      - intros key Hin. rewrite getattr_set_autopart.
        symmetry. now apply Hframe. }
    rewrite <- Heq. reflexivity.
  - assert (Hn : cls <> FC3) by (intros ->; discriminate E).
    destruct (parse_success _ _ _ _ _ Hn Hparse) as (ns & Hns & Hs).
    assert (Ha : autopart s = true) by (subst s; apply autopart_applied).
    assert (Hl : inherits cls F17 = true -> lvm s = true)
      by (intros H; subst s; now apply lvm_applied).
    destruct (reachable_frame cls s Hr) as (_ & _ & Hty).
    pose proof (fragments_ok cls s Hcan) as Hok.
    assert (Htidy : Forall frag_tidy (fragments cls s))
      by (eapply Forall_impl; [|exact Hok]; intros f [H _]; exact H).
    rewrite (str_flat cls s Ha Htidy), (reparse_flat _ _ _ _ Hok).
    rewrite (parse_as_checks cls handler _ init (ns_of cls (written cls s)) Hn
               (parse_fragments cls s Hn Hl Hty)).
    rewrite (applied_written cls s Hr Ha Hcan).
    rewrite (parse_as_checks cls handler args s0 ns Hn Hns), <- Hs in Hparse.
    rewrite Hparse. reflexivity.
Qed.

Lemma parse_str_roundtrip_witness :
  reparse F26 fresh_handler
    (__str__ F26
       (mkAutoPart false true true (Some "a b # c") (Some "") false (Some "")
          true (Some AUTOPART_TYPE_LVM_THINP) (Some "ext4") false false true))
    init
  = Some (inr tt,
          mkAutoPart false true true (Some "a b # c") (Some "") false (Some "")
            true (Some AUTOPART_TYPE_LVM_THINP) (Some "ext4") false false true).
Proof.
  apply (parse_str_roundtrip F26 fresh_handler
           ["--encrypted"; "--passphrase"; "a b # c"; "--noswap"]
           (snd (parse F26 (mkHandler true false false false None)
                   ["--type=ThinP"; "--fstype=ext4"; "--nohome"] init))).
  - apply reach_parse, reach_init.
  - vm_compute. reflexivity.
  - unfold canonical, depends_on. cbn [encrypted passphrase escrowcert cipher
      fstype backuppassphrase].
    repeat split; try discriminate; try (vm_compute; reflexivity); auto.
Defined.

(** * Further properties of the code *)

(** ** The order of the checks *)

Lemma post_checks_partitioning_error cls handler s e :
  checks_partitioning cls = true ->
  check_partitioning_commands handler s = (inl e, s) ->
  post_checks cls handler s = (inl e, s).
Proof.
  intros Hc He.
  destruct cls; try discriminate Hc; unfold post_checks;
    repeat (erewrite bind_error by (first [eassumption | apply bind_error; eassumption]));
    try assumption; reflexivity.
Qed.

Lemma check_partitioning_commands_first handler s :
  check_partitioning_commands handler s
  = (if partition_seen handler then inl (CantBeUsedAtTheSameTime "part/partition")
     else if raid_seen handler then inl (CantBeUsedAtTheSameTime "raid")
     else if volgroup_seen handler then inl (CantBeUsedAtTheSameTime "volgroup")
     else if logvol_seen handler then inl (CantBeUsedAtTheSameTime "logvol")
     else inr tt, s).
Proof.
  unfold check_partitioning_commands.
  destruct (partition_seen handler), (raid_seen handler),
    (volgroup_seen handler), (logvol_seen handler); reflexivity.
Qed.

(** X1.  In the classes that look for the other partitioning commands, a
    line the option parser accepts is refused with the message that names
    the first command seen, in the order part/partition, raid, volgroup,
    logvol, whatever else has been seen. *)
Theorem conflict_names_first_seen cls handler args self ns :
  checks_partitioning cls = true ->
  parse_args (_getParser cls) args = inr ns ->
  (partition_seen handler = true ->
   fst (parse cls handler args self) = inl (CantBeUsedAtTheSameTime "part/partition"))
  /\ (partition_seen handler = false -> raid_seen handler = true ->
      fst (parse cls handler args self) = inl (CantBeUsedAtTheSameTime "raid"))
  /\ (partition_seen handler = false -> raid_seen handler = false ->
      volgroup_seen handler = true ->
      fst (parse cls handler args self) = inl (CantBeUsedAtTheSameTime "volgroup"))
  /\ (partition_seen handler = false -> raid_seen handler = false ->
      volgroup_seen handler = false -> logvol_seen handler = true ->
      fst (parse cls handler args self) = inl (CantBeUsedAtTheSameTime "logvol")).
Proof.
  intros Hc Hns.
  assert (Hn : cls <> FC3) by (intros ->; discriminate).
  rewrite (parse_as_checks cls handler args self ns Hn Hns).
  pose proof (check_partitioning_commands_first handler (applied cls ns self)) as H.
  repeat split; intros;
    repeat match goal with
      | E : _ handler = _ |- _ => rewrite E in H; clear E
      end;
    rewrite (post_checks_partitioning_error _ _ _ _ Hc H); reflexivity.
Qed.

Lemma conflict_names_first_seen_witness :
  fst (parse RHEL6 (mkHandler false false true true None) ["--cipher=aes"] init)
  = inl (CantBeUsedAtTheSameTime "volgroup").
Proof.
  refine (proj1 (proj2 (proj2
            (conflict_names_first_seen RHEL6 (mkHandler false false true true None)
               ["--cipher=aes"] init _ eq_refl _))) eq_refl eq_refl eq_refl).
  vm_compute. reflexivity.
Defined.

Ltac eval_class_tests :=
  repeat match goal with
    | |- context [checks_partitioning ?c] =>
        let b := eval vm_compute in (checks_partitioning c) in
        change (checks_partitioning c) with b
    | |- context [checks_reqpart ?c] =>
        let b := eval vm_compute in (checks_reqpart c) in
        change (checks_reqpart c) with b
    | |- context [inherits ?c ?d] =>
        let b := eval vm_compute in (inherits c d) in
        change (inherits c d) with b
    end.

Lemma post_checks_verdict cls handler s :
  post_checks cls handler s = (verdict cls handler s, s).
Proof.
  destruct cls; unfold verdict, late_verdict, post_checks, bind, ret; eval_class_tests;
    cbn [andb]; try reflexivity;
    rewrite check_partitioning_commands_first;
    destruct (partition_seen handler), (raid_seen handler),
      (volgroup_seen handler), (logvol_seen handler); try reflexivity;
    unfold check_fstype, check_reqpart, bind, get, raise, ret;
    match goal with
    | |- context [_typeAsStr ?c s] =>
        fold (is_btrfs (fstype s)); fold (is_btrfs (_typeAsStr c s))
    end;
    destruct (is_btrfs (fstype s)); try reflexivity;
    match goal with
    | |- context [is_btrfs ?t && PyStr.truthy (fstype s)] =>
        destruct (is_btrfs t && PyStr.truthy (fstype s))
    end; try reflexivity;
    destruct (reqpart_seen handler) as [[]|]; reflexivity.
Qed.

Lemma parse_verdict cls handler args self ns :
  cls <> FC3 ->
  parse_args (_getParser cls) args = inr ns ->
  parse cls handler args self
  = (verdict cls handler (applied cls ns self), applied cls ns self).
Proof.
  intros Hn Hns.
  now rewrite (parse_as_checks cls handler args self ns Hn Hns), post_checks_verdict.
Qed.

Lemma is_btrfs_false (v : option string) :
  v <> Some "btrfs" -> is_btrfs v = false.
Proof.
  destruct v as [x|]; [|reflexivity]. simpl. intros H.
  destruct (String.eqb x "btrfs") eqn:E; [|reflexivity].
  apply String.eqb_eq in E. subst. congruence.
Qed.

Lemma is_btrfs_true (v : option string) :
  is_btrfs v = true -> v = Some "btrfs".
Proof.
  destruct v as [x|]; [|discriminate]. simpl. intros E.
  apply String.eqb_eq in E. now subst.
Qed.

Lemma passes_fstype_checks_bool cls s :
  passes_fstype_checks cls s ->
  is_btrfs (fstype s) = false
  /\ is_btrfs (_typeAsStr cls s) && PyStr.truthy (fstype s) = false.
Proof.
  intros [H1 H2]. split; [now apply is_btrfs_false|].
  destruct (is_btrfs (_typeAsStr cls s)) eqn:E; [|reflexivity].
  simpl. apply H2. now apply is_btrfs_true.
Qed.

(** X2.  In the classes that look for [reqpart] (F23, RHEL7, F26) that
    check comes last: a line that passed the option parser and the checks
    made before is refused when the handler has a [reqpart] command that
    has been seen, and accepted when the handler has none or it has not
    been seen.  The other classes never look at [reqpart]. *)
Theorem reqpart_checked_last :
  (forall cls handler args self ns,
      checks_reqpart cls = true ->
      parse_args (_getParser cls) args = inr ns ->
      no_partitioning_seen handler ->
      passes_fstype_checks cls (applied cls ns self) ->
      fst (parse cls handler args self)
      = match reqpart_seen handler with
        | Some true => inl (CantBeUsedAtTheSameTime "reqpart")
        | _ => inr tt
        end)
  /\ (forall cls handler args self,
         checks_reqpart cls = false ->
         parse cls handler args self
         = parse cls (without_reqpart handler) args self).
Proof.
  split.
  - intros cls handler args self ns Hc Hns (H1 & H2 & H3 & H4) Hf.
    assert (Hn : cls <> FC3) by (intros ->; discriminate).
    rewrite (parse_verdict cls handler args self ns Hn Hns). cbn [fst].
    destruct (passes_fstype_checks_bool _ _ Hf) as [Hb Ht].
    unfold verdict, late_verdict. rewrite H1, H2, H3, H4, Hb, Hc.
    rewrite !andb_false_r. rewrite <- andb_assoc, Ht, andb_false_r.
    destruct (reqpart_seen handler) as [[]|]; reflexivity.
  - intros cls handler args self Hc.
    destruct cls; try discriminate Hc; reflexivity.
Qed.

Lemma reqpart_checked_last_witness :
  fst (parse F26 (mkHandler false false false false (Some true))
         ["--type=btrfs"; "--nohome"] init)
  = inl (CantBeUsedAtTheSameTime "reqpart")
  /\ parse F21 (mkHandler false false false false (Some true)) ["--fstype=xfs"] init
     = parse F21 (without_reqpart (mkHandler false false false false (Some true)))
         ["--fstype=xfs"] init.
Proof.
  destruct reqpart_checked_last as [H1 H2]. split.
  - refine (H1 F26 (mkHandler false false false false (Some true))
              ["--type=btrfs"; "--nohome"] init _ eq_refl _ _ _).
    + vm_compute. reflexivity.
    + repeat split.
    + split; [vm_compute; discriminate | intros _; reflexivity].
  - apply H2. reflexivity.
Defined.

(** X3.  From F21 on, in a document where none of the other partitioning
    commands has been seen, a line the option parser accepts that leaves
    [type] at the btrfs scheme and sets an [fstype] other than [btrfs] is
    refused with the message that --fstype cannot be used with
    --type=btrfs; so are the lines made of a [--type] that [_type_cb] reads
    as btrfs and an [--fstype] with any such value, in either order. *)
Theorem fstype_with_type_btrfs_rejected :
  (forall cls handler args self ns,
      inherits cls F21 = true -> no_partitioning_seen handler ->
      parse_args (_getParser cls) args = inr ns ->
      type (set_to_self ns self) = Some AUTOPART_TYPE_BTRFS ->
      PyStr.truthy (fstype (set_to_self ns self)) = true ->
      fstype (set_to_self ns self) <> Some "btrfs" ->
      fst (parse cls handler args self) = inl FstypeWithTypeBtrfs)
  /\ (forall cls handler self v f,
         inherits cls F21 = true -> no_partitioning_seen handler ->
         PyStr.lower v = "btrfs" -> nonempty f = true -> f <> "btrfs" ->
         fst (parse cls handler ["--type=" ++ v; "--fstype=" ++ f] self)
         = inl FstypeWithTypeBtrfs
         /\ fst (parse cls handler ["--fstype=" ++ f; "--type=" ++ v] self)
            = inl FstypeWithTypeBtrfs)
  /\ error_kind FstypeWithTypeBtrfs = InvalidOptionCombination.
Proof.
  assert (G : forall cls handler args self ns,
             inherits cls F21 = true -> no_partitioning_seen handler ->
             parse_args (_getParser cls) args = inr ns ->
             type (set_to_self ns self) = Some AUTOPART_TYPE_BTRFS ->
             PyStr.truthy (fstype (set_to_self ns self)) = true ->
             fstype (set_to_self ns self) <> Some "btrfs" ->
             fst (parse cls handler args self) = inl FstypeWithTypeBtrfs).
  { intros cls handler args self ns Hc (H1 & H2 & H3 & H4) Hns Ht Hf Hnb.
    assert (Hn : cls <> FC3) by (intros ->; discriminate).
    rewrite (parse_verdict cls handler args self ns Hn Hns). cbn [fst].
    assert (Hs : fstype (applied cls ns self) = fstype (set_to_self ns self))
      by (unfold applied; destruct (inherits cls F17); reflexivity).
    assert (Hty : _typeAsStr cls (applied cls ns self) = Some "btrfs").
    { unfold _typeAsStr. rewrite type_applied, Ht.
      destruct cls; try discriminate Hc; reflexivity. }
    unfold verdict, late_verdict. rewrite H1, H2, H3, H4, Hs, Hty, Hf, Hc.
    rewrite (is_btrfs_false _ Hnb), !andb_false_r. reflexivity. }
  split; [exact G|]. split; [|reflexivity].
  intros cls handler self v f Hc Hh Hv Hf Hnb.
  assert (T : _type_cb cls v = inr (VType AUTOPART_TYPE_BTRFS))
    by (unfold _type_cb; rewrite Hv; destruct cls; try discriminate Hc; reflexivity).
  assert (Ht : PyStr.truthy (Some f) = true) by (destruct f; [discriminate|reflexivity]).
  assert (Hne : Some f <> Some "btrfs") by congruence.
  destruct self.
  destruct cls; try discriminate Hc;
    (split;
     (eapply G; try eassumption;
      [ unfold parse_args; cbn; rewrite T; cbn; reflexivity
      | reflexivity | exact Ht | exact Hne ])).
Qed.

Lemma fstype_with_type_btrfs_rejected_witness :
  fst (parse F21 fresh_handler ["--type=" ++ "BTRFS"; "--fstype=" ++ "ext4"] init)
  = inl FstypeWithTypeBtrfs
  /\ fst (parse F21 fresh_handler ["--fstype=" ++ "ext4"; "--type=" ++ "BTRFS"] init)
     = inl FstypeWithTypeBtrfs.
Proof.
  apply (proj1 (proj2 fstype_with_type_btrfs_rejected) F21 fresh_handler init
           "BTRFS" "ext4"); try reflexivity.
  - repeat split.
  - discriminate.
Defined.

(** ** When a line is accepted, and what a refused line leaves *)

Lemma late_verdict_ok cls handler s :
  late_verdict cls handler s = inr tt <->
  (inherits cls F21 = true -> passes_fstype_checks cls s)
  /\ (checks_reqpart cls = true -> reqpart_seen handler <> Some true).
Proof.
  unfold late_verdict, passes_fstype_checks.
  destruct (inherits cls F21); cbn [andb].
  - destruct (is_btrfs (fstype s)) eqn:Eb.
    { split; [discriminate|]. intros [H _]. destruct (H eq_refl) as [Ha _].
      exfalso. apply Ha. now apply is_btrfs_true. }
    destruct (is_btrfs (_typeAsStr cls s)) eqn:Et;
      destruct (PyStr.truthy (fstype s)) eqn:Ef; cbn [andb];
      try (split; [discriminate|]; intros [H _]; destruct (H eq_refl) as [_ Hb];
           specialize (Hb (is_btrfs_true _ Et)); discriminate);
      destruct (checks_reqpart cls); cbn [andb];
      destruct (reqpart_seen handler) as [[]|];
      (split;
       [ first
           [ discriminate
           | intros _; split;
             [ intros _; split;
               [ intros E; rewrite E in Eb; discriminate Eb
               | intros E; first [ reflexivity | rewrite E in Et; discriminate Et ] ]
             | intros; first [ discriminate | congruence ] ] ]
       | intros [_ H]; first [ reflexivity | exfalso; now apply (H eq_refl) ] ]).
  - destruct (checks_reqpart cls); cbn [andb];
      destruct (reqpart_seen handler) as [[]|];
      (split;
       [ first [ discriminate
                | intros _; split; intros; first [ discriminate | congruence ] ]
       | intros [_ H]; first [ reflexivity | exfalso; now apply (H eq_refl) ] ]).
Qed.

Lemma verdict_ok cls handler s :
  verdict cls handler s = inr tt <->
  (checks_partitioning cls = true -> no_partitioning_seen handler)
  /\ (inherits cls F21 = true -> passes_fstype_checks cls s)
  /\ (checks_reqpart cls = true -> reqpart_seen handler <> Some true).
Proof.
  unfold verdict, no_partitioning_seen.
  destruct (checks_partitioning cls); cbn [andb].
  - destruct (partition_seen handler);
      [split; [discriminate|]; intros [H _]; destruct (H eq_refl) as (? & _);
       discriminate|].
    destruct (raid_seen handler);
      [split; [discriminate|]; intros [H _]; destruct (H eq_refl) as (_ & ? & _);
       discriminate|].
    destruct (volgroup_seen handler);
      [split; [discriminate|]; intros [H _];
       destruct (H eq_refl) as (_ & _ & ? & _); discriminate|].
    destruct (logvol_seen handler);
      [split; [discriminate|]; intros [H _];
       destruct (H eq_refl) as (_ & _ & _ & ?); discriminate|].
    rewrite late_verdict_ok. tauto.
  - rewrite late_verdict_ok. split; [|tauto].
    intros H. split; [discriminate | exact H].
Qed.

Lemma late_verdict_error_kind cls handler s e :
  late_verdict cls handler s = inl e ->
  error_kind e = ConflictingDirectives \/ error_kind e = InvalidOptionCombination.
Proof.
  unfold late_verdict.
  repeat match goal with
    | |- context [if ?c then _ else _] => destruct c
    end; intros H; inversion H; subst; cbn; auto.
Qed.

(** X4.  [parse] returns exactly when the line passes its first stage (no
    argument under FC3, a line the option parser accepts otherwise) and
    none of the checks of the class fires: no other partitioning command
    seen where the class looks for them, no [fstype] equal to btrfs and no
    [fstype] together with the btrfs scheme from F21 on, no [reqpart] seen
    where the class looks for it. *)
Theorem parse_returns_iff cls handler args self :
  fst (parse cls handler args self) = inr tt <->
  line_well_formed cls args
  /\ (checks_partitioning cls = true -> no_partitioning_seen handler)
  /\ (inherits cls F21 = true ->
      forall ns, parse_args (_getParser cls) args = inr ns ->
                 passes_fstype_checks cls (applied cls ns self))
  /\ (checks_reqpart cls = true -> reqpart_seen handler <> Some true).
Proof.
  destruct (version_eqb cls FC3) eqn:E.
  - destruct cls; try discriminate E.
    unfold parse, FC3_parse, raise, modify, line_well_formed.
    destruct args as [|a args]; cbn; split.
    + intros _. repeat split; intros; discriminate.
    + reflexivity.
    + discriminate.
    + intros (H & _). discriminate.
  - assert (Hn : cls <> FC3) by (intros ->; discriminate E).
    assert (Hw : line_well_formed cls args
                 <-> exists ns, parse_args (_getParser cls) args = inr ns)
      by (destruct cls; try congruence; reflexivity).
    destruct (parse_args (_getParser cls) args) as [e|ns] eqn:P.
    + rewrite (parse_option_error _ _ _ _ _ Hn P). cbn [fst]. split.
      * discriminate.
      * intros (H & _). apply Hw in H. destruct H as [ns H]. discriminate.
    + rewrite (parse_verdict cls handler args self ns Hn P). cbn [fst].
      rewrite verdict_ok. split.
      * intros (H1 & H2 & H3). split; [apply Hw; now exists ns|].
        split; [exact H1|]. split; [|exact H3].
        intros H21 ns' Hns'. inversion Hns'; subst. now apply H2.
      * intros (_ & H1 & H2 & H3). split; [exact H1|]. split; [|exact H3].
        intros H21. now apply H2.
Qed.

Lemma parse_returns_iff_witness :
  fst (parse F26 (mkHandler false false false false (Some false))
         ["--type=btrfs"; "--noboot"] init) = inr tt.
Proof.
  apply (proj2 (parse_returns_iff F26 (mkHandler false false false false (Some false))
                  ["--type=btrfs"; "--noboot"] init)).
  split; [eexists; vm_compute; reflexivity|].
  split; [intros _; repeat split|].
  split; [|intros _; discriminate].
  intros _ ns Hns. vm_compute in Hns. inversion Hns; subst.
  split; [vm_compute; discriminate | intros _; reflexivity].
Defined.

Lemma verdict_error_kind cls handler s e :
  verdict cls handler s = inl e ->
  error_kind e = ConflictingDirectives \/ error_kind e = InvalidOptionCombination.
Proof.
  unfold verdict.
  repeat match goal with
    | |- context [if ?c then _ else _] => destruct c
    end; try apply late_verdict_error_kind;
    intros H; inversion H; subst; cbn; auto.
Qed.

(** X5.  A refused line leaves the object in one of two states.  When the
    first stage refuses it (an unexpected argument under FC3, an unknown
    option or an invalid value otherwise) the object is as it was.  When a
    later check refuses it (a conflicting command, an invalid combination
    of options) the object is present and holds what the line supplied:
    every attribute has the value the option parser gave for it, and an
    attribute for which it gave [None] has the value it had. *)
Theorem refused_line_state cls handler args self e self' :
  parse cls handler args self = (inl e, self') ->
  ((error_kind e = UnexpectedArgument \/ error_kind e = UnknownOption
    \/ error_kind e = InvalidOptionValue)
   /\ self' = self)
  \/ ((error_kind e = ConflictingDirectives
       \/ error_kind e = InvalidOptionCombination)
      /\ autopart self' = true
      /\ exists ns,
          parse_args (_getParser cls) args = inr ns
          /\ (forall key val,
                 ns_get key ns = Some val -> val <> VNone ->
                 getattr key self' = val)
          /\ (forall key,
                 ns_get key ns = Some VNone ->
                 getattr key self' = getattr key self)).
Proof.
  intros H.
  destruct (version_eqb cls FC3) eqn:E.
  - destruct cls; try discriminate E.
    unfold parse, FC3_parse, raise, modify in H.
    destruct (Nat.ltb 0 (List.length args)); inversion H; subst.
    left. cbn. auto.
  - assert (Hn : cls <> FC3) by (intros ->; discriminate E).
    destruct (parse_args (_getParser cls) args) as [e'|ns] eqn:P.
    + rewrite (parse_option_error _ _ _ _ _ Hn P) in H. inversion H; subst.
      left. split; [|reflexivity].
      destruct (parse_args_error_kind _ _ _ P); auto.
    + assert (Hself : self' = snd (parse cls handler args self))
        by (rewrite H; reflexivity).
      rewrite (parse_verdict cls handler args self ns Hn P) in H.
      inversion H as [[Hv Hs]]. right.
      split; [now apply (verdict_error_kind cls handler (applied cls ns self))|].
      split; [apply autopart_applied|].
      exists ns. split; [reflexivity|]. rewrite Hs, Hself. split.
      * intros key val Hget Hval.
        rewrite (parse_getattr _ _ _ _ _ _ _ P Hget).
        destruct val; first [congruence | reflexivity].
      * intros key Hget.
        now rewrite (parse_getattr _ _ _ _ _ _ _ P Hget).
Qed.

Lemma refused_line_state_witness :
  autopart (snd (parse F21 fresh_handler ["--encrypted"; "--fstype=btrfs"] init))
  = true
  /\ getattr "encrypted"
       (snd (parse F21 fresh_handler ["--encrypted"; "--fstype=btrfs"] init))
     = VBool true
  /\ getattr "fstype"
       (snd (parse F21 fresh_handler ["--encrypted"; "--fstype=btrfs"] init))
     = VStr "btrfs"
  /\ getattr "passphrase"
       (snd (parse F21 fresh_handler ["--encrypted"; "--fstype=btrfs"] init))
     = getattr "passphrase" init.
Proof.
  destruct (refused_line_state F21 fresh_handler
              ["--encrypted"; "--fstype=btrfs"] init FstypeBtrfsNotValid
              (snd (parse F21 fresh_handler ["--encrypted"; "--fstype=btrfs"] init)))
    as [[[H|[H|H]] _] | (_ & Ha & ns & Hns & Hv & Hk)];
    [ vm_compute; reflexivity | discriminate H | discriminate H
    | discriminate H | ].
  vm_compute in Hns. inversion Hns as [Hns']. clear Hns.
  split; [exact Ha|]. split; [|split].
  - apply Hv; [rewrite <- Hns'; reflexivity | discriminate].
  - apply Hv; [rewrite <- Hns'; reflexivity | discriminate].
  - apply Hk. rewrite <- Hns'. reflexivity.
Defined.

(** ** One line after another *)

(** An attribute for which the line gives nothing stays, and counts in the
    checks: the [fstype] the object holds meets the [--type=btrfs] of the
    line, and is written after the [--type=plain] of the line [--nolvm];
    a passphrase survives a later line. *)
Example kept_attributes_count :
  fst (parse F21 fresh_handler ["--type=btrfs"] (set_fstype (Some "ext4") init))
  = inl FstypeWithTypeBtrfs
  /\ fst (parse F21 fresh_handler ["--fstype=ext4"]
            (snd (parse F21 fresh_handler ["--type=btrfs"] init)))
     = inl FstypeWithTypeBtrfs
  /\ fst (parse F21 fresh_handler ["--fstype=ext4"] init) = inr tt
  /\ passphrase
       (snd (parse F26 fresh_handler ["--nohome"]
               (snd (parse F26 fresh_handler
                       ["--encrypted"; "--passphrase=secret"] init))))
     = Some "secret"
  /\ escrowcert
       (snd (parse F20 (mkHandler true false false false None)
               ["--encrypted"; "--passphrase=abc"] init))
     = Some EmptyString.
Proof. repeat split; vm_compute; reflexivity. Qed.

(** What [parse] leaves in the object: the object as it was when the
    options are refused, the options applied otherwise. *)
Lemma parse_leaves cls handler args self :
  cls <> FC3 ->
  snd (parse cls handler args self) = self
  \/ exists s0, snd (parse cls handler args self) = applied cls (ns_of cls s0) self.
Proof.
  intros Hc.
  destruct (parse_args (_getParser cls) args) as [e|ns] eqn:E.
  - left. now rewrite (parse_option_error _ _ _ _ _ Hc E).
  - right. destruct (parse_args_ns_of _ _ _ E) as [s0 ->].
    exists s0. now apply parse_state.
Qed.

Lemma ns_get_ns_of_in cls s0 key :
  In key (map fst (ns_defaults (_getParser cls))) ->
  ns_get key (ns_of cls s0) = Some (getattr key s0).
Proof.
  unfold ns_of. generalize (ns_defaults (_getParser cls)). intros l.
  induction l as [|[k v] l IH]; cbn [map ns_get fst snd In]; [intros []|].
  destruct (String.eqb k key) eqn:E.
  - apply String.eqb_eq in E. subst k. reflexivity.
  - intros [->|H]; [rewrite String.eqb_refl in E; discriminate | now apply IH].
Qed.

Lemma is_None_true val : is_None val = true -> val = VNone.
Proof. destruct val; [reflexivity | discriminate..]. Qed.

(** The options of a second namespace on top of those of a first are the
    options of the second alone, when the second gives a value wherever
    the first does. *)
Lemma applied_twice cls s1 s2 self :
  (forall key, ns_get key (ns_of cls s2) = Some VNone ->
               ns_get key (ns_of cls s1) = Some VNone) ->
  applied cls (ns_of cls s2) (applied cls (ns_of cls s1) self)
  = applied cls (ns_of cls s2) self.
Proof.
  intros H. apply getattr_ext.
  - now rewrite !seen_applied.
  - now rewrite !autopart_applied.
  - intros key Hin.
    rewrite !(applied_getattr_all cls key s2 _ Hin).
    rewrite (applied_getattr_all cls key s1 self Hin).
    destruct (existsb (String.eqb key) (map fst (ns_defaults (_getParser cls))))
      eqn:Eb.
    + destruct (is_None (getattr key s2)) eqn:E2; [|reflexivity].
      apply existsb_exists in Eb. destruct Eb as (k & Hk & Ek).
      apply String.eqb_eq in Ek. subst k.
      pose proof (ns_get_ns_of_in cls s2 key Hk) as G2.
      rewrite (is_None_true _ E2) in G2.
      pose proof (H key G2) as G1.
      destruct (ns_get_ns_of _ _ _ _ G1) as [<- _]. reflexivity.
    + destruct (inherits cls F17 && String.eqb key "lvm"); reflexivity.
Qed.

(** X6.  A line that passes the first stage of [parse] replaces what an
    earlier line left in the same object as far as it goes.  When it gives
    a value for every attribute for which the earlier line gave one,
    parsing it after the earlier line gives the outcome and the object
    that parsing it alone gives; so parsing a line twice is parsing it
    once.  An attribute for which it gives [None] (an option without
    default that is not on the line) keeps what the earlier line left. *)
Theorem later_line_replaces_earlier cls handler1 handler2 args1 args2 self :
  line_well_formed cls args2 ->
  ((forall ns1 ns2 key,
       parse_args (_getParser cls) args1 = inr ns1 ->
       parse_args (_getParser cls) args2 = inr ns2 ->
       ns_get key ns2 = Some VNone -> ns_get key ns1 = Some VNone) ->
   parse cls handler2 args2 (snd (parse cls handler1 args1 self))
   = parse cls handler2 args2 self)
  /\ (forall ns2 key,
         parse_args (_getParser cls) args2 = inr ns2 ->
         ns_get key ns2 = Some VNone ->
         getattr key
           (snd (parse cls handler2 args2 (snd (parse cls handler1 args1 self))))
         = getattr key (snd (parse cls handler1 args1 self))).
Proof.
  intros Hwf. split.
  - intros Hsup.
    destruct (version_eqb cls FC3) eqn:Ec.
    + destruct cls; try discriminate. simpl in Hwf. subst args2.
      unfold parse, FC3_parse.
      destruct (Nat.ltb 0 (length args1)); destruct self; reflexivity.
    + assert (Hc : cls <> FC3) by (intros ->; discriminate).
      assert (exists ns2, parse_args (_getParser cls) args2 = inr ns2) as [ns2 E2]
        by (destruct cls; try congruence; exact Hwf).
      rewrite !(parse_verdict _ _ _ _ _ Hc E2).
      destruct (parse_args (_getParser cls) args1) as [e|ns1] eqn:E1.
      * now rewrite (parse_option_error _ _ _ _ _ Hc E1).
      * rewrite (parse_state cls handler1 args1 self ns1 Hc E1).
        specialize (fun key => Hsup ns1 ns2 key eq_refl E2).
        destruct (parse_args_ns_of _ _ _ E2) as [s2 ->].
        destruct (parse_args_ns_of _ _ _ E1) as [s1 ->].
        now rewrite (applied_twice cls s1 s2 self Hsup).
  - intros ns2 key E2 Hget.
    now rewrite (parse_getattr _ _ _ _ _ _ _ E2 Hget).
Qed.

Lemma later_line_replaces_earlier_witness :
  parse F26 fresh_handler ["--noswap"]
    (snd (parse F26 fresh_handler ["--encrypted"; "--nohome"] init))
  = parse F26 fresh_handler ["--noswap"] init
  /\ getattr "passphrase"
       (snd (parse F26 fresh_handler ["--nohome"]
               (snd (parse F26 fresh_handler
                       ["--encrypted"; "--passphrase=secret"] init))))
     = getattr "passphrase"
         (snd (parse F26 fresh_handler
                 ["--encrypted"; "--passphrase=secret"] init)).
Proof.
  split.
  - apply (proj1 (later_line_replaces_earlier F26 fresh_handler fresh_handler
                    ["--encrypted"; "--nohome"] ["--noswap"] init
                    (ex_intro _ _ eq_refl))).
    intros ns1 ns2 key H1 H2.
    vm_compute in H1, H2. inversion H1. inversion H2. subst ns1 ns2.
    cbn [ns_get].
    repeat match goal with
      | |- context [String.eqb ?k key] => destruct (String.eqb k key)
      end; intros Q; first [exact Q | discriminate Q].
  - apply (proj2 (later_line_replaces_earlier F26 fresh_handler fresh_handler
                    ["--encrypted"; "--passphrase=secret"] ["--nohome"] init
                    (ex_intro _ _ eq_refl))
             (ns_of F26 (set_nohome true defaults_object)));
      reflexivity.
Defined.

Lemma getattr_copy_attr_other k key s0 x :
  k <> key -> getattr key (copy_attr k s0 x) = getattr key x.
Proof.
  intros Hk. unfold copy_attr, unless_None.
  destruct s0 as [sn ap en p e bp c lv t f nh nb nw].
  cbn [encrypted passphrase escrowcert backuppassphrase cipher lvm type
       fstype nohome noboot noswap].
  repeat match goal with
    | |- context [if String.eqb k ?l then _ else _] =>
        let E := fresh "E" in
        destruct (String.eqb k l) eqn:E;
        [ apply String.eqb_eq in E; subst k; destruct x;
          try match goal with
            | |- context [match ?v with Some _ => _ | None => _ end] =>
                is_var v; destruct v; [|reflexivity]
            end;
          unfold getattr;
          repeat match goal with
            | |- context [if String.eqb key ?l' then _ else _] =>
                let E' := fresh "E" in
                destruct (String.eqb key l') eqn:E';
                [ try reflexivity; apply String.eqb_eq in E'; congruence | ]
            end; reflexivity
        | ]
    end.
  reflexivity.
Qed.

Lemma getattr_overlay cls key s0 x :
  ~ In key (dests cls) -> getattr key (overlay cls s0 x) = getattr key x.
Proof.
  intros Hk. unfold overlay.
  assert (Hl : forall k, In k (map fst (ns_defaults (_getParser cls))) -> k <> key).
  { intros k Hin ->. apply Hk. unfold dests.
    destruct cls; vm_compute in Hin |- *; tauto. }
  revert x Hl. generalize (map fst (ns_defaults (_getParser cls))).
  induction l as [|k l IH]; intros x Hl; cbn [fold_left]; [reflexivity|].
  rewrite IH by (intros k' Hk'; apply Hl; now right).
  apply getattr_copy_attr_other, Hl. now left.
Qed.

(** X7.  [parse] only writes the attributes its option parser declares,
    beside [autopart] and, from F17 on, [lvm]: every other attribute of
    the object, and its [seen] mark, is after the call what it was before,
    whether the line is accepted or refused. *)
Theorem parse_keeps_other_attributes cls handler args self key :
  ~ In key (dests cls) ->
  (inherits cls F17 = true -> key <> "lvm") ->
  getattr key (snd (parse cls handler args self)) = getattr key self
  /\ seen (snd (parse cls handler args self)) = seen self.
Proof.
  intros Hk Hlvm.
  destruct (version_eqb cls FC3) eqn:Ec.
  - destruct cls; try discriminate.
    unfold parse, FC3_parse.
    destruct (Nat.ltb 0 (length args)); destruct self; split; reflexivity.
  - assert (Hc : cls <> FC3) by (intros ->; discriminate).
    destruct (parse_leaves cls handler args self Hc) as [->|[s0 ->]];
      [split; reflexivity|].
    split; [|apply seen_applied].
    unfold applied. rewrite set_to_self_ns_of.
    transitivity (getattr key (overlay cls s0 self));
      [|now apply getattr_overlay].
    destruct (inherits cls F17) eqn:E17.
    + specialize (Hlvm eq_refl).
      destruct (overlay cls s0 self). unfold getattr.
      destruct (String.eqb key "lvm") eqn:El;
        [apply String.eqb_eq in El; congruence|].
      reflexivity.
    + destruct (overlay cls s0 self). reflexivity.
Qed.

Lemma parse_keeps_other_attributes_witness :
  getattr "fstype"
    (snd (parse F18 fresh_handler ["--type=lvm"]
            (set_fstype (Some "xfs") init)))
  = getattr "fstype" (set_fstype (Some "xfs") init)
  /\ seen (snd (parse F18 fresh_handler ["--type=lvm"]
                  (set_fstype (Some "xfs") init)))
     = seen (set_fstype (Some "xfs") init).
Proof.
  apply (parse_keeps_other_attributes F18 fresh_handler ["--type=lvm"]
           (set_fstype (Some "xfs") init) "fstype").
  - vm_compute. intuition discriminate.
  - intros _. discriminate.
Defined.

(** ** The names of the partitioning schemes *)

Lemma type_cb_cases cls v t :
  inherits cls F17 = true ->
  _type_cb cls v = inr (VType t) ->
  (PyStr.lower v = "lvm" /\ t = AUTOPART_TYPE_LVM)
  \/ (PyStr.lower v = "btrfs" /\ t = AUTOPART_TYPE_BTRFS)
  \/ (PyStr.lower v = "plain" /\ t = AUTOPART_TYPE_PLAIN)
  \/ (PyStr.lower v = "partition" /\ t = AUTOPART_TYPE_PLAIN)
  \/ (PyStr.lower v = "thinp" /\ t = AUTOPART_TYPE_LVM_THINP
      /\ inherits cls F20 = true).
Proof.
  intros H17. unfold _type_cb. generalize (PyStr.lower v). intros k.
  destruct cls; try discriminate;
    match goal with
    | |- context [typeMap ?c] =>
        let tm := eval vm_compute in (typeMap c) in
        change (typeMap c) with tm
    end;
    cbn [typeMap_get];
    repeat match goal with
      | |- context [String.eqb ?a k] =>
          let E := fresh "E" in
          destruct (String.eqb a k) eqn:E;
          [apply String.eqb_eq in E; subst k|]
      end; intros H; inversion H; subst; tauto.
Qed.

(** X8.  From F17 on, a scheme name that [_type_cb] accepts is written back
    by [_typeAsStr] in lower case, with [partition] written as [plain];
    and [_type_cb] reads the written name as the same scheme, so that
    writing and reading the name again changes nothing. *)
Theorem type_name_roundtrip cls v t s :
  inherits cls F17 = true ->
  _type_cb cls v = inr (VType t) ->
  _typeAsStr cls (set_type (Some t) s) = Some (written_type_name (PyStr.lower v))
  /\ _type_cb cls (written_type_name (PyStr.lower v)) = inr (VType t).
Proof.
  intros H17 Hcb.
  destruct (type_cb_cases cls v t H17 Hcb)
    as [[-> ->]|[[-> ->]|[[-> ->]|[[-> ->]|(-> & -> & H20)]]]];
    destruct s; destruct cls; try discriminate H17; try discriminate H20;
    split; vm_compute; reflexivity.
Qed.

Lemma type_name_roundtrip_witness :
  _typeAsStr F26 (set_type (Some AUTOPART_TYPE_PLAIN) init)
  = Some (written_type_name (PyStr.lower "Partition"))
  /\ _type_cb F26 (written_type_name (PyStr.lower "Partition"))
     = inr (VType AUTOPART_TYPE_PLAIN).
Proof.
  apply (type_name_roundtrip F26 "Partition" AUTOPART_TYPE_PLAIN init);
    reflexivity.
Defined.

Lemma parse_type_token cls v :
  inherits cls F17 = true ->
  parse_args (_getParser cls) ["--type=" ++ v]
  = match _type_cb cls v with
    | inl e => inl e
    | inr w => inr (ns_set "type" w (ns_defaults (_getParser cls)))
    end.
Proof.
  intros H17. unfold parse_args.
  destruct cls; try discriminate H17; cbn;
    destruct (_type_cb _ v); reflexivity.
Qed.

(** X9.  The thin-provisioning scheme exists from F20 on.  A line
    [--type=thinp], in any spelling of upper and lower case, is refused as
    an invalid type by the classes F17 and F18, which leave the object as
    it was and write no [--type] for an object that holds that scheme;
    from F20 on the line sets [type] to the scheme, whatever [parse]
    answers, and the scheme is written as [thinp]. *)
Theorem thinp_from_F20 cls handler self v :
  inherits cls F17 = true ->
  PyStr.lower v = "thinp" ->
  (inherits cls F20 = false ->
   parse cls handler ["--type=" ++ v] self = (inl (InvalidAutopartType v), self)
   /\ _typeAsStr cls (set_type (Some AUTOPART_TYPE_LVM_THINP) self) = None)
  /\ (inherits cls F20 = true ->
      type (snd (parse cls handler ["--type=" ++ v] self))
      = Some AUTOPART_TYPE_LVM_THINP
      /\ _typeAsStr cls (set_type (Some AUTOPART_TYPE_LVM_THINP) self)
         = Some "thinp").
Proof.
  intros H17 Hv.
  assert (Hc : cls <> FC3) by (intros ->; discriminate).
  pose proof (parse_type_token cls v H17) as Hp.
  unfold _type_cb in Hp. rewrite Hv in Hp.
  split; intros H20.
  - split; [|destruct self; destruct cls; try discriminate; reflexivity].
    apply parse_option_error; [exact Hc|].
    rewrite Hp. destruct cls; try discriminate; reflexivity.
  - split; [|destruct self; destruct cls; try discriminate; reflexivity].
    destruct cls; try discriminate H17; try discriminate H20;
      (erewrite parse_state; [|exact Hc|rewrite Hp; reflexivity]);
      rewrite type_applied; destruct self; vm_compute; reflexivity.
Qed.

Lemma thinp_from_F20_witness :
  parse F18 fresh_handler ["--type=" ++ "ThinP"] init
  = (inl (InvalidAutopartType "ThinP"), init)
  /\ type (snd (parse F20 fresh_handler ["--type=" ++ "ThinP"] init))
     = Some AUTOPART_TYPE_LVM_THINP.
Proof.
  split.
  - apply (proj1 (thinp_from_F20 F18 fresh_handler init "ThinP"
                    eq_refl eq_refl) eq_refl).
  - apply (proj2 (thinp_from_F20 F20 fresh_handler init "ThinP"
                    eq_refl eq_refl) eq_refl).
Defined.

(** * Further properties of the serializer *)

(** ** The line is the keyword and the options in their order *)

Lemma fragments_tidy (cls : version) (s : AutoPart) :
  (PyStr.truthy (fstype s) = true -> ends_nonspace (PyStr.fmt (fstype s)) = true) ->
  Forall frag_tidy (fragments cls s).
Proof.
  intros Hf.
  assert (Ht : forall c, frag_tidy (Bare "--type" (PyStr.fmt (_typeAsStr c s)))).
  { intros c. unfold _typeAsStr.
    destruct (type s) as [[]|]; destruct c; reflexivity. }
  destruct cls;
    unfold fragments, F26_frags, RHEL7_frags, F21_frags, F18_frags, F17_frags,
      F16_frags, RHEL6_frags, F12_frags, F9_frags, cipher_frags;
    repeat (apply Forall_app; split);
    try (apply Forall_nil);
    apply Forall_opt; intros Hb;
    first [ reflexivity
          | apply Ht
          | unfold frag_tidy, text_of; rewrite <- !append_assoc;
            apply ends_nonspace_app, ends_nonspace_quoted
          | unfold frag_tidy, text_of; rewrite <- !append_assoc;
            apply ends_nonspace_app, Hf, Hb ].
Qed.

(** X10.  The text of a present command is the keyword followed by the
    options that are set, each after one space, in the order of the classes
    that introduced them, and one line feed: the strip and append steps of
    the layers of [__str__] add up to one join.  The value of [fstype],
    which is written without quotes, must not end in white space (the next
    layer would strip it). *)
Theorem str_is_keyword_and_options cls s :
  autopart s = true ->
  (PyStr.truthy (fstype s) = true -> ends_nonspace (PyStr.fmt (fstype s)) = true) ->
  __str__ cls s = flat (fragments cls s).
Proof.
  intros Ha Hf. apply str_flat; [exact Ha|]. now apply fragments_tidy.
Qed.

Lemma str_is_keyword_and_options_witness :
  __str__ F26
    (mkAutoPart true true true (Some "abc 123 ") None false
       (Some "aes-xts-plain64") true (Some AUTOPART_TYPE_LVM_THINP)
       (Some "ext4") true false true)
  = flat
      [Flag "--encrypted"; Quoted "--passphrase" "abc 123 ";
       Bare "--type" "thinp"; Quoted "--cipher" "aes-xts-plain64";
       Bare "--fstype" "ext4"; Flag "--nohome"; Flag "--noswap"].
Proof.
  apply (str_is_keyword_and_options F26
           (mkAutoPart true true true (Some "abc 123 ") None false
              (Some "aes-xts-plain64") true (Some AUTOPART_TYPE_LVM_THINP)
              (Some "ext4") true false true)); reflexivity.
Defined.

(** ** The line always starts with the keyword *)

Lemma ends_nl_nl : ends_nl PyStr.nl.
Proof. exists EmptyString. reflexivity. Qed.

Lemma ends_nl_app (x t : string) : ends_nl t -> ends_nl (x ++ t).
Proof. intros [a ->]. exists (x ++ a). now rewrite append_assoc. Qed.

Lemma opts_tail_app (x t : string) :
  ends_nl t -> opts_tail ((" --" ++ x) ++ t).
Proof.
  intros [a ->]. exists (x ++ a). now rewrite !append_assoc.
Qed.

Lemma rstrip_prefix (p x : string) :
  ends_nonspace p = true -> PyStr.rstrip (p ++ x) = p ++ PyStr.rstrip x.
Proof.
  induction p as [|c p IH]; [discriminate|].
  destruct p as [|d p'].
  - cbn [ends_nonspace append PyStr.rstrip]. intros H.
    destruct (PyStr.rstrip x); [|reflexivity].
    destruct (PyStr.isspace c); [discriminate|reflexivity].
  - intros H. change (ends_nonspace (String d p') = true) in H.
    change (String c (String d p') ++ x) with (String c (String d p' ++ x)).
    cbn [PyStr.rstrip]. cbn [PyStr.rstrip] in IH. rewrite (IH H).
    reflexivity.
Qed.

Lemma keyword_strip (r : string) :
  keyword_line r ->
  PyStr.strip r = "autopart" \/ exists b, PyStr.strip r = "autopart --" ++ b.
Proof.
  intros [->|[body ->]].
  - left. vm_compute. reflexivity.
  - right. exists (PyStr.rstrip (body ++ PyStr.nl)). unfold PyStr.strip.
    change (PyStr.lstrip ("autopart --" ++ body ++ PyStr.nl))
      with ("autopart --" ++ body ++ PyStr.nl).
    apply rstrip_prefix. reflexivity.
Qed.

(** The step of a layer: what it appends after the strip starts a new
    option and ends the line. *)
Lemma keyword_layer (r t : string) :
  keyword_line r -> opts_tail t -> keyword_line (PyStr.strip r ++ t).
Proof.
  intros Hr [b ->]. right.
  destruct (keyword_strip r Hr) as [->|[b0 ->]].
  - exists b. reflexivity.
  - exists (b0 ++ " --" ++ b). now rewrite !append_assoc.
Qed.

Ltac keyword_step H :=
  rewrite ?append_assoc; apply keyword_layer;
  [ exact H
  | apply opts_tail_app;
    repeat first [apply ends_nl_nl | apply ends_nl_app] ].

Section KeywordLayers.

Variable self : AutoPart.
Hypothesis present : autopart self = true.

Lemma F9_keyword : keyword_line (F9_str self).
Proof.
  unfold F9_str, KickstartCommand_str. rewrite present. cbn [negb].
  destruct (encrypted self); [destruct (PyStr.truthy (passphrase self))|].
  - right.
    exists ("encrypted --passphrase=" ++ PyStr.quoted (PyStr.fmt (passphrase self))).
    now rewrite !append_assoc.
  - right. exists "encrypted". reflexivity.
  - left. reflexivity.
Qed.

Lemma F12_keyword : keyword_line (F12_str self).
Proof.
  pose proof F9_keyword as H9.
  unfold F12_str. rewrite present. cbn [negb].
  set (r := F9_str self) in *.
  destruct (encrypted self && PyStr.truthy (escrowcert self)); [|exact H9].
  destruct (backuppassphrase self); keyword_step H9.
Qed.

Lemma RHEL6_keyword : keyword_line (RHEL6_str self).
Proof.
  pose proof F12_keyword as H12.
  unfold RHEL6_str. rewrite present. cbn [negb].
  set (r := F12_str self) in *.
  destruct (encrypted self && PyStr.truthy (cipher self)); [|exact H12].
  keyword_step H12.
Qed.

Lemma F16_keyword : keyword_line (F16_str self).
Proof.
  pose proof F12_keyword as H12.
  unfold F16_str. rewrite present. cbn [negb].
  set (r := F12_str self) in *.
  destruct (negb (lvm self)); [|exact H12].
  keyword_step H12.
Qed.

Lemma F17_keyword (cls : version) : keyword_line (F17_str cls self).
Proof.
  pose proof F16_keyword as H16.
  unfold F17_str. rewrite present. cbn [negb].
  set (r := F16_str self) in *.
  destruct (PyStr.truthy (_typeAsStr cls self)); [|exact H16].
  keyword_step H16.
Qed.

Lemma F18_keyword (cls : version) : keyword_line (F18_str cls self).
Proof.
  pose proof (F17_keyword cls) as H17.
  unfold F18_str. rewrite present. cbn [negb].
  set (r := F17_str cls self) in *.
  destruct (encrypted self && PyStr.truthy (cipher self)); [|exact H17].
  keyword_step H17.
Qed.

Lemma F21_keyword (cls : version) : keyword_line (F21_str cls self).
Proof.
  pose proof (F18_keyword cls) as H18.
  unfold F21_str, F20_str. rewrite present. cbn [negb].
  set (r := F18_str cls self) in *.
  destruct (PyStr.truthy (fstype self)); [|exact H18].
  keyword_step H18.
Qed.

Lemma keyword_flag (b : bool) (r name : string) :
  keyword_line r ->
  keyword_line (if b then (PyStr.strip r ++ " --" ++ name) ++ PyStr.nl else r).
Proof.
  intros Hr. destruct b; [|exact Hr].
  rewrite append_assoc. apply keyword_layer; [exact Hr|].
  apply (opts_tail_app name), ends_nl_nl.
Qed.

Lemma RHEL7_keyword (cls : version) : keyword_line (RHEL7_str cls self).
Proof.
  pose proof (F21_keyword cls) as H21.
  unfold RHEL7_str. rewrite present. cbn [negb].
  now apply (keyword_flag _ _ "nohome").
Qed.

Lemma F26_keyword (cls : version) : keyword_line (F26_str cls self).
Proof.
  pose proof (F21_keyword cls) as H21.
  unfold F26_str, F23_str. rewrite present. cbn [negb].
  apply (keyword_flag _ _ "noswap"), (keyword_flag _ _ "noboot"),
    (keyword_flag _ _ "nohome"), H21.
Qed.

End KeywordLayers.

(** X11.  Whatever its attributes hold, white space and line feeds
    included, the text of a present command starts with the keyword
    [autopart], which is followed either by the line feed or by a space and
    the two dashes of the first option, and the text ends with a line
    feed. *)
Theorem str_starts_with_keyword cls self :
  autopart self = true -> keyword_line (__str__ cls self).
Proof.
  intros Ha.
  destruct cls; unfold __str__.
  - unfold FC3_str, KickstartCommand_str. rewrite Ha. left. reflexivity.
  - now apply F9_keyword.
  - now apply F12_keyword.
  - now apply RHEL6_keyword.
  - now apply F16_keyword.
  - now apply F17_keyword.
  - now apply F18_keyword.
  - now apply F18_keyword.
  - now apply F21_keyword.
  - now apply F21_keyword.
  - now apply RHEL7_keyword.
  - now apply F26_keyword.
Qed.

Lemma str_starts_with_keyword_witness :
  keyword_line
    (__str__ F26
       (mkAutoPart true true true (Some (" a" ++ PyStr.nl ++ "b ")) None false
          (Some "aes") true None (Some ("ext4 " ++ PyStr.nl)) true false true)).
Proof.
  apply (str_starts_with_keyword F26
           (mkAutoPart true true true (Some (" a" ++ PyStr.nl ++ "b ")) None
              false (Some "aes") true None (Some ("ext4 " ++ PyStr.nl)) true
              false true)).
  reflexivity.
Defined.
